(** * SentimentService: the lexicon-based text analysis of insyte-pulse

    A shallow embedding of the static class [SentimentService]
    ([analyzeSentiment], [categorizeFeedback], [generateInsights] and their
    private helpers) together with the parts of the JavaScript runtime the
    class calls into.

    Around it, of [FormService]: [isValidUUID], the two conversions of a
    theme, the row [submitResponse] builds from the analysis and the
    sentiment breakdown of [getDashboardStats]; and of
    [FeedbackUpdateService]: [validateFeedbackData] with its default rules.
    What these functions do with the database is not part of the embedding.

    Conventions of the embedding.

    - A JavaScript string is a [string]; a character of it is read as one
      UTF-16 code unit below 256 (ASCII and the Latin-1 supplement), which is
      the range the definitions of [Js] are written for.
    - A JavaScript number that is only ever a count is a [nat]; every number
      that takes part in a division, a product with a fraction or a comparison
      with a fraction is a binary64 [float], the operations being those of
      IEEE 754 as the engine performs them.
    - A loop that updates local variables is a left fold over an explicit
      state.
    - A call that can end in a [TypeError] returns an [option]. *)

From Stdlib Require Import Bool Arith List ZArith NArith PArith Lia.
From Stdlib Require Import Ascii String.
From Stdlib Require Import Permutation Sorted.
From Stdlib Require Import Floats Uint63.
Import ListNotations.

Local Open Scope string_scope.
Local Open Scope list_scope.
Local Open Scope nat_scope.

Set Warnings "-inexact-float".

(* ================================================================== *)
(** * The JavaScript runtime the service relies on *)
(* ================================================================== *)

Module Js.

(** ** Code units *)

Definition code (c : ascii) : N := N_of_ascii c.

Definition between (lo hi : N) (c : ascii) : bool :=
  ((lo <=? code c) && (code c <=? hi))%N.

Definition is_upper (c : ascii) : bool := between 65 90 c.
Definition is_lower (c : ascii) : bool := between 97 122 c.
Definition is_digit (c : ascii) : bool := between 48 57 c.

(** [\w] of a regular expression without the [u] flag: [[A-Za-z0-9_]]. *)
Definition is_word (c : ascii) : bool :=
  is_upper c || is_lower c || is_digit c || (code c =? 95)%N.

(** [\s]: TAB, LF, VT, FF, CR, SPACE and, in the Latin-1 supplement, the
    no-break space. *)
Definition is_space (c : ascii) : bool :=
  between 9 13 c || (code c =? 32)%N || (code c =? 160)%N.

(** Upper-case letters of the Latin-1 supplement: U+00C0..U+00DE but for the
    multiplication sign U+00D7. *)
Definition is_upper_latin1 (c : ascii) : bool :=
  between 192 222 c && negb (code c =? 215)%N.

Definition lower_char (c : ascii) : ascii :=
  if is_upper c || is_upper_latin1 c then ascii_of_N (code c + 32) else c.

(** [String.prototype.toLowerCase]. *)
Fixpoint toLowerCase (s : string) : string :=
  match s with
  | EmptyString => EmptyString
  | String c s' => String (lower_char c) (toLowerCase s')
  end.

(** [Canonicalize] of a case-insensitive regular expression without the [u]
    flag: the upper-case mapping of the code unit, kept only when it is a
    single code unit and does not take a non-ASCII unit into ASCII.  The
    result may leave Latin-1 (U+00FF and U+00B5), hence a code and not a
    character. *)
Definition canonicalize (c : ascii) : N :=
  if is_lower c then (code c - 32)%N
  else if between 224 254 c && negb (code c =? 247)%N then (code c - 32)%N
  else if (code c =? 255)%N then 376%N
  else if (code c =? 181)%N then 924%N
  else code c.

Definition char_eq_ci (a b : ascii) : bool :=
  (canonicalize a =? canonicalize b)%N.

(** ** Strings *)

(** [s.replace(/[^\w\s]/g, ' ')]. *)
Definition clean_char (c : ascii) : ascii :=
  if is_word c || is_space c then c else " "%char.

Fixpoint replace_non_word (s : string) : string :=
  match s with
  | EmptyString => EmptyString
  | String c s' => String (clean_char c) (replace_non_word s')
  end.

(** [s.split(/\s+/)].  [cur] is the piece being read, in reverse; [in_ws]
    says that the previous character belonged to a separator, so that a run
    of white space separates once.  The empty string splits into one empty
    piece, and white space at either end leaves an empty piece there. *)
Fixpoint rev_string (acc s : string) : string :=
  match s with
  | EmptyString => acc
  | String c s' => rev_string (String c acc) s'
  end.

Fixpoint split_go (s cur : string) (in_ws : bool) : list string :=
  match s with
  | EmptyString => [rev_string "" cur]
  | String c s' =>
      if is_space c then
        if in_ws then split_go s' "" true
        else rev_string "" cur :: split_go s' "" true
      else split_go s' (String c cur) false
  end.

Definition split_ws (s : string) : list string := split_go s "" false.

(** [s.startsWith(p)] and [s.includes(p)]. *)
Fixpoint starts_with (p s : string) : bool :=
  match p, s with
  | EmptyString, _ => true
  | String a p', String b s' => Ascii.eqb a b && starts_with p' s'
  | String _ _, EmptyString => false
  end.

Fixpoint includes (s p : string) : bool :=
  starts_with p s ||
  match s with
  | EmptyString => false
  | String _ s' => includes s' p
  end.

(** [xs.includes(x)] on an array of strings. *)
Definition array_includes (xs : list string) (x : string) : bool :=
  existsb (String.eqb x) xs.

(** ** [RegExp('\\b' + kw + '\\b', 'gi')] and [String.prototype.match]

    The keywords are free of pattern characters, so the pattern is: a word
    boundary, the literal [kw] compared case-insensitively, a word boundary.
    [prev] is the character before the position looked at, if any. *)

Definition is_word_opt (c : option ascii) : bool :=
  match c with Some c => is_word c | None => false end.

(** [\b]: exactly one side is a word character. *)
Definition word_boundary (before after : option ascii) : bool :=
  xorb (is_word_opt before) (is_word_opt after).

Definition head (s : string) : option ascii :=
  match s with EmptyString => None | String c _ => Some c end.

(** The literal and the closing boundary, [last] being the character matched
    last (or the one before the match when nothing was matched yet). *)
Fixpoint match_literal (kw : string) (last : option ascii) (s : string) : bool :=
  match kw with
  | EmptyString => word_boundary last (head s)
  | String k kw' =>
      match s with
      | EmptyString => false
      | String c s' => char_eq_ci k c && match_literal kw' (Some c) s'
      end
  end.

Definition match_at (kw : string) (prev : option ascii) (s : string) : bool :=
  word_boundary prev (head s) && match_literal kw prev s.

(** The number of matches the global pattern finds: the scan goes from left to
    right and resumes after the end of a match; [skip] counts the characters
    of the current match still to pass. *)
Fixpoint count_matches (kw : string) (prev : option ascii) (skip : nat)
    (s : string) : nat :=
  match s with
  | EmptyString => 0
  | String c s' =>
      match skip with
      | S k => count_matches kw (Some c) k s'
      | O =>
          if match_at kw prev s
          then S (count_matches kw (Some c) (String.length kw - 1) s')
          else count_matches kw (Some c) 0 s'
      end
  end.

(** [(s.match(re) || []).length]. *)
Definition match_count (kw s : string) : nat := count_matches kw None 0 s.

(** ** Arrays *)

(** The index a relative argument of [slice] stands for. *)
Definition relative_index (len k : Z) : Z :=
  if (k <? 0)%Z then Z.max (len + k) 0 else Z.min k len.

(** [xs.slice(start, end)]; [None] is an omitted [end]. *)
Definition slice {A : Type} (xs : list A) (start : Z) (end_ : option Z) : list A :=
  let len := Z.of_nat (List.length xs) in
  let k := relative_index len start in
  let final := match end_ with
               | None => len
               | Some e => relative_index len e
               end in
  firstn (Z.to_nat (final - k)) (skipn (Z.to_nat k) xs).

(** [xs.sort(cmp)].  The sort of the language is stable; [cmp x y] is the
    number the comparison function returns, a [NaN] being read as [0] by the
    caller of [cmp].  For a comparison function that is not consistent the
    language leaves the order to the engine, and the order below need not be
    the one a given engine produces: where a comparison can return [NaN],
    the statements of this development hold of any order or leave those
    inputs out. *)
Fixpoint insert_by {A : Type} (cmp : A -> A -> Z) (x : A) (l : list A) : list A :=
  match l with
  | [] => [x]
  | y :: l' => if (0 <? cmp x y)%Z then y :: insert_by cmp x l' else x :: l
  end.

Definition sort {A : Type} (cmp : A -> A -> Z) (l : list A) : list A :=
  fold_right (insert_by cmp) [] l.

(** [[...new Set(xs)]]: the elements in the order of their first insertion. *)
Definition set_add (acc : list string) (x : string) : list string :=
  if array_includes acc x then acc else acc ++ [x].

Definition set_of (xs : list string) : list string := fold_left set_add xs [].

(** ** Objects used as maps from strings

    The own properties, in the order of their creation. *)
Definition object (V : Type) : Type := list (string * V).

Fixpoint get_own {V : Type} (o : object V) (k : string) : option V :=
  match o with
  | [] => None
  | (k', v) :: o' => if String.eqb k k' then Some v else get_own o' k
  end.

Fixpoint set_own {V : Type} (o : object V) (k : string) (v : V) : object V :=
  match o with
  | [] => [(k, v)]
  | (k', v') :: o' =>
      if String.eqb k k' then (k', v) :: o' else (k', v') :: set_own o' k v
  end.

(** The properties every object literal inherits from [Object.prototype]. *)
Definition Object_prototype_members : list string :=
  ["constructor"; "__defineGetter__"; "__defineSetter__"; "hasOwnProperty";
   "__lookupGetter__"; "__lookupSetter__"; "isPrototypeOf";
   "propertyIsEnumerable"; "toString"; "valueOf"; "__proto__";
   "toLocaleString"].

Definition inherited (k : string) : bool :=
  array_includes Object_prototype_members k.

(** An array index: the decimal numeral, without a leading zero, of a number
    below [2^32 - 1]. *)
Fixpoint numeral_value (acc : N) (s : string) : option N :=
  match s with
  | EmptyString => Some acc
  | String c s' =>
      if is_digit c then numeral_value (acc * 10 + (code c - 48)) s' else None
  end.

Definition array_index (s : string) : option N :=
  match s with
  | EmptyString => None
  | String c s' =>
      if (code c =? 48)%N && negb (String.eqb s' "") then None
      else match numeral_value 0 s with
           | Some n => if (n <? 4294967295)%N then Some n else None
           | None => None
           end
  end.

Definition index_entries {V : Type} (o : object V) : list (N * (string * V)) :=
  flat_map (fun kv => match array_index (fst kv) with
                      | Some n => [(n, kv)]
                      | None => []
                      end) o.

Definition is_index (s : string) : bool :=
  match array_index s with Some _ => true | None => false end.

(** [Object.entries(o)]: the array indices in ascending order, then the other
    keys in the order of their creation. *)
Definition entries {V : Type} (o : object V) : list (string * V) :=
  map snd (sort (fun a b => (Z.of_N (fst a) - Z.of_N (fst b))%Z) (index_entries o))
  ++ filter (fun kv => negb (is_index (fst kv))) o.

(** ** Numbers *)

Local Open Scope float_scope.

(** The number a count stands for.  The conversion is exact below [2^53],
    where every count of the service stays, a string having fewer than
    [2^53] characters and an array fewer than [2^32] elements. *)
Definition of_nat (n : nat) : float := of_uint63 (Uint63.of_Z (Z.of_nat n)).

(** [Math.min(a, b)]. *)
Definition Math_min (a b : float) : float :=
  if is_nan a || is_nan b then nan
  else if b <? a then b
  else if a <? b then a
  else if get_sign a then a else b.

(** [Math.round(x)]: the nearest integer, a tie going up. *)
Definition Math_round (x : float) : float :=
  match Prim2SF x with
  | S754_finite s m e =>
      if (0 <=? e)%Z then x
      else
        let z := if s then Zneg m else Zpos m in
        let r := Z.shiftr (z + Z.shiftl 1 (- e - 1)) (- e) in
        if (r =? 0)%Z then (if s then neg_zero else zero)
        else if (r <? 0)%Z then - of_uint63 (Uint63.of_Z (- r))
        else of_uint63 (Uint63.of_Z r)
  | _ => x
  end.

End Js.

Import Js.

(* ================================================================== *)
(** * The data model *)
(* ================================================================== *)

Inductive Sentiment : Type := Positive | Neutral | Negative.

Record Emotions : Type := {
  joy : float;
  anger : float;
  fear : float;
  sadness : float;
  surprise : float;
  disgust : float
}.

Record SentimentAnalysis : Type := {
  sentiment : Sentiment;
  confidence : float;
  categories : list string;
  keywords : list string;
  emotions : Emotions
}.

Inductive Urgency : Type := Low | Medium | High | Critical.

Record FeedbackCategorization : Type := {
  primaryCategory : string;
  secondaryCategories : list string;
  urgency : Urgency;
  actionRequired : bool;
  suggestedActions : list string
}.

Definition Sentiment_eqb (a b : Sentiment) : bool :=
  match a, b with
  | Positive, Positive | Neutral, Neutral | Negative, Negative => true
  | _, _ => false
  end.

Definition Urgency_eqb (a b : Urgency) : bool :=
  match a, b with
  | Low, Low | Medium, Medium | High, High | Critical, Critical => true
  | _, _ => false
  end.

(* ================================================================== *)
(** * The tables of the class *)
(* ================================================================== *)

Definition POSITIVE_KEYWORDS : list string :=
  ["excellent"; "amazing"; "fantastic"; "wonderful"; "great"; "good"; "love"; "perfect";
   "outstanding"; "brilliant"; "awesome"; "superb"; "magnificent"; "terrific"; "pleased";
   "satisfied"; "happy"; "delighted"; "impressed"; "recommend"; "helpful"; "friendly";
   "professional"; "efficient"; "quick"; "fast"; "easy"; "smooth"; "seamless"; "intuitive"].

Definition NEGATIVE_KEYWORDS : list string :=
  ["terrible"; "awful"; "horrible"; "bad"; "worst"; "hate"; "disgusting"; "pathetic";
   "useless"; "broken"; "failed"; "error"; "problem"; "issue"; "bug"; "slow"; "difficult";
   "confusing"; "frustrated"; "disappointed"; "angry"; "upset"; "annoyed"; "poor"; "lacking";
   "missing"; "wrong"; "incorrect"; "unacceptable"; "unprofessional"; "rude"; "unhelpful"].

Definition NEUTRAL_KEYWORDS : list string :=
  ["okay"; "fine"; "average"; "normal"; "standard"; "typical"; "regular"; "moderate";
   "acceptable"; "adequate"; "sufficient"; "reasonable"; "fair"; "decent"; "alright"].

(** The object literal, its keys in the order they are written. *)
Definition CATEGORY_KEYWORDS : object (list string) :=
  [("User Experience", ["ui"; "ux"; "interface"; "design"; "layout"; "navigation"; "usability"; "user-friendly"]);
   ("Performance", ["speed"; "fast"; "slow"; "loading"; "performance"; "lag"; "responsive"; "quick"]);
   ("Customer Service", ["support"; "service"; "staff"; "help"; "assistance"; "representative"; "agent"]);
   ("Product Quality", ["quality"; "product"; "feature"; "functionality"; "reliability"; "durability"]);
   ("Pricing", ["price"; "cost"; "expensive"; "cheap"; "value"; "money"; "affordable"; "pricing"]);
   ("Technical Issues", ["bug"; "error"; "crash"; "broken"; "glitch"; "technical"; "malfunction"]);
   ("Delivery/Shipping", ["delivery"; "shipping"; "package"; "arrived"; "delayed"; "on-time"]);
   ("Communication", ["communication"; "information"; "updates"; "notification"; "contact"]);
   ("Accessibility", ["accessibility"; "accessible"; "disability"; "screen reader"; "keyboard"]);
   ("Security", ["security"; "privacy"; "safe"; "secure"; "protection"; "data"; "personal"])].

Definition EMOTION_KEYWORDS : object (list string) :=
  [("joy", ["happy"; "joy"; "excited"; "thrilled"; "delighted"; "pleased"; "cheerful"; "elated"]);
   ("anger", ["angry"; "mad"; "furious"; "irritated"; "annoyed"; "frustrated"; "outraged"]);
   ("fear", ["scared"; "afraid"; "worried"; "anxious"; "concerned"; "nervous"; "fearful"]);
   ("sadness", ["sad"; "disappointed"; "upset"; "depressed"; "unhappy"; "miserable"; "down"]);
   ("surprise", ["surprised"; "shocked"; "amazed"; "astonished"; "unexpected"; "wow"]);
   ("disgust", ["disgusted"; "revolted"; "appalled"; "repulsed"; "sickened"; "nauseated"])].

(* ================================================================== *)
(** * analyzeSentiment and its helpers *)
(* ================================================================== *)

(** The three counters of [analyzeSentiment]. *)
Record Scores : Type := {
  positiveScore : nat;
  negativeScore : nat;
  neutralScore : nat
}.

(** The body of [words.forEach]. *)
Definition score_word (sc : Scores) (word : string) : Scores :=
  if array_includes POSITIVE_KEYWORDS word then
    {| positiveScore := S (positiveScore sc);
       negativeScore := negativeScore sc;
       neutralScore := neutralScore sc |}
  else if array_includes NEGATIVE_KEYWORDS word then
    {| positiveScore := positiveScore sc;
       negativeScore := S (negativeScore sc);
       neutralScore := neutralScore sc |}
  else if array_includes NEUTRAL_KEYWORDS word then
    {| positiveScore := positiveScore sc;
       negativeScore := negativeScore sc;
       neutralScore := S (neutralScore sc) |}
  else sc.

(** [text.toLowerCase().replace(/[^\w\s]/g, ' ').split(/\s+/)
      .filter(word => word.length > n)]. *)
Definition words_longer_than (n : nat) (text : string) : list string :=
  filter (fun word => n <? String.length word)
         (split_ws (replace_non_word (toLowerCase text))).

Definition extractCategories (text : string) : list string :=
  let lowerText := toLowerCase text in
  let foundCategories :=
    fold_left
      (fun found entry =>
         let score :=
           fold_left (fun acc keyword => acc + match_count keyword lowerText)
                     (snd entry) 0 in
         if 0 <? score then found ++ [(fst entry, score)] else found)
      (entries CATEGORY_KEYWORDS) [] in
  slice
    (map fst
       (sort (fun a b => (Z.of_nat (snd b) - Z.of_nat (snd a))%Z) foundCategories))
    0 (Some 3%Z).

Definition stopWords : list string :=
  ["this"; "that"; "with"; "have"; "will"; "from"; "they"; "know"; "want"; "been";
   "good"; "much"; "some"; "time"; "very"; "when"; "come"; "here"; "just"; "like";
   "long"; "make"; "many"; "over"; "such"; "take"; "than"; "them"; "well"; "were"].

(** A value of an object of counters: a count, or a value that reads as
    [NaN] where a number is wanted ([NaN] itself, or the string that [+ 1]
    makes of a member inherited from [Object.prototype]). *)
Inductive count_value : Type :=
| Count (n : nat)
| NotANumber.

(** [wordCount[word] = (wordCount[word] || 0) + 1].  A word that names an
    inherited member reads that member, which is an object; an assignment to
    [__proto__] of a value that is not an object changes nothing. *)
Definition count_word (wordCount : object count_value) (word : string)
  : object count_value :=
  match get_own wordCount word with
  | Some (Count n) => set_own wordCount word (Count (n + 1))
  | Some NotANumber => set_own wordCount word NotANumber
  | None =>
      if String.eqb word "__proto__" then wordCount
      else if inherited word then set_own wordCount word NotANumber
      else set_own wordCount word (Count 1)
  end.

(** [b - a] on two such values, a [NaN] counting as [0]. *)
Definition count_diff (b a : count_value) : Z :=
  match b, a with
  | Count nb, Count na => Z.of_nat nb - Z.of_nat na
  | _, _ => 0
  end.

Definition extractKeywords (text : string) : list string :=
  let words := words_longer_than 3 text in
  let filteredWords :=
    filter (fun word => negb (array_includes stopWords word)) words in
  let wordCount := fold_left count_word filteredWords [] in
  map fst
    (slice (sort (fun x y => count_diff (snd y) (snd x)) (entries wordCount))
           0 (Some 5%Z)).

(** [emotions[emotion] = value] for one of the six keys of [emotions]. *)
Definition set_emotion (emotions : Emotions) (emotion : string) (value : float)
  : Emotions :=
  if String.eqb emotion "joy" then
    {| joy := value; anger := anger emotions; fear := fear emotions;
       sadness := sadness emotions; surprise := surprise emotions;
       disgust := disgust emotions |}
  else if String.eqb emotion "anger" then
    {| joy := joy emotions; anger := value; fear := fear emotions;
       sadness := sadness emotions; surprise := surprise emotions;
       disgust := disgust emotions |}
  else if String.eqb emotion "fear" then
    {| joy := joy emotions; anger := anger emotions; fear := value;
       sadness := sadness emotions; surprise := surprise emotions;
       disgust := disgust emotions |}
  else if String.eqb emotion "sadness" then
    {| joy := joy emotions; anger := anger emotions; fear := fear emotions;
       sadness := value; surprise := surprise emotions;
       disgust := disgust emotions |}
  else if String.eqb emotion "surprise" then
    {| joy := joy emotions; anger := anger emotions; fear := fear emotions;
       sadness := sadness emotions; surprise := value;
       disgust := disgust emotions |}
  else if String.eqb emotion "disgust" then
    {| joy := joy emotions; anger := anger emotions; fear := fear emotions;
       sadness := sadness emotions; surprise := surprise emotions;
       disgust := value |}
  else emotions.

Definition analyzeEmotions (text : string) : Emotions :=
  let lowerText := toLowerCase text in
  fold_left
    (fun emotions entry =>
       let score :=
         fold_left (fun acc keyword =>
                      acc + (if includes lowerText keyword then 1 else 0))
                   (snd entry) 0 in
       set_emotion emotions (fst entry) (Math_min 1 (of_nat score * 0.3)%float))
    (entries EMOTION_KEYWORDS)
    {| joy := 0%float; anger := 0%float; fear := 0%float;
       sadness := 0%float; surprise := 0%float; disgust := 0%float |}.

(** The decision on the three counters. *)
Definition decide (sc : Scores) : Sentiment * float :=
  let totalScore := positiveScore sc + negativeScore sc + neutralScore sc in
  if totalScore =? 0 then (Neutral, 0.5%float)
  else if negativeScore sc <? positiveScore sc then
    (Positive,
     Math_min 0.95
       (0.5 + (of_nat (positiveScore sc) / of_nat totalScore) * 0.5)%float)
  else if positiveScore sc <? negativeScore sc then
    (Negative,
     Math_min 0.95
       (0.5 + (of_nat (negativeScore sc) / of_nat totalScore) * 0.5)%float)
  else (Neutral, 0.6%float).

Definition analyzeSentiment (text : string) : SentimentAnalysis :=
  let words := words_longer_than 2 text in
  let scores :=
    fold_left score_word words
              {| positiveScore := 0; negativeScore := 0; neutralScore := 0 |} in
  let '(sentiment, confidence) := decide scores in
  {| sentiment := sentiment;
     confidence := confidence;
     categories := extractCategories text;
     keywords := extractKeywords text;
     emotions := analyzeEmotions text |}.

(* ================================================================== *)
(** * categorizeFeedback *)
(* ================================================================== *)

(** The parameter the source calls [sentiment] is [analysis] here and in
    [categorizeFeedback], the name being that of a field.

    [actions_pushed] is the array [actions] once every [push] is done. *)
Definition actions_pushed (analysis : SentimentAnalysis)
    (category : string) (urgency : Urgency) : list string :=
  let actions :=
    match analysis.(sentiment) with
    | Negative =>
        ["Follow up with customer within 24 hours";
         "Investigate the reported issue"]
        ++ (if Urgency_eqb urgency Critical
            then ["Escalate to management immediately";
                  "Provide immediate resolution or workaround"]
            else [])
    | Positive =>
        ["Thank the customer for positive feedback";
         "Share feedback with relevant team";
         "Consider featuring as testimonial"]
    | Neutral => []
    end in
  actions ++
  (if String.eqb category "Technical Issues" then
     ["Forward to technical support team"; "Create bug report if applicable"]
   else if String.eqb category "Customer Service" then
     ["Review with customer service manager"; "Provide additional training if needed"]
   else if String.eqb category "Product Quality" then
     ["Forward to product development team"; "Consider for product roadmap"]
   else if String.eqb category "User Experience" then
     ["Share with UX/UI design team"; "Consider for next design iteration"]
   else if String.eqb category "Performance" then
     ["Forward to engineering team"; "Monitor system performance metrics"]
   else []).

Definition generateSuggestedActions (analysis : SentimentAnalysis)
    (category : string) (urgency : Urgency) : list string :=
  slice (set_of (actions_pushed analysis category urgency)) 0 (Some 5%Z).

Definition urgentKeywords : list string :=
  ["urgent"; "critical"; "emergency"; "immediately"; "asap"; "broken"; "not working"].

Definition highPriorityKeywords : list string :=
  ["important"; "serious"; "major"; "significant"; "problem"; "issue"].

Definition categorizeFeedback (text : string) (analysis : SentimentAnalysis)
  : FeedbackCategorization :=
  let categories := analysis.(categories) in
  let primaryCategory :=
    match categories with
    | c :: _ => if String.eqb c "" then "General Feedback"%string else c
    | [] => "General Feedback"%string
    end in
  let secondaryCategories := slice categories 1 (Some 3%Z) in
  let lowerText := toLowerCase text in
  let negative := Sentiment_eqb analysis.(sentiment) Negative in
  let urgency :=
    if existsb (fun keyword => includes lowerText keyword) urgentKeywords then
      Critical
    else if negative && (0.8 <? analysis.(confidence))%float then High
    else if existsb (fun keyword => includes lowerText keyword) highPriorityKeywords
    then Medium
    else if negative then Medium
    else Low in
  let actionRequired :=
    Urgency_eqb urgency Critical || Urgency_eqb urgency High
    || (negative && (0.7 <? analysis.(confidence))%float) in
  {| primaryCategory := primaryCategory;
     secondaryCategories := secondaryCategories;
     urgency := urgency;
     actionRequired := actionRequired;
     suggestedActions :=
       generateSuggestedActions analysis primaryCategory urgency |}.

(* ================================================================== *)
(** * generateInsights *)
(* ================================================================== *)

(** What [generateInsights] reads of a response: [sentiment] (a string or
    nothing) and, under the optional [metadata], [urgency], [actionRequired]
    and [categories]. *)
Record Metadata : Type := {
  md_urgency : option string;
  md_actionRequired : bool;
  md_categories : option (list string)
}.

Record Response : Type := {
  resp_sentiment : option string;
  resp_metadata : option Metadata
}.

Inductive Trend : Type := Improving | Declining | Stable.

Record Percentages : Type := {
  pc_positive : float;
  pc_neutral : float;
  pc_negative : float
}.

Record TopCategory : Type := {
  tc_category : string;
  tc_count : nat;
  tc_sentiment : string
}.

Record Insights : Type := {
  overallSentiment : Percentages;
  topCategories : list TopCategory;
  urgentIssues : nat;
  actionableItems : nat;
  sentimentTrend : Trend;
  categoryTrends : list (string * string)
}.

(** A string as a condition: the empty string and an absent value are false. *)
Definition truthy (s : option string) : bool :=
  match s with
  | Some s => negb (String.eqb s "")
  | None => false
  end.

(** [s === lit] for an optional string. *)
Definition is_string (s : option string) (lit : string) : bool :=
  match s with
  | Some s => String.eqb s lit
  | None => false
  end.

(** [counts[key]++] on an object of counters.  A key that is not an own
    property reads [undefined] or an inherited member, and the increment of
    either is [NaN]. *)
Definition increment (counts : object count_value) (key : string)
  : object count_value :=
  match get_own counts key with
  | Some (Count n) => set_own counts key (Count (n + 1))
  | Some NotANumber => counts
  | None =>
      if String.eqb key "__proto__" then counts
      else set_own counts key NotANumber
  end.

Definition no_counts : object count_value :=
  [("positive", Count 0); ("neutral", Count 0); ("negative", Count 0)].

(** [counts.key] read as a count. *)
Definition count_of (counts : object count_value) (key : string) : nat :=
  match get_own counts key with
  | Some (Count n) => n
  | _ => 0
  end.

(** The variables the loop over the responses updates. *)
Record Tally : Type := {
  sentimentCounts : object count_value;
  categoryMap : object (nat * list string);
  urgent : nat;
  actionable : nat
}.

(** The body of [response.metadata.categories.forEach].  A category that
    names an inherited member is found in [categoryMap] without having been
    stored, and the [push] on its absent [sentiments] is a [TypeError]. *)
Definition track_category (sentiment : string)
    (cm : option (object (nat * list string))) (category : string)
  : option (object (nat * list string)) :=
  match cm with
  | None => None
  | Some cm =>
      if inherited category then None
      else
        let '(count, sentiments) :=
          match get_own cm category with
          | Some data => data
          | None => (0, [])
          end in
        Some (set_own cm category (count + 1, sentiments ++ [sentiment]))
  end.

(** [response.metadata?.categories], an absent array having nothing to
    iterate over. *)
Definition response_categories (r : Response) : list string :=
  match r.(resp_metadata) with
  | Some m => match m.(md_categories) with Some cs => cs | None => [] end
  | None => []
  end.

(** [response.sentiment || 'neutral']. *)
Definition sentiment_or_neutral (r : Response) : string :=
  match r.(resp_sentiment) with
  | Some s => if truthy (Some s) then s else "neutral"
  | None => "neutral"
  end.

(** The body of [responses.forEach]. *)
Definition tally_response (t : option Tally) (response : Response) : option Tally :=
  match t with
  | None => None
  | Some t =>
      let counts :=
        match response.(resp_sentiment) with
        | Some s => if truthy (Some s) then increment t.(sentimentCounts) s
                    else t.(sentimentCounts)
        | None => t.(sentimentCounts)
        end in
      let urgency :=
        match response.(resp_metadata) with
        | Some m => m.(md_urgency)
        | None => None
        end in
      let urgent :=
        if is_string urgency "critical" || is_string urgency "high"
        then t.(urgent) + 1 else t.(urgent) in
      let actionable :=
        match response.(resp_metadata) with
        | Some m => if m.(md_actionRequired) then t.(actionable) + 1
                    else t.(actionable)
        | None => t.(actionable)
        end in
      match fold_left (track_category (sentiment_or_neutral response))
                      (response_categories response)
                      (Some t.(categoryMap)) with
      | None => None
      | Some cm =>
          Some {| sentimentCounts := counts;
                  categoryMap := cm;
                  urgent := urgent;
                  actionable := actionable |}
      end
  end.

(** [Object.entries(sentimentCounts).sort(([, a], [, b]) => b - a)[0][0]]. *)
Definition dominant (sentiments : list string) : string :=
  let counts := fold_left increment sentiments no_counts in
  match sort (fun x y => count_diff (snd y) (snd x)) (entries counts) with
  | (k, _) :: _ => k
  | [] => ""
  end.

(** [n / m * 100], rounded. *)
Definition percentage (n total : nat) : float :=
  Math_round ((of_nat n / of_nat total) * 100)%float.

(** The share of the responses whose sentiment is ['positive']. *)
Definition positive_share (rs : list Response) : float :=
  (of_nat (List.length
             (filter (fun r => is_string r.(resp_sentiment) "positive") rs))
   / of_nat (List.length rs))%float.

Definition generateInsights (responses : list Response) : option Insights :=
  if List.length responses =? 0 then
    Some {| overallSentiment :=
              {| pc_positive := 0%float; pc_neutral := 0%float;
                 pc_negative := 0%float |};
            topCategories := [];
            urgentIssues := 0;
            actionableItems := 0;
            sentimentTrend := Stable;
            categoryTrends := [] |}
  else
    match fold_left tally_response responses
            (Some {| sentimentCounts := no_counts; categoryMap := [];
                     urgent := 0; actionable := 0 |}) with
    | None => None
    | Some t =>
        let total := List.length responses in
        let overall :=
          {| pc_positive := percentage (count_of t.(sentimentCounts) "positive") total;
             pc_neutral := percentage (count_of t.(sentimentCounts) "neutral") total;
             pc_negative := percentage (count_of t.(sentimentCounts) "negative") total |} in
        let top :=
          slice
            (sort (fun a b => (Z.of_nat b.(tc_count) - Z.of_nat a.(tc_count))%Z)
               (map (fun entry =>
                       {| tc_category := fst entry;
                          tc_count := fst (snd entry);
                          tc_sentiment := dominant (snd (snd entry)) |})
                    (entries t.(categoryMap))))
            0 (Some 5%Z) in
        let recentResponses := slice responses (-10) None in
        let olderResponses := slice responses 0 (Some (-10)%Z) in
        let trend :=
          if (0 <? List.length recentResponses)
             && (0 <? List.length olderResponses) then
            let recentPositive := positive_share recentResponses in
            let olderPositive := positive_share olderResponses in
            if (olderPositive + 0.1 <? recentPositive)%float then Improving
            else if (recentPositive <? olderPositive - 0.1)%float then Declining
            else Stable
          else Stable in
        Some {| overallSentiment := overall;
                topCategories := top;
                urgentIssues := t.(urgent);
                actionableItems := t.(actionable);
                sentimentTrend := trend;
                categoryTrends := [] |}
    end.

(* ================================================================== *)
(** * FormService: isValidUUID *)
(* ================================================================== *)

(** A class of a pattern, as the ranges between its brackets; a single
    character is a range of one.  Under the flag [i] a character belongs to
    the class when its canonical form is that of a member. *)
Definition class : Type := list (ascii * ascii).

Definition members (range : ascii * ascii) : list ascii :=
  map (fun n => ascii_of_N (code (fst range) + N.of_nat n))
      (seq 0 (N.to_nat (code (snd range)) + 1 - N.to_nat (code (fst range)))).

Definition class_matches_ci (cls : class) (c : ascii) : bool :=
  existsb (fun range => existsb (fun member => char_eq_ci member c) (members range))
          cls.

(** [cls{n}] at the beginning of [s]: what follows it, if it is there. *)
Fixpoint match_repeat (cls : class) (n : nat) (s : string) : option string :=
  match n with
  | 0 => Some s
  | S n' =>
      match s with
      | String c s' =>
          if class_matches_ci cls c then match_repeat cls n' s' else None
      | EmptyString => None
      end
  end.

(** [/^...$/i.test(s)] for a pattern that is a sequence of classes, each
    repeated a fixed number of times: the whole of [s] has to be read. *)
Fixpoint test_sequence (pattern : list (class * nat)) (s : string) : bool :=
  match pattern with
  | [] => String.eqb s ""
  | (cls, n) :: pattern' =>
      match match_repeat cls n s with
      | Some rest => test_sequence pattern' rest
      | None => false
      end
  end.

(** [/^[0-9a-f]{8}-[0-9a-f]{4}-[1-5][0-9a-f]{3}-[89ab][0-9a-f]{3}-[0-9a-f]{12}$/i] *)
Definition uuidRegex : list (class * nat) :=
  let hex : class := [("0", "9"); ("a", "f")]%char in
  let dash : class := [("-", "-")]%char in
  [(hex, 8); (dash, 1); (hex, 4); (dash, 1);
   ([("1", "5")]%char, 1); (hex, 3); (dash, 1);
   ([("8", "8"); ("9", "9"); ("a", "a"); ("b", "b")]%char, 1); (hex, 3); (dash, 1);
   (hex, 12)].

Definition isValidUUID (uuid : string) : bool := test_sequence uuidRegex uuid.

(* ================================================================== *)
(** * FormService: themes and their rows *)
(* ================================================================== *)

(** A link of the footer, its fields [text] and [url]. *)
Record FooterLink : Type := {
  link_text : string;
  link_url : string
}.

Record Footer : Type := {
  enabled : bool;
  text : string;
  links : list FooterLink
}.

(** [FeedbackTheme].  The fields that the interface restricts to a few
    literals are strings once the program runs. *)
Record FeedbackTheme : Type := {
  primaryColor : string;
  backgroundColor : string;
  textColor : string;
  borderRadius : string;
  backgroundImage : option string;
  backgroundType : string;
  gradientDirection : string;
  gradientColors : list string;
  logo : option string;
  logoPosition : string;
  logoSize : string;
  footer : Footer;
  layout : string;
  fontFamily : string;
  spacing : string;
  animation : string
}.

(** The text of the footer begins with the two code units U+00C2 and U+00A9
    that the file of the context has before the year. *)
Definition DEFAULT_THEME : FeedbackTheme :=
  {| primaryColor := "#3B82F6";
     backgroundColor := "#FFFFFF";
     textColor := "#1F2937";
     borderRadius := "8px";
     backgroundImage := None;
     backgroundType := "color";
     gradientDirection := "to-br";
     gradientColors := ["#3B82F6"; "#8B5CF6"];
     logo := None;
     logoPosition := "top-center";
     logoSize := "medium";
     footer :=
       {| enabled := false;
          text := String (ascii_of_N 194)
                    (String (ascii_of_N 169)
                       " 2024 Your Company. All rights reserved.");
          links := [] |};
     layout := "centered";
     fontFamily := "Inter";
     spacing := "normal";
     animation := "fade" |}.

(** A row of [form_themes], as far as the two conversions go: a column that
    is [null] is [None]. *)
Module Db.

Record Theme : Type := {
  primary_color : option string;
  background_color : option string;
  text_color : option string;
  border_radius : option string;
  font_family : option string;
  background_type : option string;
  background_image : option string;
  gradient_direction : option string;
  gradient_colors : option (list string);
  logo_url : option string;
  logo_position : option string;
  logo_size : option string;
  footer_enabled : option bool;
  footer_text : option string;
  footer_links : option (list FooterLink);
  layout_style : option string;
  spacing : option string;
  animation : option string;
  custom_css : option string
}.

End Db.

(** [s || null] and [s || undefined] for a string that may be absent. *)
Definition or_nothing (s : option string) : option string :=
  if truthy s then s else None.

(** [s || d] for a string that may be absent. *)
Definition or_string (s : option string) (d : string) : string :=
  match s with
  | Some s' => if truthy s then s' else d
  | None => d
  end.

(** [xs || d] for an array that may be absent: an array holds, even empty. *)
Definition or_array {A : Type} (xs : option (list A)) (d : list A) : list A :=
  match xs with
  | Some xs' => xs'
  | None => d
  end.

(** [b || d] for a boolean that may be absent. *)
Definition or_bool (b : option bool) (d : bool) : bool :=
  match b with
  | Some true => true
  | _ => d
  end.

Definition themeToDatabase (theme : FeedbackTheme) : Db.Theme :=
  {| Db.primary_color := Some theme.(primaryColor);
     Db.background_color := Some theme.(backgroundColor);
     Db.text_color := Some theme.(textColor);
     Db.border_radius := Some theme.(borderRadius);
     Db.font_family := Some theme.(fontFamily);
     Db.background_type := Some theme.(backgroundType);
     Db.background_image := or_nothing theme.(backgroundImage);
     Db.gradient_direction := Some theme.(gradientDirection);
     Db.gradient_colors := Some theme.(gradientColors);
     Db.logo_url := or_nothing theme.(logo);
     Db.logo_position := Some theme.(logoPosition);
     Db.logo_size := Some theme.(logoSize);
     Db.footer_enabled := Some theme.(footer).(enabled);
     Db.footer_text := Some theme.(footer).(text);
     Db.footer_links := Some theme.(footer).(links);
     Db.layout_style := Some theme.(layout);
     Db.spacing := Some theme.(spacing);
     Db.animation := Some theme.(animation);
     Db.custom_css := Some "" |}.

Definition databaseToTheme (dbTheme : Db.Theme) : FeedbackTheme :=
  {| primaryColor := or_string dbTheme.(Db.primary_color) DEFAULT_THEME.(primaryColor);
     backgroundColor :=
       or_string dbTheme.(Db.background_color) DEFAULT_THEME.(backgroundColor);
     textColor := or_string dbTheme.(Db.text_color) DEFAULT_THEME.(textColor);
     borderRadius := or_string dbTheme.(Db.border_radius) DEFAULT_THEME.(borderRadius);
     fontFamily := or_string dbTheme.(Db.font_family) DEFAULT_THEME.(fontFamily);
     backgroundType :=
       or_string dbTheme.(Db.background_type) DEFAULT_THEME.(backgroundType);
     backgroundImage := or_nothing dbTheme.(Db.background_image);
     gradientDirection :=
       or_string dbTheme.(Db.gradient_direction) DEFAULT_THEME.(gradientDirection);
     gradientColors :=
       or_array dbTheme.(Db.gradient_colors) DEFAULT_THEME.(gradientColors);
     logo := or_nothing dbTheme.(Db.logo_url);
     logoPosition := or_string dbTheme.(Db.logo_position) DEFAULT_THEME.(logoPosition);
     logoSize := or_string dbTheme.(Db.logo_size) DEFAULT_THEME.(logoSize);
     footer :=
       {| enabled := or_bool dbTheme.(Db.footer_enabled) DEFAULT_THEME.(footer).(enabled);
          text := or_string dbTheme.(Db.footer_text) DEFAULT_THEME.(footer).(text);
          links := or_array dbTheme.(Db.footer_links) DEFAULT_THEME.(footer).(links) |};
     layout := or_string dbTheme.(Db.layout_style) DEFAULT_THEME.(layout);
     spacing := or_string dbTheme.(Db.spacing) DEFAULT_THEME.(spacing);
     animation := or_string dbTheme.(Db.animation) DEFAULT_THEME.(animation) |}.

(* ================================================================== *)
(** * FormService: the row of a submission *)
(* ================================================================== *)

(** A value of [responseData]: a string, a number, or a value of another
    type. *)
Inductive value : Type :=
| VString (s : string)
| VNumber (x : float)
| VOther.

(** [Object.values(o)]. *)
Definition values {V : Type} (o : object V) : list V := map snd (entries o).

(** [xs.join(sep)] on an array of strings. *)
Fixpoint join (sep : string) (xs : list string) : string :=
  match xs with
  | [] => ""
  | [x] => x
  | x :: xs' => String.append x (String.append sep (join sep xs'))
  end.

(** The strings among the values for which
    [typeof value === 'string' && value.length > 10] holds. *)
Definition long_strings (vs : list value) : list string :=
  flat_map (fun v => match v with
                     | VString s => if 10 <? String.length s then [s] else []
                     | _ => []
                     end) vs.

Definition textResponses (responseData : object value) : string :=
  join " " (long_strings (values responseData)).

(** [sentimentAnalysis] and [categorization], both [null] unless the text is
    longer than ten characters. *)
Definition analysis_of (responseData : object value)
  : option (SentimentAnalysis * FeedbackCategorization) :=
  let textResponses := textResponses responseData in
  if 10 <? String.length textResponses then
    let sentimentAnalysis := analyzeSentiment textResponses in
    Some (sentimentAnalysis, categorizeFeedback textResponses sentimentAnalysis)
  else None.

(** The strings of the two enumerations. *)
Definition Sentiment_string (s : Sentiment) : string :=
  match s with
  | Positive => "positive"
  | Neutral => "neutral"
  | Negative => "negative"
  end.

Definition Urgency_string (u : Urgency) : string :=
  match u with
  | Low => "low"
  | Medium => "medium"
  | High => "high"
  | Critical => "critical"
  end.

(** The row [submitResponse] inserts, as far as [generateInsights] reads it:
    [sentiment] and, in [metadata], [urgency], [actionRequired] and
    [categories]. *)
Definition inserted_row (responseData : object value) : Response :=
  let analysis := analysis_of responseData in
  {| resp_sentiment :=
       match analysis with
       | Some (sentimentAnalysis, _) =>
           or_nothing (Some (Sentiment_string sentimentAnalysis.(sentiment)))
       | None => None
       end;
     resp_metadata :=
       Some {| md_urgency :=
                 Some (match analysis with
                       | Some (_, categorization) =>
                           or_string
                             (Some (Urgency_string categorization.(urgency))) "low"
                       | None => "low"
                       end);
               md_actionRequired :=
                 match analysis with
                 | Some (_, categorization) => categorization.(actionRequired)
                 | None => false
                 end;
               md_categories :=
                 Some (match analysis with
                       | Some (_, categorization) =>
                           if truthy (Some categorization.(primaryCategory))
                           then categorization.(primaryCategory)
                                :: categorization.(secondaryCategories)
                           else []
                       | None => []
                       end) |} |}.

(* ================================================================== *)
(** * FormService: the sentiment breakdown of the dashboard *)
(* ================================================================== *)

(** [o.hasOwnProperty(k)]. *)
Definition hasOwnProperty {V : Type} (o : object V) (k : string) : bool :=
  match get_own o k with
  | Some _ => true
  | None => false
  end.

(** The body of [allResponses.forEach] in [getDashboardStats]. *)
Definition count_own_sentiment (sentimentCounts : object count_value)
    (response : Response) : object count_value :=
  match response.(resp_sentiment) with
  | Some s =>
      if truthy (Some s) && hasOwnProperty sentimentCounts s
      then increment sentimentCounts s
      else sentimentCounts
  | None => sentimentCounts
  end.

(** [sentimentBreakdown] of [getDashboardStats], from the responses that are
    left once the deleted and the hidden ones are filtered out. *)
Definition sentimentBreakdown (allResponses : list Response) : Percentages :=
  let totalResponses := List.length allResponses in
  let sentimentCounts := fold_left count_own_sentiment allResponses no_counts in
  if 0 <? totalResponses then
    {| pc_positive := percentage (count_of sentimentCounts "positive") totalResponses;
       pc_neutral := percentage (count_of sentimentCounts "neutral") totalResponses;
       pc_negative := percentage (count_of sentimentCounts "negative") totalResponses |}
  else {| pc_positive := 0%float; pc_neutral := 0%float; pc_negative := 0%float |}.

(* ================================================================== *)
(** * FeedbackUpdateService: validateFeedbackData *)
(* ================================================================== *)

(** [FeedbackValidationRules].  Every rule, and every group of rules, may be
    absent. *)
Record CommentRules : Type := {
  comment_minLength : option float;
  comment_maxLength : option float;
  comment_required : option bool
}.

Record RatingRules : Type := {
  rating_min : option float;
  rating_max : option float;
  rating_required : option bool
}.

Record CategoryRules : Type := {
  maxCount : option float;
  allowedCategories : option (list string)
}.

Record NotesRules : Type := {
  notes_maxLength : option float
}.

Record FeedbackValidationRules : Type := {
  rules_comment : option CommentRules;
  rules_rating : option RatingRules;
  rules_categories : option CategoryRules;
  rules_notes : option NotesRules
}.

Definition DEFAULT_VALIDATION_RULES : FeedbackValidationRules :=
  {| rules_comment :=
       Some {| comment_minLength := Some 1%float;
               comment_maxLength := Some 5000%float;
               comment_required := Some false |};
     rules_rating :=
       Some {| rating_min := Some 1%float;
               rating_max := Some 10%float;
               rating_required := Some false |};
     rules_categories :=
       Some {| maxCount := Some 10%float;
               allowedCategories :=
                 Some ["User Experience"; "Performance"; "Customer Service";
                       "Product Quality"; "Pricing"; "Technical Issues";
                       "Delivery/Shipping"; "Communication"; "Accessibility";
                       "Security"; "Feature Request"; "Bug Report"] |};
     rules_notes := Some {| notes_maxLength := Some 2000%float |} |}.

(** [FeedbackUpdateData] as [validateFeedbackData] reads it, every field
    having the type the interface gives it; a field that is [undefined] is
    [None].  The checks of the function on the types themselves ([typeof],
    [Array.isArray], [=== null]) are then never met. *)
Record FeedbackUpdateData : Type := {
  upd_id : string;
  upd_comment : option string;
  upd_sentiment : option string;
  upd_urgency : option string;
  upd_categories : option (list string);
  upd_rating : option float;
  upd_notes : option string;
  upd_isVisible : option bool
}.

(** The messages of [errors], the numbers and names they quote being
    arguments.  Three of them need a field of another type than its own and
    are not met here: that the rating is required, that the categories must
    be an array, that the visibility must be a boolean. *)
Inductive validation_error : Type :=
| Invalid_feedback_ID_format
| Comment_is_required
| Comment_must_be_at_least (minLength : float)
| Comment_must_not_exceed (maxLength : float)
| Rating_is_required
| Rating_must_be_at_least (min : float)
| Rating_must_not_exceed (max : float)
| Rating_must_be_a_whole_number
| Invalid_sentiment_value
| Invalid_urgency_value
| Categories_must_be_an_array
| Cannot_have_more_than (maxCount : float)
| Invalid_categories (invalidCategories : list string)
| Duplicate_categories_are_not_allowed
| Notes_must_not_exceed (maxLength : float)
| Visibility_must_be_a_boolean_value.

(** A number as a condition: [0], [-0] and [NaN] are false. *)
Definition number_truthy (x : float) : bool :=
  negb (x =? 0)%float && negb (is_nan x).

(** [Number.isInteger(x)]. *)
Definition Number_isInteger (x : float) : bool :=
  match Prim2SF x with
  | S754_zero _ => true
  | S754_finite _ m e => (0 <=? e)%Z || (Zpos m mod 2 ^ (- e) =? 0)%Z
  | _ => false
  end.

(** [s.trim()]. *)
Fixpoint trim_start (s : string) : string :=
  match s with
  | EmptyString => EmptyString
  | String c s' => if is_space c then trim_start s' else s
  end.

Definition trim (s : string) : string :=
  rev_string "" (trim_start (rev_string "" (trim_start s))).

(** [rule && test(rule)] for a rule that is a number and may be absent. *)
Definition number_rule (rule : option float) (test : float -> bool) : bool :=
  match rule with
  | Some x => number_truthy x && test x
  | None => false
  end.

(** [errors.push(e)] under a condition, [errors] being the concatenation of
    what is pushed. *)
Definition push_if (condition : bool) (e : validation_error)
  : list validation_error :=
  if condition then [e] else [].

Definition validateFeedbackData (data : FeedbackUpdateData)
    (rules : FeedbackValidationRules) : bool * list validation_error :=
  let comment_rule {A : Type} (get : CommentRules -> option A) : option A :=
    match rules.(rules_comment) with Some r => get r | None => None end in
  let rating_rule {A : Type} (get : RatingRules -> option A) : option A :=
    match rules.(rules_rating) with Some r => get r | None => None end in
  let categories_rule {A : Type} (get : CategoryRules -> option A) : option A :=
    match rules.(rules_categories) with Some r => get r | None => None end in
  let errors :=
    push_if (negb (truthy (Some data.(upd_id))) || negb (isValidUUID data.(upd_id)))
            Invalid_feedback_ID_format
    ++ match data.(upd_comment) with
       | Some comment =>
           push_if (match comment_rule comment_required with
                    | Some true =>
                        negb (truthy (Some comment))
                        || (String.length (trim comment) =? 0)
                    | _ => false
                    end)
                   Comment_is_required
           ++ match comment_rule comment_minLength with
              | Some minLength =>
                  push_if (truthy (Some comment) && number_truthy minLength
                           && (of_nat (String.length comment) <? minLength)%float)
                          (Comment_must_be_at_least minLength)
              | None => []
              end
           ++ match comment_rule comment_maxLength with
              | Some maxLength =>
                  push_if (truthy (Some comment) && number_truthy maxLength
                           && (maxLength <? of_nat (String.length comment))%float)
                          (Comment_must_not_exceed maxLength)
              | None => []
              end
       | None => []
       end
    ++ match data.(upd_rating) with
       | Some rating =>
           match rating_rule rating_min with
           | Some min =>
               push_if (number_truthy min && (rating <? min)%float)
                       (Rating_must_be_at_least min)
           | None => []
           end
           ++ match rating_rule rating_max with
              | Some max =>
                  push_if (number_truthy max && (max <? rating)%float)
                          (Rating_must_not_exceed max)
              | None => []
              end
           ++ push_if (negb (Number_isInteger rating)) Rating_must_be_a_whole_number
       | None => []
       end
    ++ match data.(upd_sentiment) with
       | Some sentiment =>
           push_if (negb (array_includes ["positive"; "neutral"; "negative"] sentiment))
                   Invalid_sentiment_value
       | None => []
       end
    ++ match data.(upd_urgency) with
       | Some urgency =>
           push_if (negb (array_includes ["low"; "medium"; "high"; "critical"] urgency))
                   Invalid_urgency_value
       | None => []
       end
    ++ match data.(upd_categories) with
       | Some categories =>
           match categories_rule maxCount with
           | Some maxCount =>
               push_if (number_truthy maxCount
                        && (maxCount <? of_nat (List.length categories))%float)
                       (Cannot_have_more_than maxCount)
           | None => []
           end
           ++ match categories_rule allowedCategories with
              | Some allowedCategories =>
                  let invalidCategories :=
                    filter (fun cat => negb (array_includes allowedCategories cat))
                           categories in
                  push_if (0 <? List.length invalidCategories)
                          (Invalid_categories invalidCategories)
              | None => []
              end
           ++ push_if (negb (List.length (set_of categories)
                             =? List.length categories))
                      Duplicate_categories_are_not_allowed
       | None => []
       end
    ++ match data.(upd_notes), rules.(rules_notes) with
       | Some notes, Some {| notes_maxLength := Some maxLength |} =>
           push_if (number_truthy maxLength
                    && (maxLength <? of_nat (String.length notes))%float)
                   (Notes_must_not_exceed maxLength)
       | _, _ => []
       end in
  (List.length errors =? 0, errors).

(* ================================================================== *)
(** * The vocabulary of the statements *)
(* ================================================================== *)

(** [s] contains [p] as a substring. *)
Definition contains (s p : string) : Prop :=
  exists pre post, s = String.append pre (String.append p post).

Definition contains_any (s : string) (vocabulary : list string) : Prop :=
  exists keyword, In keyword vocabulary /\ contains s keyword.

(** A list without its repetitions, every element where it occurs first. *)
Fixpoint first_occurrences (xs : list string) : list string :=
  match xs with
  | [] => []
  | x :: xs' =>
      x :: filter (fun y => negb (String.eqb y x)) (first_occurrences xs')
  end.

(** The number of tokens that are words of a lexicon. *)
Definition hits (lexicon tokens : list string) : nat :=
  List.length
    (filter (fun token => if in_dec string_dec token lexicon then true else false)
            tokens).

(** Two characters that are the same once in lower case. *)
Definition same_letter (a b : ascii) : bool :=
  Ascii.eqb (lower_char a) (lower_char b).

(** [reads kw s] is what follows [kw] in [s] when [s] begins with [kw], the
    case of the letters apart. *)
Fixpoint reads (kw s : string) : option string :=
  match kw with
  | EmptyString => Some s
  | String k kw' =>
      match s with
      | EmptyString => None
      | String c s' => if same_letter k c then reads kw' s' else None
      end
  end.

(** A whole-word occurrence of [kw] begins [s]: [kw] is read there, no word
    character comes right before it ([prev]) and none right after it. *)
Definition occurs_here (kw : string) (prev : option ascii) (s : string) : bool :=
  negb (is_word_opt prev)
  && match reads kw s with
     | Some rest => negb (is_word_opt (head rest))
     | None => false
     end.

(** The number of places of [s] where a whole-word occurrence of [kw]
    begins. *)
Fixpoint occurrences_from (kw : string) (prev : option ascii) (s : string) : nat :=
  match s with
  | EmptyString => 0
  | String c s' =>
      (if occurs_here kw prev s then 1 else 0) + occurrences_from kw (Some c) s'
  end.

Definition whole_word_occurrences (kw text : string) : nat :=
  occurrences_from kw None text.

(** The place of a name in a list of names. *)
Fixpoint position_in (names : list string) (name : string) : nat :=
  match names with
  | [] => 0
  | n :: names' => if String.eqb name n then 0 else S (position_in names' name)
  end.

(** No category of the collection names a member of [Object.prototype]. *)
Definition plain_categories (rs : list Response) : Prop :=
  forall (r : Response) (c : string),
    In r rs -> In c (response_categories r) -> inherited c = false.

(** The number of responses whose sentiment is the string [s]. *)
Definition with_sentiment (s : string) (rs : list Response) : nat :=
  List.length (filter (fun r => is_string r.(resp_sentiment) s) rs).

Definition response_of (s : string) : Response :=
  {| resp_sentiment := Some s; resp_metadata := None |}.

Definition neutral_pricing : SentimentAnalysis :=
  {| sentiment := Neutral;
     confidence := 0.5%float;
     categories := ["Pricing"];
     keywords := [];
     emotions := {| joy := 0%float; anger := 0%float; fear := 0%float;
                    sadness := 0%float; surprise := 0%float;
                    disgust := 0%float |} |}.

(** [response.metadata?.urgency] is ['critical'] or ['high']. *)
Definition is_urgent (r : Response) : bool :=
  match r.(resp_metadata) with
  | Some m => is_string m.(md_urgency) "critical" || is_string m.(md_urgency) "high"
  | None => false
  end.

(** [response.metadata?.actionRequired] holds. *)
Definition needs_action (r : Response) : bool :=
  match r.(resp_metadata) with
  | Some m => m.(md_actionRequired)
  | None => false
  end.

(** The number of times the responses list the category [c], a response
    that lists it twice counting twice. *)
Definition listings (c : string) (rs : list Response) : nat :=
  count_occ string_dec (flat_map response_categories rs) c.

(** The same number among the responses whose sentiment, neutral when it
    is absent or empty, is [s]. *)
Definition listings_with (s c : string) (rs : list Response) : nat :=
  listings c (filter (fun r => String.eqb (sentiment_or_neutral r) s) rs).

(** The most frequent of the three sentiments; of two that are as frequent,
    positive before neutral before negative. *)
Definition most_frequent (positive neutral negative : nat) : string :=
  if (neutral <=? positive) && (negative <=? positive) then "positive"
  else if negative <=? neutral then "neutral"
  else "negative".

(** [c] is one of the characters of [s]. *)
Definition one_of (s : string) (c : ascii) : bool :=
  existsb (Ascii.eqb c) (list_ascii_of_string s).

(** What the place [i] of an identifier may hold: a hyphen at the places 8,
    13, 18 and 23, a version from 1 to 5 at the place 14, a variant 8, 9, a
    or b at the place 19, and a hexadecimal digit elsewhere. *)
Definition uuid_character (i : nat) (c : ascii) : bool :=
  if (i =? 8) || (i =? 13) || (i =? 18) || (i =? 23) then one_of "-" c
  else if i =? 14 then one_of "12345" c
  else if i =? 19 then one_of "89abAB" c
  else one_of "0123456789abcdefABCDEF" c.

(** A string that may be absent is not the empty string. *)
Definition not_empty (s : option string) : bool :=
  match s with
  | Some s' => negb (String.eqb s' "")
  | None => true
  end.

(** No text of the theme is empty: the thirteen strings it always has, and
    the image and the logo when it has them. *)
Definition filled (theme : FeedbackTheme) : bool :=
  forallb (fun s => negb (String.eqb s ""))
          [theme.(primaryColor); theme.(backgroundColor); theme.(textColor);
           theme.(borderRadius); theme.(fontFamily); theme.(backgroundType);
           theme.(gradientDirection); theme.(logoPosition); theme.(logoSize);
           theme.(footer).(text); theme.(layout); theme.(spacing);
           theme.(animation)]
  && not_empty theme.(backgroundImage)
  && not_empty theme.(logo).

(** An update that gives nothing but categories to the feedback [id]. *)
Definition categories_update (id : string) (categories : list string)
  : FeedbackUpdateData :=
  {| upd_id := id;
     upd_comment := None;
     upd_sentiment := None;
     upd_urgency := None;
     upd_categories := Some categories;
     upd_rating := None;
     upd_notes := None;
     upd_isVisible := None |}.

(** The categories the default rules allow. *)
Definition default_categories : list string :=
  match DEFAULT_VALIDATION_RULES.(rules_categories) with
  | Some {| allowedCategories := Some allowed |} => allowed
  | _ => []
  end.

(** The capitals and the small letters of the alphabet, in the same
    order. *)
Definition capitals : string := "ABCDEFGHIJKLMNOPQRSTUVWXYZ".

Definition small_letters : string := "abcdefghijklmnopqrstuvwxyz".

(** The character that stands in [replacements] where [c] stands in
    [characters]; [c] itself when it is not among them. *)
Fixpoint replaced (characters replacements : string) (c : ascii) : ascii :=
  match characters, replacements with
  | String a characters', String b replacements' =>
      if Ascii.eqb c a then b else replaced characters' replacements' c
  | _, _ => c
  end.

(** A capital as its small letter; any other character as it is. *)
Definition small (c : ascii) : ascii := replaced capitals small_letters c.

(** A string with its capitals made small. *)
Fixpoint in_small_letters (s : string) : string :=
  match s with
  | EmptyString => EmptyString
  | String c s' => String (small c) (in_small_letters s')
  end.

(** A letter, a digit or the underscore. *)
Definition word_character (c : ascii) : bool :=
  one_of "abcdefghijklmnopqrstuvwxyzABCDEFGHIJKLMNOPQRSTUVWXYZ0123456789_" c.

(** The words of a text: its longest runs of word characters, in small
    letters, from left to right.  A run may be empty: the first is the one
    the text begins with, and one begins after every other character. *)
Fixpoint words_of (text : string) : list string :=
  match text with
  | EmptyString => [""]
  | String c text' =>
      if word_character c then
        match words_of text' with
        | word :: words => String (small c) word :: words
        | [] => [String (small c) ""]
        end
      else "" :: words_of text'
  end.

(** [text] holds a keyword of the vocabulary, written in capitals, in small
    letters or in both. *)
Definition mentions (text : string) (vocabulary : list string) : Prop :=
  exists keyword pre word post : string,
    In keyword vocabulary
    /\ text = String.append pre (String.append word post)
    /\ in_small_letters word = keyword.

(* ================================================================== *)
(** * Notions of the proofs *)
(* ================================================================== *)

(** The names of the own properties. *)
Definition keys {V : Type} (o : object V) : list string := map fst o.

(** Every character of [s] is a lower-case one. *)
Fixpoint lower_cased (s : string) : bool :=
  match s with
  | EmptyString => true
  | String c s' => Ascii.eqb (lower_char c) c && lower_cased s'
  end.

(** What the loop does to [sentimentCounts] for one response. *)
Definition count_sentiment (counts : object count_value) (r : Response)
  : object count_value :=
  match r.(resp_sentiment) with
  | Some s => if truthy (Some s) then increment counts s else counts
  | None => counts
  end.

(** The share, out of 1, of the responses of a window that are positive. *)
Definition positive_fraction (window : list Response) : float :=
  (of_nat (with_sentiment "positive" window) / of_nat (List.length window))%float.

(** The trend of a collection, its last ten responses set against all the
    earlier ones. *)
Definition trend_of (rs : list Response) : Trend :=
  let older := firstn (List.length rs - 10) rs in
  let recent := skipn (List.length rs - 10) rs in
  if (0 <? List.length recent) && (0 <? List.length older) then
    if (positive_fraction older + 0.1 <? positive_fraction recent)%float
    then Improving
    else if (positive_fraction recent <? positive_fraction older - 0.1)%float
    then Declining
    else Stable
  else Stable.

(** The codes [canonicalize] gives to the word characters. *)
Definition word_code (n : N) : bool :=
  ((65 <=? n) && (n <=? 90) || (48 <=? n) && (n <=? 57) || (n =? 95))%N.

(** The lower-case character of a canonical code. *)
Definition lower_of_code (n : N) : ascii :=
  if (n =? 376)%N then ascii_of_N 255
  else if (n =? 924)%N then ascii_of_N 181
  else lower_char (ascii_of_N n).

(** What the argument needs of a keyword: it begins and ends with a word
    character, and no part of it after a character that is not a word
    character begins like the keyword itself. *)
Fixpoint ends_with_word (k : ascii) (rest : string) : bool :=
  match rest with
  | EmptyString => is_word k
  | String k' rest' => ends_with_word k' rest'
  end.

Fixpoint overlap_free_from (k0 prev : ascii) (rest : string) : bool :=
  match rest with
  | EmptyString => true
  | String k rest' =>
      (is_word prev || negb (char_eq_ci k k0)) && overlap_free_from k0 k rest'
  end.

Definition plain_keyword (kw : string) : bool :=
  match kw with
  | EmptyString => false
  | String k0 rest =>
      is_word k0 && ends_with_word k0 rest && overlap_free_from k0 k0 rest
  end.

(** The lower-case character, if any. *)
Definition lower_opt (c : option ascii) : option ascii := option_map lower_char c.

(** No match begins at any of the next [n] places. *)
Fixpoint quiet (kw : string) (prev : option ascii) (n : nat) (s : string) : Prop :=
  match n, s with
  | S n', String c s' => match_at kw prev s = false /\ quiet kw (Some c) n' s'
  | _, _ => True
  end.

(** [(a, b) => b.score - a.score]. *)
Definition by_score_desc {A : Type} (score : A -> nat) (a b : A) : Z :=
  (Z.of_nat (score b) - Z.of_nat (score a))%Z.

(** [a] comes before [b]: a higher score, or the same score and an earlier
    place in the input. *)
Definition ranks_before {A : Type} (score pos : A -> nat) (a b : A) : Prop :=
  score b < score a \/ (score a = score b /\ pos a < pos b).

(** A number that is not [NaN] and has the sign [s]. *)
Definition signed (s : bool) (x : spec_float) : Prop :=
  match x with
  | S754_zero s' | S754_infinity s' | S754_finite s' _ _ => s' = s
  | S754_nan => False
  end.

(** One half. *)
Definition half_sf : spec_float := S754_finite false 4503599627370496 (-53).

(** The pairs of a category and a sentiment that the loop of
    [generateInsights] meets, in its order. *)
Definition events (rs : list Response) : list (string * string) :=
  flat_map (fun r => map (fun c => (c, sentiment_or_neutral r))
                         (response_categories r)) rs.

Definition sentiments_of (c : string) (evs : list (string * string)) : list string :=
  map snd (filter (fun e => String.eqb (fst e) c) evs).

Definition track_event (cm : option (object (nat * list string)))
    (e : string * string) : option (object (nat * list string)) :=
  track_category (snd e) cm (fst e).

(** [categoryMap] holds, for every category met, the sentiments it was met
    with and their number. *)
Definition tracked (cm : object (nat * list string))
    (evs : list (string * string)) : Prop :=
  forall c : string,
    get_own cm c = match sentiments_of c evs with
                   | [] => None
                   | ss => Some (List.length ss, ss)
                   end.

(** An element of [topCategories]. *)
Definition top_category (entry : string * (nat * list string)) : TopCategory :=
  {| tc_category := fst entry;
     tc_count := fst (snd entry);
     tc_sentiment := dominant (snd (snd entry)) |}.

Definition three_counts (p n g : nat) : object count_value :=
  [("positive", Count p); ("neutral", Count n); ("negative", Count g)].

(** [wordCount] holds, for every word met, the number of times it was
    met. *)
Definition counted (wordCount : object count_value) (words : list string) : Prop :=
  forall w : string,
    get_own wordCount w = match count_occ string_dec words w with
                          | 0 => None
                          | n => Some (Count n)
                          end.

(** The count an entry of [wordCount] holds. *)
Definition entry_count (entry : string * count_value) : nat :=
  match snd entry with Count n => n | NotANumber => 0 end.

(** The classes of a pattern, one for each character it reads. *)
Definition expand (pattern : list (class * nat)) : list class :=
  flat_map (fun item => repeat (fst item) (snd item)) pattern.

Fixpoint match_classes (classes : list class) (s : string) : bool :=
  match classes, s with
  | [], EmptyString => true
  | cls :: classes', String c s' =>
      class_matches_ci cls c && match_classes classes' s'
  | _, _ => false
  end.

(** [p] put before the first of the words. *)
Definition attach (p : string) (words : list string) : list string :=
  match words with
  | word :: words' => String.append p word :: words'
  | [] => [p]
  end.

(** Every character of [s] is one of ASCII. *)
Fixpoint ascii_only (s : string) : bool :=
  match s with
  | EmptyString => true
  | String c s' => (code c <? 128)%N && ascii_only s'
  end.

(* ================================================================== *)
(** * Facts about the runtime *)
(* ================================================================== *)

Section Substrings.

Lemma starts_with_spec (p s : string) :
  starts_with p s = true <-> exists post, s = String.append p post.
Proof.
  revert s. induction p as [|a p IH]; intros s; simpl.
  - split; [intros _; now exists s | reflexivity].
  - destruct s as [|b s].
    + split; [discriminate | intros [post H]; discriminate].
    + rewrite andb_true_iff, Ascii.eqb_eq, IH. split.
      * intros [-> [post ->]]. now exists post.
      * intros [post H]. injection H as -> ->. split; [reflexivity | now exists post].
Qed.

Lemma includes_spec (s p : string) :
  includes s p = true <-> contains s p.
Proof.
  unfold contains. induction s as [|c s IH].
  - simpl. rewrite orb_false_r, starts_with_spec. split.
    + intros [post H]. now exists "", post.
    + intros [pre [post H]]. destruct pre; [now exists post | discriminate].
  - simpl. rewrite orb_true_iff, IH, starts_with_spec. split.
    + intros [[post H] | [pre [post H]]].
      * now exists "", post.
      * exists (String c pre), post. simpl. now rewrite H.
    + intros [pre [post H]]. destruct pre as [|c' pre].
      * left. now exists post.
      * right. simpl in H. injection H as _ H. now exists pre, post.
Qed.

Lemma includes_any_spec (s : string) (vocabulary : list string) :
  existsb (fun keyword => includes s keyword) vocabulary = true
  <-> contains_any s vocabulary.
Proof.
  unfold contains_any. rewrite existsb_exists.
  split; intros [k [Hin H]]; exists k; split; trivial; now apply includes_spec.
Qed.

Lemma toLowerCase_append (a b : string) :
  toLowerCase (String.append a b)
  = String.append (toLowerCase a) (toLowerCase b).
Proof.
  induction a as [|c a IH]; simpl; [reflexivity | now rewrite IH].
Qed.

End Substrings.

Section FirstOccurrences.

Lemma array_includes_In (xs : list string) (x : string) :
  array_includes xs x = true <-> In x xs.
Proof.
  unfold array_includes. rewrite existsb_exists. split.
  - intros [y [Hin Heq]]. apply String.eqb_eq in Heq. now subst.
  - intros Hin. exists x. split; [assumption | apply String.eqb_refl].
Qed.

Lemma array_includes_app (xs ys : list string) (x : string) :
  array_includes (xs ++ ys) x = array_includes xs x || array_includes ys x.
Proof. unfold array_includes. apply existsb_app. Qed.

Lemma filter_filter {A : Type} (f g : A -> bool) (l : list A) :
  filter f (filter g l) = filter (fun x => g x && f x) l.
Proof.
  induction l as [|x l IH]; simpl; [reflexivity|].
  destruct (g x); simpl; [destruct (f x)|]; now rewrite IH.
Qed.

Lemma set_of_from (xs acc : list string) :
  fold_left set_add xs acc
  = acc ++ filter (fun y => negb (array_includes acc y)) (first_occurrences xs).
Proof.
  revert acc. induction xs as [|x xs IH]; intros acc; simpl.
  - now rewrite app_nil_r.
  - unfold set_add at 2. destruct (array_includes acc x) eqn:Hx; simpl.
    + rewrite IH. f_equal. rewrite filter_filter. apply filter_ext. intros y.
      destruct (String.eqb y x) eqn:Hy; simpl; [|reflexivity].
      apply String.eqb_eq in Hy. subst. now rewrite Hx.
    + rewrite IH, <- app_assoc. simpl. do 2 f_equal.
      rewrite filter_filter. apply filter_ext. intros y.
      rewrite array_includes_app. unfold array_includes at 2. simpl.
      rewrite orb_false_r, negb_orb. apply andb_comm.
Qed.

Lemma set_of_first_occurrences (xs : list string) :
  set_of xs = first_occurrences xs.
Proof.
  unfold set_of. rewrite set_of_from. simpl.
  induction (first_occurrences xs) as [|y l IH]; simpl; [reflexivity | now rewrite IH].
Qed.

Lemma NoDup_filter {A : Type} (f : A -> bool) (l : list A) :
  NoDup l -> NoDup (filter f l).
Proof.
  induction 1 as [|x l Hx Hl IH]; simpl; [constructor|].
  destruct (f x); [constructor|]; trivial.
  intros Hin. apply filter_In in Hin. tauto.
Qed.

Lemma first_occurrences_NoDup (xs : list string) : NoDup (first_occurrences xs).
Proof.
  induction xs as [|x xs IH]; simpl; constructor.
  - intros Hin. apply filter_In in Hin. destruct Hin as [_ H].
    now rewrite String.eqb_refl in H.
  - now apply NoDup_filter.
Qed.

Lemma first_occurrences_In (xs : list string) (x : string) :
  In x (first_occurrences xs) <-> In x xs.
Proof.
  induction xs as [|y xs IH]; simpl; [tauto|].
  rewrite filter_In, IH, negb_true_iff, String.eqb_neq.
  destruct (String.eqb_spec x y); subst; intuition congruence.
Qed.

End FirstOccurrences.

Section Slices.

Context {A : Type}.

Lemma slice_prefix (xs : list A) (n : nat) :
  slice xs 0 (Some (Z.of_nat n)) = firstn n xs.
Proof.
  unfold slice, relative_index. simpl.
  destruct (Z.of_nat n <? 0)%Z eqn:Hn; [apply Z.ltb_lt in Hn; lia|].
  replace (Z.min 0 (Z.of_nat (List.length xs))) with 0%Z by lia.
  rewrite Z.sub_0_r. simpl.
  destruct (Z.min_spec (Z.of_nat n) (Z.of_nat (List.length xs))) as [[H ->]|[H ->]].
  - now rewrite Nat2Z.id.
  - rewrite Nat2Z.id, firstn_all. symmetry. apply firstn_all2. lia.
Qed.

Lemma In_firstn (n : nat) (l : list A) (x : A) : In x (firstn n l) -> In x l.
Proof.
  revert n. induction l as [|y l IH]; intros [|n]; simpl; try tauto.
  intros [->|Hin]; [now left | right; eauto].
Qed.

Lemma NoDup_firstn (n : nat) (l : list A) : NoDup l -> NoDup (firstn n l).
Proof.
  revert n. induction l as [|x l IH]; intros [|n] H; simpl; try constructor.
  - inversion H; subst. intros Hin. apply In_firstn in Hin. contradiction.
  - inversion H; subst. now apply IH.
Qed.

End Slices.

Section Classifier.

(** The urgency as [categorizeFeedback] computes it. *)
Lemma urgency_categorizeFeedback (text : string) (analysis : SentimentAnalysis) :
  urgency (categorizeFeedback text analysis) =
  if existsb (fun keyword => includes (toLowerCase text) keyword) urgentKeywords
  then Critical
  else if Sentiment_eqb (sentiment analysis) Negative
          && (0.8 <? confidence analysis)%float then High
  else if existsb (fun keyword => includes (toLowerCase text) keyword)
                  highPriorityKeywords then Medium
  else if Sentiment_eqb (sentiment analysis) Negative then Medium
  else Low.
Proof. reflexivity. Qed.

End Classifier.

(* ================================================================== *)
(** * The sentiment decision *)
(* ================================================================== *)

Section Lexicons.

Lemma hits_cons (lexicon tokens : list string) (token : string) :
  hits lexicon (token :: tokens)
  = (if array_includes lexicon token then 1 else 0) + hits lexicon tokens.
Proof.
  unfold hits. simpl.
  destruct (in_dec string_dec token lexicon) as [H|H];
    destruct (array_includes lexicon token) eqn:E; simpl; trivial.
  - apply array_includes_In in H. congruence.
  - apply array_includes_In in E. contradiction.
Qed.

(** No word belongs to two of the three lexicons. *)
Lemma lexicons_disjoint (word : string) :
  (array_includes POSITIVE_KEYWORDS word = true ->
   array_includes NEGATIVE_KEYWORDS word = false
   /\ array_includes NEUTRAL_KEYWORDS word = false)
  /\ (array_includes NEGATIVE_KEYWORDS word = true ->
      array_includes NEUTRAL_KEYWORDS word = false).
Proof.
  assert (P : forallb (fun w => negb (array_includes NEGATIVE_KEYWORDS w)
                                && negb (array_includes NEUTRAL_KEYWORDS w))
                      POSITIVE_KEYWORDS = true) by (vm_compute; reflexivity).
  assert (Q : forallb (fun w => negb (array_includes NEUTRAL_KEYWORDS w))
                      NEGATIVE_KEYWORDS = true) by (vm_compute; reflexivity).
  rewrite forallb_forall in P, Q. split; intros H; apply array_includes_In in H.
  - apply P in H. apply andb_true_iff in H. now rewrite !negb_true_iff in H.
  - apply Q in H. now rewrite negb_true_iff in H.
Qed.

(** The loop over the words counts the hits of each lexicon. *)
Lemma score_words (words : list string) (sc : Scores) :
  fold_left score_word words sc =
  {| positiveScore := positiveScore sc + hits POSITIVE_KEYWORDS words;
     negativeScore := negativeScore sc + hits NEGATIVE_KEYWORDS words;
     neutralScore := neutralScore sc + hits NEUTRAL_KEYWORDS words |}.
Proof.
  revert sc. induction words as [|w words IH]; intros sc.
  - destruct sc. unfold hits. simpl. now rewrite !Nat.add_0_r.
  - simpl fold_left. rewrite IH, !hits_cons. unfold score_word.
    destruct (lexicons_disjoint w) as [Hp Hn].
    destruct (array_includes POSITIVE_KEYWORDS w) eqn:Ep.
    + destruct (Hp eq_refl) as [-> ->]. simpl. f_equal; lia.
    + destruct (array_includes NEGATIVE_KEYWORDS w) eqn:En.
      * rewrite (Hn eq_refl). simpl. f_equal; lia.
      * destruct (array_includes NEUTRAL_KEYWORDS w); simpl; f_equal; lia.
Qed.

End Lexicons.

(* ================================================================== *)
(** * Sorting and objects *)
(* ================================================================== *)

Section Sorting.

Context {A : Type} (cmp : A -> A -> Z).

Lemma insert_by_perm (x : A) (l : list A) :
  Permutation (insert_by cmp x l) (x :: l).
Proof.
  induction l as [|y l IH]; simpl; [reflexivity|].
  destruct (0 <? cmp x y)%Z; [|reflexivity].
  rewrite IH. apply perm_swap.
Qed.

Lemma sort_perm (l : list A) : Permutation (sort cmp l) l.
Proof.
  induction l as [|x l IH]; simpl; [reflexivity|].
  rewrite insert_by_perm. now constructor.
Qed.

End Sorting.

Section Objects.

Context {V : Type}.

Lemma keys_set_own (o : object V) (k : string) (v : V) :
  keys (set_own o k v) = if array_includes (keys o) k then keys o else keys o ++ [k].
Proof.
  induction o as [|[k' v'] o IH]; simpl; [reflexivity|].
  unfold array_includes in *. simpl.
  destruct (String.eqb k k'); simpl; [reflexivity|].
  rewrite IH. now destruct (existsb (String.eqb k) (keys o)).
Qed.

Lemma keys_set_own_In (o : object V) (k k' : string) (v : V) :
  In k' (keys (set_own o k v)) -> In k' (keys o) \/ k' = k.
Proof.
  rewrite keys_set_own. destruct (array_includes (keys o) k); [tauto|].
  rewrite in_app_iff. simpl. intuition.
Qed.

Lemma keys_set_own_NoDup (o : object V) (k : string) (v : V) :
  NoDup (keys o) -> NoDup (keys (set_own o k v)).
Proof.
  intros H. rewrite keys_set_own.
  destruct (array_includes (keys o) k) eqn:E; [assumption|].
  apply NoDup_app; trivial.
  - constructor; [tauto | constructor].
  - intros x Hx [<-|[]]. apply array_includes_In in Hx. congruence.
Qed.

Lemma index_entries_filter (o : object V) :
  map snd (index_entries o) = filter (fun kv => is_index (fst kv)) o.
Proof.
  unfold index_entries, is_index.
  induction o as [|kv o IH]; simpl; [reflexivity|].
  destruct (array_index (fst kv)); simpl; now rewrite IH.
Qed.

Lemma filter_split_perm {B : Type} (f : B -> bool) (l : list B) :
  Permutation (filter f l ++ filter (fun x => negb (f x)) l) l.
Proof.
  induction l as [|x l IH]; simpl; [reflexivity|].
  destruct (f x); simpl.
  - now constructor.
  - rewrite <- Permutation_middle. now constructor.
Qed.

(** [Object.entries] lists every own property once. *)
Lemma entries_perm (o : object V) : Permutation (entries o) o.
Proof.
  unfold entries.
  rewrite (Permutation_map snd (sort_perm _ (index_entries o))).
  rewrite index_entries_filter.
  apply (filter_split_perm (fun kv => is_index (fst kv))).
Qed.

End Objects.

Section Keywords.

Lemma lower_cased_toLowerCase (s : string) :
  lower_cased s = true -> toLowerCase s = s.
Proof.
  induction s as [|c s IH]; simpl; [reflexivity|].
  rewrite andb_true_iff, Ascii.eqb_eq. intros [-> H]. now rewrite IH.
Qed.

Lemma lower_cased_clean (c : ascii) :
  Ascii.eqb (lower_char (clean_char (lower_char c))) (clean_char (lower_char c))
  = true.
Proof. destruct c as [[] [] [] [] [] [] [] []]; vm_compute; reflexivity. Qed.

Lemma lower_cased_cleaned (text : string) :
  lower_cased (replace_non_word (toLowerCase text)) = true.
Proof.
  induction text as [|c text IH]; simpl; [reflexivity|].
  now rewrite lower_cased_clean, IH.
Qed.

Lemma lower_cased_rev_string (acc s : string) :
  lower_cased (rev_string acc s) = lower_cased acc && lower_cased s.
Proof.
  revert acc. induction s as [|c s IH]; intros acc; simpl.
  - now rewrite andb_true_r.
  - rewrite IH. simpl. destruct (Ascii.eqb (lower_char c) c), (lower_cased acc);
      reflexivity.
Qed.

(** The pieces of a lower-case string are lower-case. *)
Lemma lower_cased_split_go (s cur : string) (in_ws : bool) :
  lower_cased s = true -> lower_cased cur = true ->
  Forall (fun piece => lower_cased piece = true) (split_go s cur in_ws).
Proof.
  revert cur in_ws. induction s as [|c s IH]; intros cur in_ws Hs Hc; simpl.
  - constructor; [|constructor]. now rewrite lower_cased_rev_string.
  - simpl in Hs. apply andb_true_iff in Hs. destruct Hs as [H1 H2].
    destruct (is_space c); [destruct in_ws|].
    + now apply IH.
    + constructor; [now rewrite lower_cased_rev_string | now apply IH].
    + apply IH; [assumption|]. simpl. now rewrite H1.
Qed.

Lemma split_lower_cased (text piece : string) :
  In piece (split_ws (replace_non_word (toLowerCase text))) ->
  toLowerCase piece = piece.
Proof.
  intros H. apply lower_cased_toLowerCase.
  pose proof (lower_cased_split_go _ "" false (lower_cased_cleaned text) eq_refl) as F.
  rewrite Forall_forall in F. now apply F.
Qed.

Lemma count_word_keys (wordCount : object count_value) (word k : string) :
  In k (keys (count_word wordCount word)) -> In k (keys wordCount) \/ k = word.
Proof.
  unfold count_word.
  destruct (get_own wordCount word) as [[n|]|];
    [apply keys_set_own_In | apply keys_set_own_In |].
  destruct (String.eqb word "__proto__"); [tauto|].
  destruct (inherited word); apply keys_set_own_In.
Qed.

Lemma count_word_NoDup (wordCount : object count_value) (word : string) :
  NoDup (keys wordCount) -> NoDup (keys (count_word wordCount word)).
Proof.
  intros H. unfold count_word.
  destruct (get_own wordCount word) as [[n|]|];
    [now apply keys_set_own_NoDup | now apply keys_set_own_NoDup |].
  destruct (String.eqb word "__proto__"); [assumption|].
  destruct (inherited word); now apply keys_set_own_NoDup.
Qed.

Lemma count_words_keys (words : list string) (wordCount : object count_value)
    (k : string) :
  In k (keys (fold_left count_word words wordCount)) ->
  In k (keys wordCount) \/ In k words.
Proof.
  revert wordCount. induction words as [|w words IH]; intros wc; simpl; [tauto|].
  intros H. apply IH in H. destruct H as [H|H]; [|tauto].
  apply count_word_keys in H. intuition.
Qed.

Lemma count_words_NoDup (words : list string) (wordCount : object count_value) :
  NoDup (keys wordCount) -> NoDup (keys (fold_left count_word words wordCount)).
Proof.
  revert wordCount. induction words as [|w words IH]; intros wc H; simpl; trivial.
  now apply IH, count_word_NoDup.
Qed.

End Keywords.

(* ================================================================== *)
(** * The aggregator *)
(* ================================================================== *)

Section Tally.

Lemma get_own_set_own {V : Type} (o : object V) (k k' : string) (v : V) :
  get_own (set_own o k v) k' = if String.eqb k' k then Some v else get_own o k'.
Proof.
  induction o as [|[k0 v0] o IH]; simpl.
  - destruct (String.eqb k' k); reflexivity.
  - destruct (String.eqb_spec k k0) as [E|N]; simpl.
    + subst k0. destruct (String.eqb k' k); reflexivity.
    + rewrite IH.
      destruct (String.eqb_spec k' k0) as [E1|N1];
        destruct (String.eqb_spec k' k) as [E2|N2]; try reflexivity.
      congruence.
Qed.

Lemma count_of_increment (counts : object count_value) (k key : string) (n : nat) :
  get_own counts key = Some (Count n) ->
  get_own (increment counts k) key
  = Some (Count (if String.eqb k key then n + 1 else n)).
Proof.
  intros H. unfold increment.
  destruct (String.eqb_spec k key) as [->|Hk].
  - rewrite H, get_own_set_own. now rewrite String.eqb_refl.
  - assert (Hk' : String.eqb key k = false) by (apply String.eqb_neq; congruence).
    destruct (get_own counts k) as [[m|]|]; trivial.
    + now rewrite get_own_set_own, Hk'.
    + destruct (String.eqb k "__proto__"); trivial.
      now rewrite get_own_set_own, Hk'.
Qed.

Lemma with_sentiment_cons (s : string) (r : Response) (rs : list Response) :
  with_sentiment s (r :: rs)
  = (if is_string r.(resp_sentiment) s then 1 else 0) + with_sentiment s rs.
Proof.
  unfold with_sentiment. simpl filter.
  now destruct (is_string (resp_sentiment r) s).
Qed.

Lemma count_sentiments (key : string) (rs : list Response) :
  key <> "" ->
  forall (counts : object count_value) (n : nat),
    get_own counts key = Some (Count n) ->
    get_own (fold_left count_sentiment rs counts) key
    = Some (Count (n + with_sentiment key rs)).
Proof.
  intros Hkey.
  induction rs as [|r rs IH]; intros counts n H.
  - simpl. now rewrite Nat.add_0_r.
  - rewrite with_sentiment_cons. simpl fold_left.
    unfold count_sentiment at 2. unfold is_string.
    destruct (resp_sentiment r) as [s|].
    + unfold truthy. destruct (String.eqb_spec s "") as [E|N]; simpl negb; cbv iota.
      * subst s. destruct (String.eqb_spec "" key); [congruence|]. now apply IH.
      * rewrite (IH _ _ (count_of_increment _ s _ _ H)).
        destruct (String.eqb s key); do 2 f_equal; lia.
    + now apply IH.
Qed.

Lemma track_categories (sentiment : string) (cats : list string) :
  (forall c, In c cats -> inherited c = false) ->
  forall cm, exists cm',
    fold_left (track_category sentiment) cats (Some cm) = Some cm'.
Proof.
  induction cats as [|c cats IH]; intros H cm; simpl; [now exists cm|].
  rewrite (H c (or_introl eq_refl)).
  destruct (get_own cm c) as [[count sentiments]|]; apply IH;
    intros c' Hc'; apply H; now right.
Qed.

(** On plain categories the loop runs to its end, and its counters of
    sentiments are those of [count_sentiment]. *)
Lemma tally_responses (rs : list Response) :
  plain_categories rs ->
  forall t0, exists t,
    fold_left tally_response rs (Some t0) = Some t
    /\ sentimentCounts t = fold_left count_sentiment rs (sentimentCounts t0).
Proof.
  induction rs as [|r rs IH]; intros H t0; [now exists t0|].
  destruct (track_categories (sentiment_or_neutral r) (response_categories r)
              (fun c Hc => H r c (or_introl eq_refl) Hc)
              (categoryMap t0)) as [cm Hcm].
  simpl fold_left. rewrite Hcm.
  match goal with
  | |- context [fold_left tally_response rs (Some ?t1)] =>
      destruct (IH (fun r' c Hr Hc => H r' c (or_intror Hr) Hc) t1) as [t [Ht Hs]]
  end.
  exists t. split; [exact Ht|]. rewrite Hs. reflexivity.
Qed.

End Tally.

Section Windows.

Context {A : Type}.

(** [xs.slice(-n)] is the last [n] elements. *)
Lemma slice_last (xs : list A) (n : nat) :
  0 < n ->
  slice xs (- Z.of_nat n) None = skipn (List.length xs - n) xs.
Proof.
  intros Hn. unfold slice, relative_index.
  destruct (Z.ltb_spec (- Z.of_nat n) 0); [|lia].
  set (len := List.length xs).
  replace (Z.to_nat (Z.max (Z.of_nat len + - Z.of_nat n) 0)) with (len - n) by lia.
  apply firstn_all2. rewrite length_skipn. fold len. lia.
Qed.

(** [xs.slice(0, -n)] is all but the last [n] elements. *)
Lemma slice_but_last (xs : list A) (n : nat) :
  0 < n ->
  slice xs 0 (Some (- Z.of_nat n)%Z) = firstn (List.length xs - n) xs.
Proof.
  intros Hn. unfold slice, relative_index. simpl.
  destruct (Z.ltb_spec (- Z.of_nat n) 0); [|lia].
  set (len := List.length xs).
  replace (Z.min 0 (Z.of_nat len)) with 0%Z by lia.
  simpl. f_equal. lia.
Qed.

End Windows.

Section Insights.

(** What [generateInsights] returns on a collection with plain categories. *)
Lemma generateInsights_plain (rs : list Response) :
  plain_categories rs ->
  exists insights,
    generateInsights rs = Some insights
    /\ (rs <> [] ->
        overallSentiment insights =
        {| pc_positive := percentage (with_sentiment "positive" rs) (List.length rs);
           pc_neutral := percentage (with_sentiment "neutral" rs) (List.length rs);
           pc_negative := percentage (with_sentiment "negative" rs) (List.length rs) |})
    /\ sentimentTrend insights = trend_of rs.
Proof.
  intros H. unfold generateInsights.
  destruct rs as [|r rs]; [simpl; eexists; repeat split; congruence|].
  destruct (tally_responses (r :: rs) H
              {| sentimentCounts := no_counts; categoryMap := [];
                 urgent := 0; actionable := 0 |}) as [t [Ht Hs]].
  change (List.length (r :: rs) =? 0) with false. cbv iota.
  rewrite Ht. eexists. split; [reflexivity|]. split.
  - intros _. cbn [overallSentiment]. unfold count_of. rewrite Hs.
    cbn [sentimentCounts].
    rewrite !(fun key Hk n H0 => count_sentiments key (r :: rs) Hk no_counts n H0)
      with (n := 0); try reflexivity; discriminate.
  - cbn [sentimentTrend]. unfold trend_of.
    change (-10)%Z with (- Z.of_nat 10)%Z.
    rewrite slice_last, slice_but_last by lia.
    reflexivity.
Qed.

End Insights.

(* ================================================================== *)
(** * Whole-word occurrences *)
(* ================================================================== *)

Section Characters.

Lemma is_word_canonicalize (c : ascii) : is_word c = word_code (canonicalize c).
Proof. destruct c as [[] [] [] [] [] [] [] []]; vm_compute; reflexivity. Qed.

Lemma canonicalize_lower_char (c : ascii) :
  canonicalize (lower_char c) = canonicalize c.
Proof. destruct c as [[] [] [] [] [] [] [] []]; vm_compute; reflexivity. Qed.

Lemma is_word_lower_char (c : ascii) : is_word (lower_char c) = is_word c.
Proof. now rewrite !is_word_canonicalize, canonicalize_lower_char. Qed.

Lemma char_eq_ci_word (a b : ascii) :
  char_eq_ci a b = true -> is_word a = is_word b.
Proof.
  unfold char_eq_ci. intros H. apply N.eqb_eq in H.
  now rewrite !is_word_canonicalize, H.
Qed.

Lemma char_eq_ci_lower_char (k c : ascii) :
  char_eq_ci k (lower_char c) = char_eq_ci k c.
Proof. unfold char_eq_ci. now rewrite canonicalize_lower_char. Qed.

Lemma lower_of_canonicalize (c : ascii) :
  lower_of_code (canonicalize c) = lower_char c.
Proof. destruct c as [[] [] [] [] [] [] [] []]; vm_compute; reflexivity. Qed.

(** The pattern compares two characters as lower-casing does. *)
Lemma char_eq_ci_same_letter (a b : ascii) : char_eq_ci a b = same_letter a b.
Proof.
  unfold char_eq_ci, same_letter.
  destruct (N.eqb_spec (canonicalize a) (canonicalize b)) as [E|N];
    destruct (Ascii.eqb_spec (lower_char a) (lower_char b)) as [E'|N'];
    trivial; exfalso.
  - apply N'. now rewrite <- !lower_of_canonicalize, E.
  - apply N. now rewrite <- (canonicalize_lower_char a), E', canonicalize_lower_char.
Qed.

Lemma char_eq_ci_trans (a b c : ascii) :
  char_eq_ci a b = true -> char_eq_ci c b = true -> char_eq_ci a c = true.
Proof.
  unfold char_eq_ci. rewrite !N.eqb_eq. congruence.
Qed.

End Characters.

Section Occurrences.

Lemma reads_cons (k c : ascii) (kw s : string) :
  reads (String k kw) (String c s) = if char_eq_ci k c then reads kw s else None.
Proof. simpl. now rewrite char_eq_ci_same_letter. Qed.

Lemma match_literal_reads (rest : string) :
  forall (k : ascii) (last : option ascii) (s : string),
    ends_with_word k rest = true ->
    match_literal (String k rest) last s
    = match reads (String k rest) s with
      | Some after => negb (is_word_opt (head after))
      | None => false
      end.
Proof.
  induction rest as [|k' rest IH]; intros k last s Hw.
  - destruct s as [|c s]; [reflexivity|]. rewrite reads_cons. simpl in *.
    destruct (char_eq_ci k c) eqn:E; [|reflexivity].
    unfold word_boundary. simpl.
    now rewrite <- (char_eq_ci_word _ _ E), Hw.
  - destruct s as [|c s]; [reflexivity|].
    change (match_literal (String k (String k' rest)) last (String c s))
      with (char_eq_ci k c && match_literal (String k' rest) (Some c) s).
    rewrite reads_cons.
    destruct (char_eq_ci k c); [|reflexivity].
    now apply IH.
Qed.

(** For a plain keyword the pattern matches where an occurrence begins. *)
Lemma match_at_occurs_here (kw : string) (prev : option ascii) (s : string) :
  plain_keyword kw = true -> match_at kw prev s = occurs_here kw prev s.
Proof.
  destruct kw as [|k0 rest]; [discriminate|]. simpl plain_keyword.
  rewrite !andb_true_iff. intros [[H0 Hw] _].
  unfold match_at, occurs_here. rewrite match_literal_reads by assumption.
  destruct s as [|c s]; [simpl; now rewrite !andb_false_r|].
  rewrite reads_cons. simpl head.
  destruct (char_eq_ci k0 c) eqn:E; [|now rewrite !andb_false_r].
  unfold word_boundary. simpl.
  now rewrite <- (char_eq_ci_word _ _ E), H0, xorb_true_r.
Qed.

Lemma is_word_lower_opt (c : option ascii) :
  is_word_opt (lower_opt c) = is_word_opt c.
Proof. destruct c; simpl; [apply is_word_lower_char | reflexivity]. Qed.

Lemma head_toLowerCase (s : string) : head (toLowerCase s) = lower_opt (head s).
Proof. now destruct s. Qed.

Lemma match_literal_lower (kw : string) :
  forall (last : option ascii) (s : string),
    match_literal kw (lower_opt last) (toLowerCase s) = match_literal kw last s.
Proof.
  induction kw as [|k kw IH]; intros last s; simpl.
  - unfold word_boundary. now rewrite head_toLowerCase, !is_word_lower_opt.
  - destruct s as [|c s]; simpl; [reflexivity|].
    rewrite char_eq_ci_lower_char. f_equal. apply (IH (Some c)).
Qed.

Lemma match_at_lower (kw : string) (prev : option ascii) (s : string) :
  match_at kw (lower_opt prev) (toLowerCase s) = match_at kw prev s.
Proof.
  unfold match_at, word_boundary.
  now rewrite head_toLowerCase, !is_word_lower_opt, match_literal_lower.
Qed.

Lemma quiet_after_match (k0 : ascii) (kw0 : string) :
  is_word k0 = true ->
  forall (rest : string) (prevk prevc : ascii) (s : string),
    char_eq_ci prevk prevc = true ->
    overlap_free_from k0 prevk rest = true ->
    match_literal rest (Some prevc) s = true ->
    quiet (String k0 kw0) (Some prevc) (String.length rest) s.
Proof.
  intros H0. induction rest as [|k rest IH]; intros prevk prevc s Hp Ho Hm.
  - exact I.
  - destruct s as [|c s]; [discriminate|].
    simpl in Ho, Hm. apply andb_true_iff in Ho, Hm.
    destruct Ho as [Ho1 Ho2], Hm as [Hm1 Hm2].
    split; [|now apply (IH k c s)].
    unfold match_at. simpl.
    destruct (char_eq_ci k0 c) eqn:E; [|now rewrite andb_false_r].
    apply orb_true_iff in Ho1. destruct Ho1 as [Hw|Hn].
    + unfold word_boundary. simpl.
      now rewrite <- (char_eq_ci_word _ _ Hp), <- (char_eq_ci_word _ _ E), Hw, H0.
    + rewrite (char_eq_ci_trans _ _ _ Hm1 E) in Hn. discriminate.
Qed.

(** For a plain keyword the scan, which resumes after a match, counts every
    place where a match begins. *)
Lemma count_matches_occurrences (kw : string) :
  plain_keyword kw = true ->
  forall (s : string) (prev : option ascii) (skip : nat),
    quiet kw prev skip s ->
    count_matches kw prev skip s = occurrences_from kw prev s.
Proof.
  intros Hk. induction s as [|c s IH]; intros prev skip Hq; [reflexivity|].
  simpl count_matches. simpl occurrences_from.
  rewrite <- (match_at_occurs_here kw prev (String c s) Hk).
  destruct skip as [|skip].
  - destruct (match_at kw prev (String c s)) eqn:E.
    + simpl. f_equal. apply IH.
      destruct kw as [|k0 rest]; [discriminate|].
      simpl in Hk. rewrite !andb_true_iff in Hk. destruct Hk as [[H0 _] Ho].
      unfold match_at in E. simpl in E. rewrite !andb_true_iff in E.
      destruct E as [_ [E1 E2]].
      replace (String.length (String k0 rest) - 1) with (String.length rest)
        by (simpl; lia).
      now apply (quiet_after_match k0 rest H0 rest k0 c s).
    + apply IH. now destruct s.
  - destruct Hq as [-> Hq]. now apply IH.
Qed.

Lemma occurrences_from_lower (kw : string) :
  plain_keyword kw = true ->
  forall (s : string) (prev : option ascii),
    occurrences_from kw (lower_opt prev) (toLowerCase s)
    = occurrences_from kw prev s.
Proof.
  intros Hk. induction s as [|c s IH]; intros prev; [reflexivity|].
  simpl. change (Some (lower_char c)) with (lower_opt (Some c)).
  rewrite IH. f_equal.
  rewrite <- !match_at_occurs_here by assumption.
  change (String (lower_char c) (toLowerCase s)) with (toLowerCase (String c s)).
  now rewrite match_at_lower.
Qed.

(** The count of [extractCategories] for one keyword. *)
Lemma match_count_whole_words (kw text : string) :
  plain_keyword kw = true ->
  match_count kw (toLowerCase text) = whole_word_occurrences kw text.
Proof.
  intros Hk. unfold match_count, whole_word_occurrences.
  rewrite (count_matches_occurrences kw Hk) by now destruct (toLowerCase text).
  apply (occurrences_from_lower kw Hk text None).
Qed.

End Occurrences.

(* ================================================================== *)
(** * The ranking of the categories *)
(* ================================================================== *)

Section StableSort.

Context {A : Type} (score pos : A -> nat).

Lemma insert_by_ranks (x : A) (l : list A) :
  StronglySorted (ranks_before score pos) l ->
  Forall (fun y => pos x < pos y) l ->
  StronglySorted (ranks_before score pos) (insert_by (by_score_desc score) x l).
Proof.
  induction l as [|y l IH]; intros Hs Hp; simpl.
  - repeat constructor.
  - inversion Hs as [|? ? Hl Hy]; subst. inversion Hp as [|? ? Hxy Hxl]; subst.
    unfold by_score_desc at 1.
    destruct (Z.ltb_spec 0 (Z.of_nat (score y) - Z.of_nat (score x))) as [Hlt|Hge].
    + constructor; [now apply IH|].
      apply (Permutation_Forall (Permutation_sym (insert_by_perm _ x l))).
      constructor; [left; lia | assumption].
    + constructor; [assumption|]. constructor.
      * unfold ranks_before. lia.
      * rewrite Forall_forall in *. intros z Hz.
        specialize (Hy z Hz). specialize (Hxl z Hz).
        unfold ranks_before in *. lia.
Qed.

(** The sort keeps the elements of equal score in the order of the input. *)
Lemma sort_stable (l : list A) :
  StronglySorted (fun a b => pos a < pos b) l ->
  StronglySorted (ranks_before score pos) (sort (by_score_desc score) l).
Proof.
  induction l as [|x l IH]; intros Hs; simpl; [constructor|].
  inversion Hs as [|? ? Hl Hx]; subst.
  apply insert_by_ranks; [now apply IH|].
  apply (Permutation_Forall (Permutation_sym (sort_perm _ l))). exact Hx.
Qed.

End StableSort.

Section ListFacts.

Context {A B : Type}.

Lemma StronglySorted_filter (R : A -> A -> Prop) (f : A -> bool) (l : list A) :
  StronglySorted R l -> StronglySorted R (filter f l).
Proof.
  induction 1 as [|x l Hl IH Hx]; simpl; [constructor|].
  destruct (f x); [|assumption]. constructor; [assumption|].
  rewrite Forall_forall in *. intros y Hy. apply Hx.
  now apply filter_In in Hy.
Qed.

Lemma StronglySorted_map (R : B -> B -> Prop) (g : A -> B) (l : list A) :
  StronglySorted (fun a b => R (g a) (g b)) l -> StronglySorted R (map g l).
Proof.
  induction 1 as [|x l Hl IH Hx]; simpl; constructor; [assumption|].
  rewrite Forall_forall in *. intros y Hy.
  apply in_map_iff in Hy. destruct Hy as [z [<- Hz]]. now apply Hx.
Qed.

Lemma fold_left_push (p : B -> bool) (g : A -> B) (l : list A) (acc : list B) :
  fold_left (fun found e => if p (g e) then found ++ [g e] else found) l acc
  = acc ++ filter p (map g l).
Proof.
  revert acc. induction l as [|e l IH]; intros acc; simpl.
  - now rewrite app_nil_r.
  - rewrite IH. destruct (p (g e)); [|reflexivity].
    now rewrite <- app_assoc.
Qed.

Lemma fold_left_sum (f : A -> nat) (l : list A) (n : nat) :
  fold_left (fun acc x => acc + f x) l n = n + list_sum (map f l).
Proof.
  revert n. induction l as [|x l IH]; intros n; simpl; [lia|].
  rewrite IH. lia.
Qed.

End ListFacts.

Section Categories.

Lemma CATEGORY_KEYWORDS_plain :
  forall entry keyword,
    In entry CATEGORY_KEYWORDS -> In keyword (snd entry) ->
    plain_keyword keyword = true.
Proof.
  assert (H : forallb (fun entry => forallb plain_keyword (snd entry))
                      CATEGORY_KEYWORDS = true) by (vm_compute; reflexivity).
  rewrite forallb_forall in H. intros entry keyword He Hk.
  specialize (H entry He). rewrite forallb_forall in H. now apply H.
Qed.

(** The score [extractCategories] gives to an entry of the table. *)
Lemma category_score (text : string) (entry : string * list string) :
  In entry CATEGORY_KEYWORDS ->
  fold_left (fun acc keyword => acc + match_count keyword (toLowerCase text))
            (snd entry) 0
  = list_sum (map (fun keyword => whole_word_occurrences keyword text) (snd entry)).
Proof.
  intros He. rewrite fold_left_sum. simpl. f_equal.
  apply map_ext_in. intros keyword Hk.
  apply match_count_whole_words. now apply (CATEGORY_KEYWORDS_plain entry).
Qed.

End Categories.

(* ================================================================== *)
(** * Binary64 rounding

    What the operations of [analyzeSentiment] on numbers do, read off the
    specification of the binary64 operations. *)
(* ================================================================== *)

Local Open Scope Z_scope.

Section Rounding.

(** digits2_pos is Pos.size *)
Lemma digits2_pos_size (p : positive) : digits2_pos p = Pos.size p.
Proof. induction p; simpl; congruence. Qed.

Lemma digits2_bounds (p : positive) :
  2 ^ (Z.pos (digits2_pos p) - 1) <= Z.pos p < 2 ^ Z.pos (digits2_pos p).
Proof.
  rewrite digits2_pos_size. split.
  - pose proof (Pos.size_le p) as H.
    assert (E : (2 ^ Z.pos (Pos.size p) <= 2 * Z.pos p)).
    { rewrite <- Pos2Z.inj_pow. change (2 * Z.pos p) with (Z.pos p~0). exact H. }
    replace (Z.pos (Pos.size p)) with (Z.pos (Pos.size p) - 1 + 1) in E by lia.
    rewrite Z.pow_add_r in E by lia. lia.
  - pose proof (Pos.size_gt p) as H. rewrite <- Pos2Z.inj_pow. exact H.
Qed.

Lemma shr_1_m (mrs : shr_record) :
  0 <= shr_m mrs -> shr_m (shr_1 mrs) = shr_m mrs / 2.
Proof.
  destruct mrs as [m r s]. simpl. intros H.
  destruct m as [|p|p]; [reflexivity| |lia].
  destruct p as [p|p|]; simpl; trivial.
  - rewrite Pos2Z.inj_xI. apply Z.div_unique with 1; lia.
  - rewrite Pos2Z.inj_xO. apply Z.div_unique with 0; lia.
Qed.

Lemma iter_pos_nat {A : Type} (f : A -> A) (p : positive) (x : A) :
  iter_pos f p x = Nat.iter (Pos.to_nat p) f x.
Proof.
  revert x. induction p as [p IH|p IH|]; intros x.
  - change (iter_pos f p~1 x) with (iter_pos f p (iter_pos f p (f x))).
    rewrite !IH, Pos2Nat.inj_xI, Nat.iter_succ_r.
    replace (2 * Pos.to_nat p)%nat with (Pos.to_nat p + Pos.to_nat p)%nat by lia.
    now rewrite Nat.iter_add.
  - change (iter_pos f p~0 x) with (iter_pos f p (iter_pos f p x)).
    rewrite !IH, Pos2Nat.inj_xO.
    replace (2 * Pos.to_nat p)%nat with (Pos.to_nat p + Pos.to_nat p)%nat by lia.
    now rewrite Nat.iter_add.
  - reflexivity.
Qed.

Lemma iter_shr_1_m (n : nat) (mrs : shr_record) :
  0 <= shr_m mrs ->
  shr_m (Nat.iter n shr_1 mrs) = shr_m mrs / 2 ^ Z.of_nat n.
Proof.
  intros H. induction n as [|n IH].
  - simpl. now rewrite Z.div_1_r.
  - assert (P : 0 < 2 ^ Z.of_nat n) by (apply Z.pow_pos_nonneg; lia).
    rewrite Nat2Z.inj_succ, Z.pow_succ_r by lia. simpl.
    rewrite shr_1_m.
    + rewrite IH, Zdiv_Zdiv by lia. f_equal. apply Z.mul_comm.
    + rewrite IH. apply Z.div_pos; lia.
Qed.

Lemma shr_m_of_loc m l : shr_m (shr_record_of_loc m l) = m.
Proof. destruct l as [|[]]; reflexivity. Qed.

(** shr: mantissa and exponent *)
Lemma shr_spec (mrs : shr_record) (e n : Z) :
  0 <= shr_m mrs ->
  shr_m (fst (shr mrs e n)) = shr_m mrs / 2 ^ Z.max n 0
  /\ snd (shr mrs e n) = e + Z.max n 0.
Proof.
  intros H. destruct n as [|p|p]; simpl.
  - rewrite Z.div_1_r. split; [reflexivity | lia].
  - rewrite iter_pos_nat, iter_shr_1_m by assumption.
    rewrite positive_nat_Z. split; [reflexivity | lia].
  - rewrite Z.div_1_r. split; [reflexivity | lia].
Qed.

Lemma round_nearest_even_bounds m l :
  m <= round_nearest_even m l <= m + 1.
Proof.
  destruct l as [|[]]; simpl; try lia.
  destruct (Z.even m); lia.
Qed.

Lemma Zdigits2_bounds (m : Z) :
  0 < m -> 1 <= Zdigits2 m /\ 2 ^ (Zdigits2 m - 1) <= m < 2 ^ Zdigits2 m.
Proof.
  destruct m as [|p|p]; try lia. intros _. simpl.
  split; [lia | apply digits2_bounds].
Qed.

Lemma Zdigits2_le (m k : Z) : 0 < m -> m < 2 ^ k -> Zdigits2 m <= k.
Proof.
  intros Hm Hk. destruct (Zdigits2_bounds m Hm) as [H1 [H2 _]].
  destruct (Z.le_gt_cases (Zdigits2 m) k) as [H|H]; [assumption|].
  assert (0 <= k).
  { destruct (Z.le_gt_cases 0 k); trivial. rewrite Z.pow_neg_r in Hk; lia. }
  assert (2 ^ k <= 2 ^ (Zdigits2 m - 1)) by (apply Z.pow_le_mono_r; lia).
  lia.
Qed.

Lemma Zdigits2_gt (m k : Z) : 0 <= k -> 2 ^ k <= m -> k < Zdigits2 m.
Proof.
  intros Hk Hm.
  assert (P : 0 < 2 ^ k) by (apply Z.pow_pos_nonneg; lia).
  destruct (Zdigits2_bounds m ltac:(lia)) as [H1 [_ H2]].
  destruct (Z.le_gt_cases (Zdigits2 m) k) as [H|H]; [|assumption].
  assert (2 ^ Zdigits2 m <= 2 ^ k) by (apply Z.pow_le_mono_r; lia).
  lia.
Qed.

Lemma shr_fexp_spec (m e : Z) (l : location) :
  0 <= m ->
  let n := Z.max (fexp prec emax (Zdigits2 m + e) - e) 0 in
  shr_m (fst (shr_fexp prec emax m e l)) = m / 2 ^ n
  /\ snd (shr_fexp prec emax m e l) = e + n.
Proof.
  intros H n. unfold shr_fexp.
  destruct (shr_spec (shr_record_of_loc m l) e
              (fexp prec emax (Zdigits2 m + e) - e)) as [H1 H2].
  - now rewrite shr_m_of_loc.
  - rewrite shr_m_of_loc in H1. now split.
Qed.

Lemma fexp_large (d : Z) : 0 <= d -> fexp prec emax d = d - 53.
Proof. intros H. unfold fexp, SpecFloat.emin, prec, emax. lia. Qed.

(** The result of rounding a mantissa and exponent whose value is at least
    one half. *)
Lemma binary_round_aux_large (s : bool) (mx : positive) (ex : Z) (lx : location) :
  0 <= Z.pos (digits2_pos mx) + ex ->
  let E := Z.max ex (Z.pos (digits2_pos mx) + ex - 53) in
  (exists m e, binary_round_aux prec emax s (Z.pos mx) ex lx = S754_finite s m e
               /\ E <= e <= E + 1)
  \/ (binary_round_aux prec emax s (Z.pos mx) ex lx = S754_infinity s
      /\ 971 <= E).
Proof.
  intros Hd E. unfold binary_round_aux.
  destruct (shr_fexp_spec (Z.pos mx) ex lx ltac:(lia)) as [M1 E1].
  destruct (shr_fexp prec emax (Z.pos mx) ex lx) as [mrs' e'].
  simpl fst in M1. simpl snd in E1.
  change (Zdigits2 (Z.pos mx)) with (Z.pos (digits2_pos mx)) in *.
  rewrite fexp_large in M1, E1 by assumption.
  set (dx := Z.pos (digits2_pos mx)) in *.
  pose proof (digits2_bounds mx) as Bx. fold dx in Bx.
  set (n1 := Z.max (dx + ex - 53 - ex) 0) in *.
  assert (He' : e' = E) by (unfold E; lia).
  assert (B1 : 1 <= shr_m mrs' < 2 ^ 53 /\ 0 <= Zdigits2 (shr_m mrs') + e').
  { rewrite M1. destruct (Z.le_gt_cases dx 53) as [Hle|Hgt].
    - replace n1 with 0 in * by lia. rewrite Z.div_1_r.
      assert (2 ^ dx <= 2 ^ 53) by (apply Z.pow_le_mono_r; lia).
      split; [lia|]. change (Zdigits2 (Z.pos mx)) with dx. lia.
    - replace n1 with (dx - 53) by lia.
      assert (P : 0 < 2 ^ (dx - 53)) by (apply Z.pow_pos_nonneg; lia).
      assert (Q : 2 ^ (dx - 1) = 2 ^ 52 * 2 ^ (dx - 53)).
      { rewrite <- Z.pow_add_r by lia. f_equal. lia. }
      assert (R : 2 ^ dx = 2 ^ 53 * 2 ^ (dx - 53)).
      { rewrite <- Z.pow_add_r by lia. f_equal. lia. }
      assert (L : 2 ^ 52 <= Z.pos mx / 2 ^ (dx - 53))
        by (apply Z.div_le_lower_bound; [assumption|]; lia).
      split; [split|].
      + lia.
      + apply Z.div_lt_upper_bound; [assumption|]. lia.
      + pose proof (Zdigits2_gt _ 52 ltac:(lia) L). lia. }
  destruct B1 as [B1 B1'].
  pose proof (round_nearest_even_bounds (shr_m mrs') (loc_of_shr_record mrs')) as Br.
  set (m1 := round_nearest_even (shr_m mrs') (loc_of_shr_record mrs')) in *.
  destruct (shr_fexp_spec m1 e' loc_Exact ltac:(lia)) as [M2 E2].
  destruct (shr_fexp prec emax m1 e' loc_Exact) as [mrs'' e''].
  simpl fst in M2. simpl snd in E2.
  destruct (Zdigits2_bounds m1 ltac:(lia)) as [D1 [D2 D3]].
  assert (D0 : Zdigits2 (shr_m mrs') <= Zdigits2 m1).
  { destruct (Zdigits2_bounds (shr_m mrs') ltac:(lia)) as [G1 [G2 _]].
    pose proof (Zdigits2_gt m1 (Zdigits2 (shr_m mrs') - 1) ltac:(lia) ltac:(lia)).
    lia. }
  assert (D4 : Zdigits2 m1 <= 54) by (apply Zdigits2_le; [lia|]; change (2 ^ 54) with (2 * 2 ^ 53); lia).
  rewrite fexp_large in M2, E2 by lia.
  set (n2 := Z.max (Zdigits2 m1 + e' - 53 - e') 0) in *.
  assert (N2 : n2 = 0 \/ (n2 = 1 /\ 2 ^ 53 <= m1)).
  { destruct (Z.le_gt_cases (Zdigits2 m1) 53); [left; lia|].
    right. split; [lia|]. replace (Zdigits2 m1) with 54 in D2 by lia. exact D2. }
  assert (B2 : 1 <= shr_m mrs'').
  { rewrite M2. destruct N2 as [->|[-> N2]].
    - rewrite Z.div_1_r. lia.
    - apply Z.div_le_lower_bound; lia. }
  destruct (shr_m mrs'') as [|m|m]; try lia.
  destruct (Z.leb_spec e'' (emax - prec)) as [Hle|Hgt].
  - left. exists m, e''. split; [reflexivity|]. lia.
  - right. split; [reflexivity|]. unfold emax, prec in Hgt. lia.
Qed.

Lemma binary_round_aux_signed (s : bool) (mx ex : Z) (lx : location) :
  0 <= mx -> signed s (binary_round_aux prec emax s mx ex lx).
Proof.
  intros Hm. unfold binary_round_aux.
  destruct (shr_fexp_spec mx ex lx Hm) as [M1 _].
  destruct (shr_fexp prec emax mx ex lx) as [mrs' e']. simpl fst in M1.
  assert (B1 : 0 <= shr_m mrs').
  { rewrite M1. apply Z.div_pos; [assumption|]. apply Z.pow_pos_nonneg; lia. }
  pose proof (round_nearest_even_bounds (shr_m mrs') (loc_of_shr_record mrs')) as Br.
  set (m1 := round_nearest_even (shr_m mrs') (loc_of_shr_record mrs')) in *.
  destruct (shr_fexp_spec m1 e' loc_Exact ltac:(lia)) as [M2 _].
  destruct (shr_fexp prec emax m1 e' loc_Exact) as [mrs'' e'']. simpl fst in M2.
  assert (B2 : 0 <= shr_m mrs'').
  { rewrite M2. apply Z.div_pos; [lia|]. apply Z.pow_pos_nonneg; lia. }
  destruct (shr_m mrs'') as [|m|m]; try lia.
  - reflexivity.
  - match goal with |- context [if ?c then _ else _] => destruct c end;
      reflexivity.
Qed.

Lemma digits2_pos_iter_xO (m d : positive) :
  Z.pos (digits2_pos (Pos.iter xO m d)) = Z.pos (digits2_pos m) + Z.pos d
  /\ Z.pos (Pos.iter xO m d) = Z.pos m * 2 ^ Z.pos d.
Proof.
  induction d as [|d IH] using Pos.peano_ind.
  - simpl. split; lia.
  - rewrite Pos.iter_succ. destruct IH as [IH1 IH2]. simpl digits2_pos.
    rewrite Pos2Z.inj_succ, (Pos2Z.inj_succ d), Pos2Z.inj_xO.
    rewrite Z.pow_succ_r by lia. lia.
Qed.

Lemma shl_align_spec (mx : positive) (ex ex' : Z) :
  let '(mz, ez) := shl_align mx ex ex' in
  ez = Z.min ex ex'
  /\ Z.pos (digits2_pos mz) + ez = Z.pos (digits2_pos mx) + ex
  /\ Z.pos mz = Z.pos mx * 2 ^ (ex - ez).
Proof.
  unfold shl_align. destruct (ex' - ex) as [|d|d] eqn:E.
  - replace (ex - ex) with 0 by lia. simpl. lia.
  - replace (ex - ex) with 0 by lia. simpl. lia.
  - destruct (digits2_pos_iter_xO mx d) as [H1 H2].
    replace (ex - ex') with (Z.pos d) by lia. lia.
Qed.

End Rounding.

Section Binary64.

Lemma Prim2SF_half : Prim2SF 0.5%float = half_sf.
Proof. vm_compute. reflexivity. Qed.

Lemma binary_normalize_pos_finite (m : positive) :
  Z.pos m < 2 ^ 63 ->
  exists m' e', binary_normalize prec emax (Z.pos m) 0 false = S754_finite false m' e'.
Proof.
  intros Hm. unfold binary_normalize, binary_round.
  pose proof (shl_align_spec m 0 (fexp prec emax (Z.pos (digits2_pos m) + 0))) as A.
  destruct (shl_align m 0 _) as [mz ez]. destruct A as [A1 [A2 A3]].
  assert (D : Z.pos (digits2_pos m) <= 63)
    by (apply (Zdigits2_le (Z.pos m)); lia).
  rewrite fexp_large in A1 by lia.
  destruct (binary_round_aux_large false mz ez loc_Exact ltac:(lia))
    as [[m' [e' [H _]]]|[_ H]].
  - now exists m', e'.
  - lia.
Qed.

Lemma of_nat_finite (n : nat) :
  (0 < n)%nat -> Z.of_nat n < 2 ^ 63 ->
  exists m e, Prim2SF (of_nat n) = S754_finite false m e.
Proof.
  intros H0 H. unfold of_nat. rewrite of_uint63_spec, of_Z_spec.
  rewrite Z.mod_small by (change wB with (2 ^ 63); lia).
  destruct (Z.of_nat n) as [|m|m] eqn:E; try lia.
  now apply binary_normalize_pos_finite.
Qed.

Lemma SFdiv_signed (m1 m2 : positive) (e1 e2 : Z) :
  signed false (SF64div (S754_finite false m1 e1) (S754_finite false m2 e2)).
Proof.
  unfold SF64div, SFdiv, SFdiv_core_binary.
  match goal with
  | |- context [Z.div_eucl ?a ?b] =>
      assert (Q : 0 <= fst (Z.div_eucl a b));
      [| destruct (Z.div_eucl a b) as [q r]]
  end.
  - match goal with
    | |- context [Z.div_eucl ?a ?b] =>
        change (fst (Z.div_eucl a b)) with (a / b); apply Z.div_pos; [|lia]
    end.
    destruct (_ - _ - _); try lia. apply Z.shiftl_nonneg. lia.
  - simpl in Q. now apply binary_round_aux_signed.
Qed.

Lemma SFmul_half_signed (x : spec_float) :
  signed false x -> signed false (SF64mul x half_sf).
Proof.
  destruct x as [s|s| |s m e]; simpl; intros H; subst; try reflexivity; try contradiction.
  now apply binary_round_aux_signed.
Qed.

(** Adding a number that is not negative to one half gives one half at
    least. *)
Lemma SFadd_half_ge (y : spec_float) :
  signed false y ->
  valid_binary (SF64add half_sf y) = true ->
  SFleb half_sf (SF64add half_sf y) = true.
Proof.
  destruct y as [s|s| |s my ey]; simpl; intros H V; subst; try reflexivity; try contradiction.
  revert V. unfold SF64add, SFadd, half_sf.
  set (ez := Z.min (-53) ey).
  assert (Hez : ez <= -53) by (unfold ez; lia).
  pose proof (shl_align_spec 4503599627370496 (-53) ez) as A.
  destruct (shl_align 4503599627370496 (-53) ez) as [a ea].
  destruct A as [A0 [_ A]].
  rewrite Z.min_r in A0 by lia. subst ea.
  pose proof (shl_align_spec my ey ez) as B.
  destruct (shl_align my ey ez) as [b eb]. clear B.
  simpl fst. simpl cond_Zopp.
  change (Z.pos a + Z.pos b) with (Z.pos (a + b)).
  unfold binary_normalize, binary_round.
  pose proof (shl_align_spec (a + b) ez
                (fexp prec emax (Z.pos (digits2_pos (a + b)) + ez))) as C.
  destruct (shl_align (a + b) ez _) as [mz ez'].
  destruct C as [C1 [C2 C3]].
  assert (D : - 1 - ez < Z.pos (digits2_pos (a + b))).
  { apply (Zdigits2_gt (Z.pos (a + b))); [lia|].
    rewrite Pos2Z.inj_add, A.
    change 4503599627370496 with (2 ^ 52).
    rewrite <- Z.pow_add_r by lia.
    replace (52 + (-53 - ez)) with (-1 - ez) by lia. lia. }
  destruct (binary_round_aux_large false mz ez' loc_Exact ltac:(lia))
    as [[m [e [-> He]]]|[-> _]]; [|reflexivity].
  intros V. unfold SFleb, SFcompare.
  destruct (Z.compare_spec (-53) e) as [E|E|E]; [|reflexivity|lia].
  subst e. unfold valid_binary, bounded in V. apply andb_true_iff in V. destruct V as [V _].
  unfold canonical_mantissa in V. apply Z.eqb_eq in V.
  unfold fexp, SpecFloat.emin, prec, emax in V.
  assert (Dm : Z.pos (digits2_pos m) = 53) by lia.
  pose proof (digits2_bounds m) as Bm. rewrite Dm in Bm.
  clear - Bm.
  change (Pos.compare_cont Eq 4503599627370496 m)
    with (4503599627370496 ?= m)%positive.
  destruct (Pos.compare_spec 4503599627370496 m) as [G|G|G]; trivial.
  apply Pos2Z.pos_lt_pos in G.
  change (2 ^ (53 - 1)) with 4503599627370496 in Bm. lia.
Qed.

Lemma SFcompare_antisym (x y : spec_float) :
  SFcompare x y = Some Gt -> SFcompare y x = Some Lt.
Proof.
  destruct x as [sx|sx| |sx mx ex], y as [sy|sy| |sy my ey]; simpl;
    try discriminate;
    try (destruct sx; discriminate || reflexivity);
    try (destruct sy; discriminate || reflexivity);
    try (destruct sx, sy; discriminate || reflexivity).
  change (Pos.compare_cont Eq mx my) with (mx ?= my)%positive.
  change (Pos.compare_cont Eq my mx) with (my ?= mx)%positive.
  rewrite (Z.compare_antisym ex ey), (Pos.compare_antisym mx my).
  destruct sx, sy; try (discriminate || reflexivity);
    destruct (ex ?= ey); simpl; try (discriminate || reflexivity);
    destruct (mx ?= my)%positive; simpl; discriminate || reflexivity.
Qed.

Lemma SFcompare_refl (x : spec_float) :
  x <> S754_nan -> SFcompare x x = Some Eq.
Proof.
  destruct x as [s|s| |s m e]; simpl; intros H; try congruence.
  - now destruct s.
  - change (Pos.compare_cont Eq m m) with (m ?= m)%positive.
    rewrite Z.compare_refl, Pos.compare_refl. now destruct s.
Qed.

(** The confidence of a decided sentiment lies between 0.5 and 0.95. *)
Lemma confidence_bounds (p t : nat) :
  (0 < p)%nat -> (0 < t)%nat ->
  Z.of_nat p < 2 ^ 63 -> Z.of_nat t < 2 ^ 63 ->
  let c := Math_min 0.95 (0.5 + of_nat p / of_nat t * 0.5)%float in
  (0.5 <=? c)%float = true /\ (c <=? 0.95)%float = true.
Proof.
  intros Hp Ht Bp Bt.
  destruct (of_nat_finite p Hp Bp) as [mp [ep Pp]].
  destruct (of_nat_finite t Ht Bt) as [mt [et Pt]].
  set (x := (0.5 + of_nat p / of_nat t * 0.5)%float).
  assert (X : Prim2SF x
              = SF64add half_sf
                  (SF64mul (SF64div (S754_finite false mp ep)
                                    (S754_finite false mt et)) half_sf)).
  { unfold x. now rewrite FloatAxioms.add_spec, FloatAxioms.mul_spec, FloatAxioms.div_spec, Prim2SF_half, Pp, Pt. }
  assert (L : SFleb half_sf (Prim2SF x) = true).
  { rewrite X. apply SFadd_half_ge.
    - apply SFmul_half_signed, SFdiv_signed.
    - rewrite <- X. apply Prim2SF_valid. }
  assert (N : Prim2SF x <> S754_nan).
  { intros E. rewrite E in L. discriminate. }
  assert (Lx : (0.5 <=? x)%float = true) by now rewrite FloatAxioms.leb_spec, Prim2SF_half.
  intros c. subst c. unfold Math_min.
  change (is_nan 0.95%float) with false. cbv [orb].
  unfold is_nan. rewrite FloatAxioms.eqb_spec. unfold SFeqb.
  rewrite (SFcompare_refl _ N). cbv [negb].
  destruct (x <? 0.95)%float eqn:E1.
  - split; [assumption|].
    rewrite FloatAxioms.ltb_spec in E1. rewrite FloatAxioms.leb_spec.
    unfold SFltb in E1. unfold SFleb.
    now destruct (SFcompare (Prim2SF x) (Prim2SF 0.95%float)) as [[]|].
  - destruct (0.95 <? x)%float eqn:E2; [split; reflexivity|].
    change (get_sign 0.95%float) with false. cbv iota.
    split; [assumption|].
    rewrite FloatAxioms.ltb_spec in E1, E2. rewrite FloatAxioms.leb_spec.
    unfold SFltb in E1, E2. unfold SFleb.
    destruct (SFcompare (Prim2SF x) (Prim2SF 0.95%float)) as [[]|] eqn:C; trivial.
    + apply SFcompare_antisym in C. now rewrite C in E2.
    + exfalso. destruct (Prim2SF x); discriminate || now apply N.
Qed.

End Binary64.

Local Close Scope Z_scope.

(* ================================================================== *)
(** * The range of the confidence *)
(* ================================================================== *)

Section Range.

Lemma toLowerCase_length (s : string) :
  String.length (toLowerCase s) = String.length s.
Proof. induction s as [|c s IH]; simpl; congruence. Qed.

Lemma replace_non_word_length (s : string) :
  String.length (replace_non_word s) = String.length s.
Proof. induction s as [|c s IH]; simpl; congruence. Qed.

Lemma split_go_length (s cur : string) (in_ws : bool) :
  List.length (split_go s cur in_ws) <= String.length s + 1.
Proof.
  revert cur in_ws. induction s as [|c s IH]; intros cur in_ws; simpl; [lia|].
  destruct (is_space c); [destruct in_ws|]; simpl;
    match goal with |- context [split_go s ?a ?b] => specialize (IH a b) end; lia.
Qed.

Lemma filter_length {A : Type} (f : A -> bool) (l : list A) :
  List.length (filter f l) <= List.length l.
Proof.
  induction l as [|x l IH]; simpl; [lia|]. destruct (f x); simpl; lia.
Qed.

Lemma words_longer_than_length (n : nat) (text : string) :
  List.length (words_longer_than n text) <= String.length text + 1.
Proof.
  unfold words_longer_than, split_ws.
  rewrite filter_length, split_go_length.
  now rewrite replace_non_word_length, toLowerCase_length.
Qed.

Lemma hits_length (lexicon tokens : list string) :
  hits lexicon tokens <= List.length tokens.
Proof. apply filter_length. Qed.

(** The decision on counters below [2^63]. *)
Lemma decide_range (sc : Scores) :
  (Z.of_nat (positiveScore sc + negativeScore sc + neutralScore sc) < 2 ^ 63)%Z ->
  (0.5 <=? snd (decide sc))%float = true
  /\ (snd (decide sc) <=? 0.95)%float = true.
Proof.
  intros H. unfold decide.
  destruct (Nat.eqb_spec (positiveScore sc + negativeScore sc + neutralScore sc) 0);
    [split; reflexivity|].
  destruct (Nat.ltb_spec (negativeScore sc) (positiveScore sc)).
  { apply confidence_bounds; lia. }
  destruct (Nat.ltb_spec (positiveScore sc) (negativeScore sc)).
  { apply confidence_bounds; lia. }
  split; reflexivity.
Qed.

End Range.

(* ================================================================== *)
(** * The emotions and the category names *)
(* ================================================================== *)

Section EmotionScores.

Lemma includes_count_le (lowerText : string) (keywords : list string) (n : nat) :
  fold_left (fun acc keyword => acc + (if includes lowerText keyword then 1 else 0))
            keywords n
  <= n + List.length keywords.
Proof.
  revert n. induction keywords as [|k keywords IH]; intros n; simpl; [lia|].
  specialize (IH (n + (if includes lowerText k then 1 else 0))).
  destruct (includes lowerText k); lia.
Qed.

Lemma emotion_value_range (n : nat) :
  n <= 8 ->
  (0 <=? Math_min 1 (of_nat n * 0.3))%float = true
  /\ (Math_min 1 (of_nat n * 0.3) <=? 1)%float = true.
Proof.
  intros H.
  do 9 (destruct n as [|n]; [vm_compute; split; reflexivity|]).
  lia.
Qed.

Lemma set_emotions (value : list string -> float) :
  fold_left (fun emotions entry =>
               set_emotion emotions (fst entry) (value (snd entry)))
            EMOTION_KEYWORDS
            {| joy := 0%float; anger := 0%float; fear := 0%float;
               sadness := 0%float; surprise := 0%float; disgust := 0%float |}
  = {| joy := value ["happy"; "joy"; "excited"; "thrilled"; "delighted";
                     "pleased"; "cheerful"; "elated"];
       anger := value ["angry"; "mad"; "furious"; "irritated"; "annoyed";
                       "frustrated"; "outraged"];
       fear := value ["scared"; "afraid"; "worried"; "anxious"; "concerned";
                      "nervous"; "fearful"];
       sadness := value ["sad"; "disappointed"; "upset"; "depressed"; "unhappy";
                         "miserable"; "down"];
       surprise := value ["surprised"; "shocked"; "amazed"; "astonished";
                          "unexpected"; "wow"];
       disgust := value ["disgusted"; "revolted"; "appalled"; "repulsed";
                         "sickened"; "nauseated"] |}.
Proof. reflexivity. Qed.

End EmotionScores.

Section SliceRange.

Context {A : Type}.

Lemma slice_range (xs : list A) (a b : nat) :
  a <= b ->
  slice xs (Z.of_nat a) (Some (Z.of_nat b)) = firstn (b - a) (skipn a xs).
Proof.
  intros H. unfold slice, relative_index.
  destruct (Z.ltb_spec (Z.of_nat a) 0); [lia|].
  destruct (Z.ltb_spec (Z.of_nat b) 0); [lia|].
  destruct (Nat.le_gt_cases (List.length xs) a) as [L|L].
  - rewrite !Z.min_r by lia. rewrite Z.sub_diag. simpl firstn.
    rewrite (skipn_all2 xs) by lia. now rewrite firstn_nil.
  - rewrite (Z.min_l (Z.of_nat a)) by lia. rewrite Nat2Z.id.
    destruct (Nat.le_gt_cases b (List.length xs)) as [M|M].
    + rewrite Z.min_l by lia. f_equal. lia.
    + rewrite Z.min_r by lia.
      rewrite !firstn_all2; trivial; rewrite length_skipn; lia.
Qed.

End SliceRange.

Section CategoryNames.

Lemma keys_filter_NoDup {V : Type} (keep : string * V -> bool) (o : object V) :
  NoDup (keys o) -> NoDup (keys (filter keep o)).
Proof.
  unfold keys. induction o as [|entry o IH]; simpl; intros H; [constructor|].
  inversion H as [|? ? Hout Ho]; subst.
  destruct (keep entry); simpl; [constructor|]; auto.
  intros Hin. apply Hout. apply in_map_iff in Hin.
  destruct Hin as [entry' [E He]]. apply filter_In in He.
  apply in_map_iff. exists entry'. tauto.
Qed.

(** The categories are names of the table, each at most once, and at most
    three. *)
Lemma extractCategories_names (text : string) :
  List.length (extractCategories text) <= 3
  /\ NoDup (extractCategories text)
  /\ forall c, In c (extractCategories text) -> In c (keys CATEGORY_KEYWORDS).
Proof.
  unfold extractCategories.
  assert (E : entries CATEGORY_KEYWORDS = CATEGORY_KEYWORDS)
    by (vm_compute; reflexivity).
  rewrite E, (slice_prefix _ 3).
  rewrite (fold_left_push
             (fun c : string * nat => 0 <? snd c)
             (fun entry =>
                (fst entry,
                 fold_left (fun acc keyword =>
                              acc + match_count keyword (toLowerCase text))
                           (snd entry) 0))).
  rewrite app_nil_l.
  set (found := filter _ _).
  assert (P : Permutation
                (map fst (sort (fun a b : string * nat =>
                                  (Z.of_nat (snd b) - Z.of_nat (snd a))%Z) found))
                (map fst found))
    by apply Permutation_map, sort_perm.
  assert (N : NoDup (map fst found)).
  { subst found. apply (keys_filter_NoDup (V := nat)). unfold keys.
    rewrite map_map. cbn [fst].
    change (NoDup (keys CATEGORY_KEYWORDS)).
    vm_compute. repeat (constructor; [simpl; intuition discriminate|]).
    constructor. }
  split; [apply firstn_le_length|]. split.
  - apply NoDup_firstn. apply (Permutation_NoDup (Permutation_sym P) N).
  - intros c Hc. apply In_firstn in Hc. apply (Permutation_in _ P) in Hc.
    subst found. apply in_map_iff in Hc. destruct Hc as [[c' n] [Ec Hc]].
    apply filter_In in Hc. destruct Hc as [Hc _].
    apply in_map_iff in Hc. destruct Hc as [entry [Ee He]].
    simpl in Ec. subst c'. injection Ee as Ee _. subst c.
    unfold keys. now apply in_map.
Qed.

End CategoryNames.

(* ================================================================== *)
(** * The loop of the aggregator *)
(* ================================================================== *)

Section SortedDescending.

Context {A : Type} (score : A -> nat).

Lemma insert_by_desc (x : A) (l : list A) :
  StronglySorted (fun a b => score b <= score a) l ->
  StronglySorted (fun a b => score b <= score a)
                 (insert_by (by_score_desc score) x l).
Proof.
  induction l as [|y l IH]; intros H; simpl.
  - repeat constructor.
  - inversion H as [|? ? Hl Hy]; subst. unfold by_score_desc at 1.
    destruct (Z.ltb_spec 0 (Z.of_nat (score y) - Z.of_nat (score x))) as [L|L].
    + constructor; [now apply IH|].
      apply (Permutation_Forall (Permutation_sym (insert_by_perm _ x l))).
      constructor; [lia|trivial].
    + constructor; [trivial|]. constructor; [lia|].
      eapply Forall_impl; [|exact Hy]. simpl. intros; lia.
Qed.

Lemma sort_desc (l : list A) :
  StronglySorted (fun a b => score b <= score a) (sort (by_score_desc score) l).
Proof.
  induction l as [|x l IH]; simpl; [constructor|]. now apply insert_by_desc.
Qed.

Lemma sort_ext_in (cmp cmp' : A -> A -> Z) (l : list A) :
  (forall a b, In a l -> In b l -> cmp a b = cmp' a b) ->
  sort cmp l = sort cmp' l.
Proof.
  induction l as [|x l IH]; intros H; [reflexivity|]. simpl.
  rewrite <- IH by (intros; apply H; now right).
  assert (S : forall m, incl m l ->
                insert_by cmp x m = insert_by cmp' x m).
  { induction m as [|y m IHm]; intros Hm; [reflexivity|]. simpl.
    rewrite (H x y); [|now left|right; apply Hm; now left].
    rewrite IHm; [reflexivity|]. intros z Hz. apply Hm. now right. }
  apply S. intros z Hz. apply (Permutation_in _ (sort_perm cmp l)) in Hz. trivial.
Qed.

Lemma In_skipn (n : nat) (l : list A) (x : A) : In x (skipn n l) -> In x l.
Proof.
  revert l. induction n as [|n IH]; intros [|y l]; simpl; trivial.
  intros H. right. now apply IH.
Qed.

Lemma sorted_beyond (R : A -> A -> Prop) (n : nat) (l : list A) :
  StronglySorted R l ->
  forall a b, In a (firstn n l) -> In b (skipn n l) -> R a b.
Proof.
  revert l. induction n as [|n IH]; intros l H a b Ha Hb; [destruct Ha|].
  destruct l as [|x l]; [destruct Ha|].
  inversion H as [|? ? Hl Hx]; subst. simpl in Ha, Hb.
  destruct Ha as [<-|Ha].
  - rewrite Forall_forall in Hx. apply Hx. now apply (In_skipn n).
  - now apply (IH l).
Qed.

End SortedDescending.

Section OwnProperties.

Context {V : Type}.

Lemma get_own_In (o : object V) (k : string) (v : V) :
  NoDup (keys o) -> In (k, v) o -> get_own o k = Some v.
Proof.
  induction o as [|[k' v'] o IH]; simpl; intros N H; [destruct H|].
  inversion N as [|? ? Hk No]; subst.
  destruct H as [H|H].
  - injection H as -> ->. now rewrite String.eqb_refl.
  - destruct (String.eqb_spec k k') as [->|_]; [|auto].
    exfalso. apply Hk. unfold keys. apply in_map_iff. now exists (k', v).
Qed.

Lemma get_own_Some (o : object V) (k : string) (v : V) :
  get_own o k = Some v -> In (k, v) o.
Proof.
  induction o as [|[k' v'] o IH]; simpl; [discriminate|].
  destruct (String.eqb_spec k k') as [->|_].
  - intros H. injection H as ->. now left.
  - auto.
Qed.

End OwnProperties.

Section Events.

Lemma fold_tally_None (rs : list Response) :
  fold_left tally_response rs None = None.
Proof. induction rs; simpl; trivial. Qed.

Lemma fold_track_None (sentiment : string) (cats : list string) :
  fold_left (track_category sentiment) cats None = None.
Proof. induction cats; simpl; trivial. Qed.

Lemma track_inherited (sentiment : string) (cats : list string) (c : string) :
  In c cats -> inherited c = true ->
  forall cm, fold_left (track_category sentiment) cats cm = None.
Proof.
  induction cats as [|c' cats IH]; intros Hin Hc cm; [destruct Hin|].
  simpl. destruct Hin as [->|Hin]; [|now apply IH].
  destruct cm as [cm|]; simpl; [rewrite Hc|]; apply fold_track_None.
Qed.

Lemma tally_inherited (rs : list Response) (r : Response) (c : string) :
  In r rs -> In c (response_categories r) -> inherited c = true ->
  forall t, fold_left tally_response rs t = None.
Proof.
  induction rs as [|r' rs IH]; intros Hr Hc Hi t; [destruct Hr|].
  simpl. destruct Hr as [->|Hr]; [|now apply IH].
  destruct t as [t|]; simpl; [|apply fold_tally_None].
  rewrite (track_inherited _ _ c Hc Hi). apply fold_tally_None.
Qed.

Lemma track_as_events (sentiment : string) (cats : list string) :
  forall cm,
    fold_left (track_category sentiment) cats cm
    = fold_left track_event (map (fun c => (c, sentiment)) cats) cm.
Proof. induction cats as [|c cats IH]; intros cm; simpl; [reflexivity|apply IH]. Qed.

Lemma fold_track_event_None (evs : list (string * string)) :
  fold_left track_event evs None = None.
Proof. induction evs; simpl; trivial. Qed.

Lemma sentiments_of_app (c : string) (evs evs' : list (string * string)) :
  sentiments_of c (evs ++ evs') = sentiments_of c evs ++ sentiments_of c evs'.
Proof. unfold sentiments_of. now rewrite filter_app, map_app. Qed.

Lemma track_event_tracked (cm cm' : object (nat * list string))
    (evs : list (string * string)) (e : string * string) :
  tracked cm evs -> NoDup (keys cm) ->
  track_event (Some cm) e = Some cm' ->
  tracked cm' (evs ++ [e]) /\ NoDup (keys cm') /\ inherited (fst e) = false.
Proof.
  intros T N H. destruct e as [c0 s]. unfold track_event in H. simpl in H.
  destruct (inherited c0) eqn:Hi; [discriminate|].
  destruct (match get_own cm c0 with Some data => data | None => (0, []) end)
    as [count sents] eqn:Eg.
  injection H as <-.
  split; [|split; [now apply keys_set_own_NoDup|trivial]].
  intros c. rewrite get_own_set_own, sentiments_of_app.
  unfold sentiments_of at 2. simpl. rewrite (String.eqb_sym c0 c).
  destruct (String.eqb_spec c c0) as [->|_].
  - rewrite (T c0) in Eg. simpl.
    destruct (sentiments_of c0 evs) as [|s0 ss].
    + injection Eg as <- <-. reflexivity.
    + injection Eg as <- <-. simpl. rewrite length_app. simpl.
      now rewrite Nat.add_1_r.
  - simpl. rewrite app_nil_r. apply T.
Qed.

Lemma track_events_tracked (evs : list (string * string)) :
  forall (cm cm' : object (nat * list string)) (evs0 : list (string * string)),
    tracked cm evs0 -> NoDup (keys cm) ->
    fold_left track_event evs (Some cm) = Some cm' ->
    tracked cm' (evs0 ++ evs) /\ NoDup (keys cm')
    /\ forall e, In e evs -> inherited (fst e) = false.
Proof.
  induction evs as [|e evs IH]; intros cm cm' evs0 T N H; cbn [fold_left] in H.
  - injection H as <-. rewrite app_nil_r. repeat split; trivial. intros e [].
  - destruct (track_event (Some cm) e) as [cm1|] eqn:E1;
      [|now rewrite fold_track_event_None in H].
    destruct (track_event_tracked _ _ _ _ T N E1) as [T1 [N1 I1]].
    destruct (IH _ _ _ T1 N1 H) as [T2 [N2 I2]].
    rewrite <- app_assoc in T2. repeat split; trivial.
    intros e' [<-|He']; auto.
Qed.

Lemma tally_categoryMap (rs : list Response) :
  forall t0 t,
    fold_left tally_response rs (Some t0) = Some t ->
    fold_left track_event (events rs) (Some (categoryMap t0))
    = Some (categoryMap t).
Proof.
  induction rs as [|r rs IH]; intros t0 t H; simpl in H.
  - now injection H as <-.
  - simpl events. rewrite fold_left_app, <- track_as_events.
    destruct (fold_left (track_category (sentiment_or_neutral r))
                        (response_categories r) (Some (categoryMap t0)))
      as [cm|] eqn:Ecm; [|now rewrite fold_tally_None in H].
    now apply IH in H.
Qed.

Lemma tally_counts (rs : list Response) :
  forall t0 t,
    fold_left tally_response rs (Some t0) = Some t ->
    urgent t = urgent t0 + List.length (filter is_urgent rs)
    /\ actionable t = actionable t0 + List.length (filter needs_action rs).
Proof.
  induction rs as [|r rs IH]; intros t0 t H; simpl in H.
  - injection H as <-. simpl. lia.
  - destruct (fold_left (track_category (sentiment_or_neutral r))
                        (response_categories r) (Some (categoryMap t0)))
      as [cm|] eqn:Ecm; [|now rewrite fold_tally_None in H].
    apply IH in H. cbn [urgent actionable] in H. destruct H as [U Ac].
    rewrite U, Ac. simpl filter. unfold is_urgent, needs_action.
    destruct (resp_metadata r) as [m|].
    + destruct (is_string (md_urgency m) "critical" || is_string (md_urgency m) "high"),
        (md_actionRequired m); simpl; lia.
    + simpl. lia.
Qed.

Lemma events_categories (rs : list Response) :
  map fst (events rs) = flat_map response_categories rs.
Proof.
  induction rs as [|r rs IH]; [reflexivity|]. simpl events.
  rewrite map_app, IH, map_map. simpl. now rewrite map_id.
Qed.

Lemma sentiments_of_length (c : string) (evs : list (string * string)) :
  List.length (sentiments_of c evs) = count_occ string_dec (map fst evs) c.
Proof.
  unfold sentiments_of. rewrite length_map.
  induction evs as [|[c' s] evs IH]; [reflexivity|]. simpl.
  destruct (String.eqb_spec c' c) as [->|Hn].
  - destruct (string_dec c c); [simpl; now rewrite IH|contradiction].
  - destruct (string_dec c' c); [contradiction|trivial].
Qed.

Lemma sentiments_of_count (s c : string) (rs : list Response) :
  count_occ string_dec (sentiments_of c (events rs)) s = listings_with s c rs.
Proof.
  unfold listings_with, listings.
  induction rs as [|r rs IH]; [reflexivity|]. simpl events.
  rewrite sentiments_of_app, count_occ_app, IH. clear IH. simpl filter.
  assert (E : count_occ string_dec
                (sentiments_of c (map (fun c0 => (c0, sentiment_or_neutral r))
                                      (response_categories r))) s
              = if String.eqb (sentiment_or_neutral r) s
                then count_occ string_dec (response_categories r) c else 0).
  { generalize (response_categories r) as cats.
    induction cats as [|c' cats IHc]; simpl.
    - now destruct (String.eqb _ s).
    - unfold sentiments_of in *. simpl.
      destruct (String.eqb_spec c' c) as [->|Hn].
      + simpl. rewrite IHc.
        destruct (String.eqb_spec (sentiment_or_neutral r) s) as [->|Hs].
        * destruct (string_dec s s); [|contradiction].
          destruct (string_dec c c); [reflexivity|contradiction].
        * destruct (string_dec (sentiment_or_neutral r) s); [contradiction|trivial].
      + rewrite IHc. destruct (String.eqb _ s); [|reflexivity].
        destruct (string_dec c' c); [contradiction|reflexivity]. }
  rewrite E. destruct (String.eqb (sentiment_or_neutral r) s).
  - simpl flat_map. now rewrite count_occ_app.
  - reflexivity.
Qed.

Lemma generateInsights_tally (rs : list Response) (insights : Insights) :
  generateInsights rs = Some insights ->
  rs <> [] ->
  exists t,
    fold_left tally_response rs
      (Some {| sentimentCounts := no_counts; categoryMap := [];
               urgent := 0; actionable := 0 |}) = Some t
    /\ topCategories insights
       = firstn 5 (sort (by_score_desc tc_count)
                        (map top_category (entries (categoryMap t))))
    /\ urgentIssues insights = urgent t
    /\ actionableItems insights = actionable t.
Proof.
  intros H Hne. unfold generateInsights in H.
  destruct rs as [|r rs]; [contradiction|].
  change (List.length (r :: rs) =? 0) with false in H. cbv iota in H.
  destruct (fold_left tally_response (r :: rs) _) as [t|]; [|discriminate].
  exists t. injection H as <-. cbn [topCategories urgentIssues actionableItems].
  rewrite (slice_prefix _ 5). repeat split.
Qed.

End Events.

Section Dominant.

Lemma increment_three (p n g : nat) (s : string) :
  In s ["positive"; "neutral"; "negative"] ->
  increment (three_counts p n g) s
  = three_counts (p + (if String.eqb s "positive" then 1 else 0))
                 (n + (if String.eqb s "neutral" then 1 else 0))
                 (g + (if String.eqb s "negative" then 1 else 0)).
Proof.
  intros [<-|[<-|[<-|[]]]]; unfold three_counts, increment; simpl;
    now rewrite !Nat.add_0_r.
Qed.

Lemma increments_three (ss : list string) :
  Forall (fun s => In s ["positive"; "neutral"; "negative"]) ss ->
  forall p n g,
    fold_left increment ss (three_counts p n g)
    = three_counts (p + count_occ string_dec ss "positive")
                   (n + count_occ string_dec ss "neutral")
                   (g + count_occ string_dec ss "negative").
Proof.
  induction 1 as [|s ss Hs _ IH]; intros p n g; simpl fold_left.
  - simpl. now rewrite !Nat.add_0_r.
  - rewrite (increment_three _ _ _ s Hs), IH. cbn [count_occ].
    destruct Hs as [<-|[<-|[<-|[]]]]; simpl;
      rewrite ?Nat.add_0_r, <- ?Nat.add_assoc; reflexivity.
Qed.

Lemma dominant_three (p n g : nat) :
  match sort (fun x y => count_diff (snd y) (snd x)) (entries (three_counts p n g)) with
  | (k, _) :: _ => k
  | [] => ""
  end = most_frequent p n g.
Proof.
  assert (E : entries (three_counts p n g) = three_counts p n g) by reflexivity.
  rewrite E. unfold three_counts, sort, most_frequent. simpl.
  destruct (Z.ltb_spec 0 (Z.of_nat g - Z.of_nat n)),
    (Nat.leb_spec n p), (Nat.leb_spec g p), (Nat.leb_spec g n); simpl;
    repeat match goal with
           | |- context [(0 <? ?z)%Z] => destruct (Z.ltb_spec 0 z); simpl
           end; trivial; lia.
Qed.

Lemma dominant_most_frequent (ss : list string) :
  Forall (fun s => In s ["positive"; "neutral"; "negative"]) ss ->
  dominant ss = most_frequent (count_occ string_dec ss "positive")
                              (count_occ string_dec ss "neutral")
                              (count_occ string_dec ss "negative").
Proof.
  intros H. unfold dominant. change no_counts with (three_counts 0 0 0).
  rewrite (increments_three ss H). simpl Nat.add. apply dominant_three.
Qed.

End Dominant.

Section TopCategories.

Lemma generateInsights_tracked (rs : list Response) (insights : Insights) :
  generateInsights rs = Some insights ->
  exists cm,
    tracked cm (events rs) /\ NoDup (keys cm)
    /\ topCategories insights
       = firstn 5 (sort (by_score_desc tc_count) (map top_category (entries cm))).
Proof.
  intros H. destruct rs as [|r rs].
  - exists []. injection H as <-.
    split; [intros c; reflexivity|]. split; [constructor|reflexivity].
  - destruct (generateInsights_tally _ _ H) as [t [F [T _]]]; [discriminate|].
    exists (categoryMap t). apply tally_categoryMap in F. cbn [categoryMap] in F.
    destruct (track_events_tracked _ [] _ [] (fun c => eq_refl) (NoDup_nil _) F)
      as [Tr [N _]].
    split; [exact Tr|]. split; [exact N|exact T].
Qed.

Lemma top_category_In (cm : object (nat * list string))
    (evs : list (string * string)) (x : TopCategory) :
  tracked cm evs -> NoDup (keys cm) ->
  In x (sort (by_score_desc tc_count) (map top_category (entries cm))) ->
  sentiments_of (tc_category x) evs <> []
  /\ tc_count x = List.length (sentiments_of (tc_category x) evs)
  /\ tc_sentiment x = dominant (sentiments_of (tc_category x) evs).
Proof.
  intros T N H.
  apply (Permutation_in _ (sort_perm _ _)) in H.
  apply in_map_iff in H. destruct H as [[c [n ss]] [<- H]].
  apply (Permutation_in _ (entries_perm cm)) in H.
  apply (get_own_In _ _ _ N) in H. rewrite (T c) in H.
  cbn [top_category tc_category tc_count tc_sentiment fst snd].
  destruct (sentiments_of c evs) as [|s0 ss0]; [discriminate|].
  injection H as <- <-. repeat split. discriminate.
Qed.

Lemma top_category_keys (cm : object (nat * list string)) :
  Permutation
    (map tc_category (sort (by_score_desc tc_count) (map top_category (entries cm))))
    (keys cm).
Proof.
  rewrite (Permutation_map tc_category (sort_perm _ _)).
  rewrite map_map. cbn [top_category tc_category].
  apply (Permutation_map fst (entries_perm cm)).
Qed.

Lemma sentiments_of_events (c s : string) (rs : list Response) :
  In s (sentiments_of c (events rs)) ->
  exists r, In r rs /\ s = sentiment_or_neutral r.
Proof.
  unfold sentiments_of. intros H. apply in_map_iff in H.
  destruct H as [[c' s'] [<- H]]. apply filter_In in H. destruct H as [H _].
  unfold events in H. apply in_flat_map in H. destruct H as [r [Hr H]].
  apply in_map_iff in H. destruct H as [c0 [E _]]. injection E as _ <-.
  now exists r.
Qed.

End TopCategories.

(* ================================================================== *)
(** * The counts of the keywords *)
(* ================================================================== *)

Section WordCounts.

Lemma inherited_lower_cased (w : string) :
  inherited w = true -> toLowerCase w = w ->
  w = "constructor" \/ w = "__proto__".
Proof.
  intros H L. apply array_includes_In in H.
  unfold Object_prototype_members in H. simpl in H.
  repeat (destruct H as [<-|H];
          [first [now left | now right | vm_compute in L; discriminate]|]).
  destruct H.
Qed.

Lemma count_word_counted (wordCount : object count_value)
    (words : list string) (word : string) :
  counted wordCount words -> inherited word = false ->
  counted (count_word wordCount word) (words ++ [word]).
Proof.
  intros C Hi w. unfold count_word.
  assert (P : String.eqb word "__proto__" = false).
  { destruct (String.eqb_spec word "__proto__") as [->|]; [discriminate|trivial]. }
  rewrite count_occ_app. simpl count_occ.
  assert (G := C word). rewrite P, Hi.
  assert (S : get_own
                (match get_own wordCount word with
                 | Some (Count n) => set_own wordCount word (Count (n + 1))
                 | Some NotANumber => set_own wordCount word NotANumber
                 | None => set_own wordCount word (Count 1)
                 end) w
              = if String.eqb w word
                then Some (Count (S (count_occ string_dec words word)))
                else get_own wordCount w).
  { destruct (count_occ string_dec words word) as [|n]; rewrite G;
      rewrite get_own_set_own; [reflexivity|].
    now rewrite Nat.add_1_r. }
  rewrite S. clear S G.
  destruct (String.eqb_spec w word) as [->|Hn].
  - destruct (string_dec word word); [|contradiction].
    now rewrite Nat.add_1_r.
  - destruct (string_dec word w) as [E|_]; [now symmetry in E|].
    rewrite Nat.add_0_r. apply C.
Qed.

Lemma count_words_counted (words : list string) :
  (forall w, In w words -> inherited w = false) ->
  forall (wordCount : object count_value) (words0 : list string),
    counted wordCount words0 ->
    counted (fold_left count_word words wordCount) (words0 ++ words).
Proof.
  induction words as [|word words IH]; intros H wordCount words0 C; simpl.
  - now rewrite app_nil_r.
  - change (word :: words) with ([word] ++ words). rewrite app_assoc.
    apply IH; [intros; apply H; now right|].
    apply count_word_counted; [trivial|]. apply H. now left.
Qed.

Lemma counted_entries (wordCount : object count_value) (words : list string) :
  counted wordCount words -> NoDup (keys wordCount) ->
  forall entry, In entry wordCount ->
    snd entry = Count (count_occ string_dec words (fst entry))
    /\ 0 < count_occ string_dec words (fst entry).
Proof.
  intros C N [w v] H. apply (get_own_In _ _ _ N) in H.
  rewrite (C w) in H. simpl.
  destruct (count_occ string_dec words w); [discriminate|].
  injection H as <-. split; [reflexivity|lia].
Qed.

End WordCounts.

(* ================================================================== *)
(** * Patterns of fixed length *)
(* ================================================================== *)

Section Patterns.

Lemma test_sequence_expand (pattern : list (class * nat)) :
  forall s, test_sequence pattern s = match_classes (expand pattern) s.
Proof.
  induction pattern as [|[cls n] pattern IH]; intros s; simpl.
  - now destruct s.
  - revert s. induction n as [|n IHn]; intros s; simpl; [apply IH|].
    destruct s as [|c s]; [reflexivity|].
    destruct (class_matches_ci cls c); [apply IHn|reflexivity].
Qed.

Lemma match_classes_spec (classes : list class) :
  forall s,
    match_classes classes s = true
    <-> String.length s = List.length classes
        /\ forall i c cls,
             String.get i s = Some c -> nth_error classes i = Some cls ->
             class_matches_ci cls c = true.
Proof.
  induction classes as [|cls classes IH]; intros [|c s]; simpl.
  - split; [|reflexivity]. intros _. split; [reflexivity|]. intros i c cls H.
    discriminate.
  - split; [discriminate|]. intros [H _]. discriminate.
  - split; [discriminate|]. intros [H _]. discriminate.
  - rewrite andb_true_iff, IH. split.
    + intros [Hc [Hl Hi]]. split; [now rewrite Hl|].
      intros [|i] c' cls'; simpl.
      * intros E1 E2. injection E1 as <-. injection E2 as <-. exact Hc.
      * apply Hi.
    + intros [Hl Hi]. split; [apply (Hi 0); reflexivity|].
      split; [now injection Hl|]. intros i c' cls'. apply (Hi (S i)).
Qed.

Lemma class_matches_ci_lower (cls : class) (c : ascii) :
  class_matches_ci cls (lower_char c) = class_matches_ci cls c.
Proof.
  unfold class_matches_ci. induction cls as [|range cls IH]; [reflexivity|].
  simpl. rewrite IH. f_equal.
  induction (members range) as [|member l IHl]; [reflexivity|].
  simpl. now rewrite IHl, char_eq_ci_lower_char.
Qed.

Lemma match_classes_lower (classes : list class) :
  forall s, match_classes classes (toLowerCase s) = match_classes classes s.
Proof.
  induction classes as [|cls classes IH]; intros [|c s]; simpl; trivial.
  now rewrite IH, class_matches_ci_lower.
Qed.

Lemma uuid_class (cls : class) (allowed : string) :
  forallb (fun n => Bool.eqb (class_matches_ci cls (ascii_of_nat n))
                             (one_of allowed (ascii_of_nat n)))
          (seq 0 256) = true ->
  forall c, class_matches_ci cls c = one_of allowed c.
Proof.
  intros H c. rewrite forallb_forall in H.
  rewrite <- (ascii_nat_embedding c). apply Bool.eqb_prop, H, in_seq.
  pose proof (nat_ascii_bounded c). lia.
Qed.

Lemma uuid_classes (i : nat) (cls : class) (c : ascii) :
  nth_error (expand uuidRegex) i = Some cls ->
  class_matches_ci cls c = uuid_character i c.
Proof.
  intros H.
  do 36 (destruct i as [|i];
         [injection H as <-; apply uuid_class; vm_compute; reflexivity|]).
  destruct i; discriminate.
Qed.

End Patterns.

(* ================================================================== *)
(** * Values that stand for nothing *)
(* ================================================================== *)

Section Defaults.

Lemma or_string_Some (s d : string) :
  or_string (Some s) d = if String.eqb s "" then d else s.
Proof. unfold or_string, truthy. now destruct (String.eqb s ""). Qed.

Lemma or_string_filled (s : option string) (d : string) :
  String.eqb d "" = false -> String.eqb (or_string s d) "" = false.
Proof.
  intros H. destruct s as [s|]; [|exact H]. rewrite or_string_Some.
  destruct (String.eqb s "") eqn:E; trivial.
Qed.

Lemma or_nothing_filled (s : option string) : not_empty (or_nothing s) = true.
Proof.
  unfold or_nothing. destruct s as [s|]; [|reflexivity]. simpl.
  destruct (String.eqb s "") eqn:E; simpl; [reflexivity|now rewrite E].
Qed.

Lemma or_nothing_idem (s : option string) :
  or_nothing (or_nothing s) = or_nothing s.
Proof.
  unfold or_nothing. destruct s as [s|]; [|reflexivity]. simpl.
  destruct (String.eqb s "") eqn:E; simpl; [reflexivity|now rewrite E].
Qed.

Lemma or_nothing_fixed (s : option string) :
  or_nothing s = s <-> not_empty s = true.
Proof.
  unfold or_nothing. destruct s as [s|]; simpl; [|tauto].
  destruct (String.eqb s ""); simpl; split; trivial; discriminate.
Qed.

Lemma or_string_fixed (s d : string) :
  String.eqb d "" = false ->
  (or_string (Some s) d = s <-> String.eqb s "" = false).
Proof.
  intros H. rewrite or_string_Some.
  destruct (String.eqb_spec s "") as [->|Hn]; [|tauto].
  split; [|discriminate]. intros ->. discriminate.
Qed.

End Defaults.

(* ================================================================== *)
(** * The row of a submission *)
(* ================================================================== *)

Section Submission.

Lemma append_length (a b : string) :
  String.length (String.append a b) = String.length a + String.length b.
Proof. induction a as [|c a IH]; simpl; [reflexivity|now rewrite IH]. Qed.

Lemma join_length (sep x : string) (xs : list string) :
  String.length x <= String.length (join sep (x :: xs)).
Proof.
  destruct xs as [|y xs]; [simpl; lia|].
  change (join sep (x :: y :: xs))
    with (String.append x (String.append sep (join sep (y :: xs)))).
  rewrite append_length. lia.
Qed.

Lemma long_strings_In (vs : list value) (s : string) :
  In s (long_strings vs) <-> In (VString s) vs /\ 10 < String.length s.
Proof.
  unfold long_strings. rewrite in_flat_map. split.
  - intros [v [Hv H]]. destruct v as [s'| |]; try destruct H.
    destruct (Nat.ltb_spec 10 (String.length s')) as [L|L]; [|destruct H].
    destruct H as [<-|[]]. tauto.
  - intros [Hv L]. exists (VString s). split; [trivial|].
    apply Nat.ltb_lt in L. rewrite L. now left.
Qed.

Lemma long_strings_long (vs : list value) :
  Forall (fun s => 10 < String.length s) (long_strings vs).
Proof. apply Forall_forall. intros s H. now apply long_strings_In in H. Qed.

Lemma values_In {V : Type} (o : object V) (v : V) :
  In v (values o) <-> exists k, In (k, v) o.
Proof.
  unfold values. rewrite in_map_iff. split.
  - intros [[k v'] [<- H]]. exists k.
    now apply (Permutation_in _ (entries_perm o)).
  - intros [k H]. exists (k, v). split; [reflexivity|].
    now apply (Permutation_in _ (Permutation_sym (entries_perm o))).
Qed.

(** The text is analysed when, and only when, an answer is a string longer
    than ten characters. *)
Lemma analysis_of_long_answer (responseData : object value) :
  (exists k s, In (k, VString s) responseData /\ 10 < String.length s)
  <-> analysis_of responseData
      = Some (analyzeSentiment (textResponses responseData),
              categorizeFeedback (textResponses responseData)
                (analyzeSentiment (textResponses responseData))).
Proof.
  unfold analysis_of, textResponses.
  set (texts := long_strings (values responseData)).
  assert (F := long_strings_long (values responseData)). fold texts in F.
  split.
  - intros [k [s [Hk L]]].
    assert (Hs : In s texts).
    { apply long_strings_In. split; [|trivial]. apply values_In. now exists k. }
    destruct texts as [|x xs]; [destruct Hs|].
    inversion F as [|? ? Fx _]; subst.
    assert (J := join_length " " x xs).
    destruct (Nat.ltb_spec 10 (String.length (join " " (x :: xs)))); [reflexivity|lia].
  - intros H. destruct texts as [|x xs] eqn:E; [discriminate|].
    assert (Hx : In x (long_strings (values responseData)))
      by (fold texts; rewrite E; now left).
    apply long_strings_In in Hx. destruct Hx as [Hv L].
    apply values_In in Hv. destruct Hv as [k Hk]. now exists k, x.
Qed.

Lemma inserted_row_categories (responseData : object value) (c : string) :
  In c (response_categories (inserted_row responseData)) ->
  c = "General Feedback" \/ In c (keys CATEGORY_KEYWORDS).
Proof.
  unfold response_categories, inserted_row.
  cbn [resp_metadata md_categories].
  destruct (analysis_of responseData) as [[a cz]|] eqn:E; [|intros []].
  unfold analysis_of in E.
  destruct (10 <? String.length (textResponses responseData)); [|discriminate].
  injection E as <- <-.
  set (text := textResponses responseData).
  destruct (truthy _); [|intros []].
  assert (K : forall name,
             In name (primaryCategory (categorizeFeedback text (analyzeSentiment text))
                      :: secondaryCategories
                           (categorizeFeedback text (analyzeSentiment text))) ->
             name = "General Feedback" \/ In name (keys CATEGORY_KEYWORDS)).
  { assert (C : categories (analyzeSentiment text) = extractCategories text).
    { unfold analyzeSentiment. now destruct (decide _). }
    destruct (extractCategories_names text) as [_ [_ M]].
    intros name. unfold categorizeFeedback.
    cbn [primaryCategory secondaryCategories]. rewrite C.
    assert (Sl : slice (extractCategories text) 1 (Some 3%Z)
                 = firstn 2 (skipn 1 (extractCategories text)))
      by (apply (slice_range (extractCategories text) 1 3); lia).
    rewrite Sl.
    intros [<-|H].
    - destruct (extractCategories text) as [|c0 cs]; [now left|].
      destruct (String.eqb c0 ""); [now left|]. right. apply M. now left.
    - right. apply M. apply In_firstn in H. apply (In_skipn 1) in H. exact H. }
  apply K.
Qed.

Lemma inserted_rows_plain (submissions : list (object value)) :
  plain_categories (map inserted_row submissions).
Proof.
  intros r c Hr Hc. apply in_map_iff in Hr. destruct Hr as [data [<- _]].
  apply inserted_row_categories in Hc.
  destruct Hc as [->|Hc]; [reflexivity|].
  vm_compute in Hc.
  repeat (destruct Hc as [<-|Hc]; [reflexivity|]). destruct Hc.
Qed.

Lemma inserted_row_urgent (responseData : object value) :
  is_urgent (inserted_row responseData) = true ->
  needs_action (inserted_row responseData) = true.
Proof.
  unfold is_urgent, needs_action, inserted_row.
  cbn [resp_metadata md_urgency md_actionRequired].
  destruct (analysis_of responseData) as [[a cz]|] eqn:E; [|discriminate].
  unfold analysis_of in E.
  destruct (10 <? String.length (textResponses responseData)); [|discriminate].
  injection E as <- <-.
  set (text := textResponses responseData).
  set (c := categorizeFeedback text (analyzeSentiment text)).
  assert (A : actionRequired c
              = Urgency_eqb (urgency c) Critical || Urgency_eqb (urgency c) High
                || (Sentiment_eqb (sentiment (analyzeSentiment text)) Negative
                    && (0.7 <? confidence (analyzeSentiment text))%float))
    by reflexivity.
  rewrite A. clear A.
  generalize (Sentiment_eqb (sentiment (analyzeSentiment text)) Negative
              && (0.7 <? confidence (analyzeSentiment text))%float) as negative.
  generalize (urgency c) as u.
  intros [| | |] negative; simpl; trivial; discriminate.
Qed.

Lemma filter_length_le {A : Type} (p q : A -> bool) (l : list A) :
  (forall x, In x l -> p x = true -> q x = true) ->
  List.length (filter p l) <= List.length (filter q l).
Proof.
  induction l as [|x l IH]; intros H; simpl; [lia|].
  assert (IH' := IH (fun y Hy => H y (or_intror Hy))).
  assert (Hx := H x (or_introl eq_refl)).
  destruct (p x); [rewrite Hx by reflexivity; simpl; lia|].
  destruct (q x); simpl; lia.
Qed.

End Submission.

(* ================================================================== *)
(** * The two counts of the sentiments *)
(* ================================================================== *)

Section Breakdown.

Lemma count_own_sentiments (key : string) (rs : list Response) :
  key <> "" ->
  forall (counts : object count_value) (n : nat),
    get_own counts key = Some (Count n) ->
    get_own (fold_left count_own_sentiment rs counts) key
    = Some (Count (n + with_sentiment key rs)).
Proof.
  intros Hkey.
  induction rs as [|r rs IH]; intros counts n H.
  - simpl. now rewrite Nat.add_0_r.
  - rewrite with_sentiment_cons. simpl fold_left.
    unfold count_own_sentiment at 2. unfold is_string.
    destruct (resp_sentiment r) as [s|]; [|now apply IH].
    unfold truthy. destruct (String.eqb_spec s "") as [E|N]; simpl negb; simpl andb.
    + subst s. destruct (String.eqb_spec "" key); [congruence|]. now apply IH.
    + unfold hasOwnProperty.
      destruct (get_own counts s) as [v|] eqn:G.
      * rewrite (IH _ _ (count_of_increment _ s _ _ H)).
        destruct (String.eqb s key); do 2 f_equal; lia.
      * destruct (String.eqb_spec s key) as [->|_]; [congruence|]. now apply IH.
Qed.

Lemma generateInsights_Some_plain (rs : list Response) (insights : Insights) :
  generateInsights rs = Some insights -> plain_categories rs.
Proof.
  intros H r c Hr Hc. destruct (inherited c) eqn:Hi; [|reflexivity].
  exfalso. unfold generateInsights in H.
  destruct rs as [|r0 rs]; [destruct Hr|].
  change (List.length (r0 :: rs) =? 0) with false in H. cbv iota in H.
  now rewrite (tally_inherited _ r c Hr Hc Hi) in H.
Qed.

End Breakdown.

(* ================================================================== *)
(** * The checks on the categories of an update *)
(* ================================================================== *)

Section Validation.

Lemma filter_all {A : Type} (f : A -> bool) (l : list A) :
  List.length (filter f l) = List.length l -> forall x, In x l -> f x = true.
Proof.
  induction l as [|y l IH]; intros H x Hx; [destruct Hx|]. simpl in H.
  pose proof (List.filter_length_le f l) as L.
  destruct (f y) eqn:Fy; simpl in H; [|lia].
  destruct Hx as [<-|Hx]; [exact Fy|]. apply IH; [lia|exact Hx].
Qed.

Lemma first_occurrences_shorter (xs : list string) :
  List.length (first_occurrences xs) <= List.length xs.
Proof.
  induction xs as [|x xs IH]; simpl; [lia|].
  pose proof (List.filter_length_le (fun y => negb (String.eqb y x))
                                    (first_occurrences xs)). lia.
Qed.

Lemma first_occurrences_all (xs : list string) :
  List.length (first_occurrences xs) = List.length xs <-> NoDup xs.
Proof.
  induction xs as [|x xs IH]; simpl.
  - split; [constructor|reflexivity].
  - pose proof (first_occurrences_shorter xs) as S1.
    pose proof (List.filter_length_le (fun y => negb (String.eqb y x))
                                      (first_occurrences xs)) as S2.
    split.
    + intros H. constructor.
      * intros Hx. apply <- first_occurrences_In in Hx.
        assert (Lf : List.length (filter (fun y => negb (String.eqb y x))
                                         (first_occurrences xs))
                     = List.length (first_occurrences xs)) by lia.
        assert (F := filter_all _ _ Lf x Hx). simpl in F.
        now rewrite String.eqb_refl in F.
      * apply IH. lia.
    + intros H. inversion H as [|? ? Hx Hxs]; subst.
      assert (E : filter (fun y => negb (String.eqb y x)) (first_occurrences xs)
                  = first_occurrences xs).
      { apply forallb_filter_id. apply forallb_forall. intros y Hy.
        apply -> first_occurrences_In in Hy.
        destruct (String.eqb_spec y x) as [Eyx|]; [|reflexivity].
        subst y. exfalso. apply Hx, Hy. }
      rewrite E. f_equal. now apply IH.
Qed.

Lemma few_categories (n : nat) :
  n <= 12 -> (10 <? of_nat n)%float = false -> n <= 10.
Proof.
  intros H L.
  do 11 (destruct n as [|n]; [lia|]).
  do 2 (destruct n as [|n]; [vm_compute in L; discriminate|]).
  lia.
Qed.

(** What the checks on the categories ask under the default rules. *)
Lemma default_category_checks (categories : list string) :
  push_if (number_truthy 10 && (10 <? of_nat (List.length categories))%float)
          (Cannot_have_more_than 10)
  ++ push_if (0 <? List.length
                     (filter (fun cat => negb (array_includes default_categories cat))
                             categories))
             (Invalid_categories
                (filter (fun cat => negb (array_includes default_categories cat))
                        categories))
  ++ push_if (negb (List.length (set_of categories) =? List.length categories))
             Duplicate_categories_are_not_allowed
  = []
  <-> NoDup categories
      /\ List.length categories <= 10
      /\ forall c, In c categories -> In c default_categories.
Proof.
  set (invalid := filter _ categories).
  rewrite set_of_first_occurrences.
  assert (I : invalid = [] <-> forall c, In c categories -> In c default_categories).
  { subst invalid. split.
    - intros E c Hc. apply array_includes_In.
      destruct (array_includes default_categories c) eqn:A; [reflexivity|].
      assert (Hin : In c (filter (fun cat => negb (array_includes default_categories cat))
                                 categories))
        by (apply filter_In; now rewrite A).
      rewrite E in Hin. destruct Hin.
    - intros H. induction categories as [|c cs IH]; [reflexivity|].
      cbn [filter].
      assert (A : array_includes default_categories c = true)
        by (apply array_includes_In, H; now left).
      rewrite A. cbn [negb]. apply IH. intros; apply H; now right. }
  split.
  - intros H. apply app_eq_nil in H. destruct H as [H1 H].
    apply app_eq_nil in H. destruct H as [H2 H3].
    assert (N : NoDup categories).
    { apply first_occurrences_all. unfold push_if in H3.
      destruct (Nat.eqb_spec (List.length (first_occurrences categories))
                             (List.length categories)); [trivial|discriminate]. }
    assert (A : forall c, In c categories -> In c default_categories).
    { apply I. unfold push_if in H2. destruct invalid; [reflexivity|discriminate]. }
    split; [exact N|]. split; [|exact A].
    apply few_categories.
    + change 12 with (List.length default_categories).
      apply NoDup_incl_length; [exact N|exact A].
    + unfold push_if in H1.
      destruct (10 <? of_nat (List.length categories))%float; [|reflexivity].
      discriminate.
  - intros [N [L A]].
    apply I in A. rewrite A.
    apply first_occurrences_all in N. rewrite N, Nat.eqb_refl.
    assert (F : (10 <? of_nat (List.length categories))%float = false).
    { clear - L. do 11 (destruct categories as [|? categories];
                        [vm_compute; reflexivity|]).
      simpl in L. lia. }
    rewrite F. reflexivity.
Qed.

Lemma validate_categories_update (id : string) (categories : list string) :
  isValidUUID id = true ->
  validateFeedbackData (categories_update id categories) DEFAULT_VALIDATION_RULES
  = (List.length
       (push_if (number_truthy 10 && (10 <? of_nat (List.length categories))%float)
                (Cannot_have_more_than 10)
        ++ push_if (0 <? List.length
                           (filter (fun cat => negb (array_includes default_categories cat))
                                   categories))
                   (Invalid_categories
                      (filter (fun cat => negb (array_includes default_categories cat))
                              categories))
        ++ push_if (negb (List.length (set_of categories) =? List.length categories))
                   Duplicate_categories_are_not_allowed) =? 0,
     push_if (number_truthy 10 && (10 <? of_nat (List.length categories))%float)
             (Cannot_have_more_than 10)
     ++ push_if (0 <? List.length
                        (filter (fun cat => negb (array_includes default_categories cat))
                                categories))
                (Invalid_categories
                   (filter (fun cat => negb (array_includes default_categories cat))
                           categories))
     ++ push_if (negb (List.length (set_of categories) =? List.length categories))
                Duplicate_categories_are_not_allowed).
Proof.
  intros H. unfold validateFeedbackData, categories_update.
  cbn [upd_id upd_comment upd_sentiment upd_urgency upd_categories upd_rating
       upd_notes upd_isVisible].
  rewrite H.
  assert (T : truthy (Some id) = true).
  { destruct id; [discriminate H|reflexivity]. }
  rewrite T. cbn [negb orb push_if].
  rewrite !app_nil_l, !app_nil_r. reflexivity.
Qed.

Lemma kept_categories (text : string) :
  let c := categorizeFeedback text (analyzeSentiment text) in
  primaryCategory c :: secondaryCategories c
  = match extractCategories text with
    | [] => ["General Feedback"]
    | found => found
    end.
Proof.
  intros c.
  assert (E : categories (analyzeSentiment text) = extractCategories text).
  { unfold analyzeSentiment. now destruct (decide _). }
  destruct (extractCategories_names text) as [L [_ M]].
  subst c. unfold categorizeFeedback. cbn [primaryCategory secondaryCategories].
  rewrite E.
  assert (Sl : slice (extractCategories text) 1 (Some 3%Z)
               = firstn 2 (skipn 1 (extractCategories text)))
    by (apply (slice_range (extractCategories text) 1 3); lia).
  rewrite Sl.
  destruct (extractCategories text) as [|c0 cs]; [reflexivity|].
  assert (H0 : In c0 (keys CATEGORY_KEYWORDS)) by (apply M; now left).
  assert (N0 : String.eqb c0 "" = false).
  { apply String.eqb_neq. intros ->. vm_compute in H0. intuition discriminate. }
  rewrite N0. f_equal. simpl skipn. apply firstn_all2. simpl in L. lia.
Qed.

Lemma inserted_row_kept (responseData : object value) :
  response_categories (inserted_row responseData) = []
  \/ response_categories (inserted_row responseData) = ["General Feedback"]
  \/ (NoDup (response_categories (inserted_row responseData))
      /\ List.length (response_categories (inserted_row responseData)) <= 3
      /\ forall c, In c (response_categories (inserted_row responseData)) ->
                   In c (keys CATEGORY_KEYWORDS)).
Proof.
  unfold response_categories, inserted_row.
  cbn [resp_metadata md_categories].
  destruct (analysis_of responseData) as [[a cz]|] eqn:E; [|now left].
  unfold analysis_of in E.
  destruct (10 <? String.length (textResponses responseData)); [|discriminate].
  injection E as <- <-.
  set (text := textResponses responseData).
  destruct (truthy _); [|now left].
  rewrite (kept_categories text).
  destruct (extractCategories_names text) as [L [N M]].
  destruct (extractCategories text) as [|c0 cs]; [right; now left|].
  right. right. repeat split; trivial.
Qed.

End Validation.

(* ================================================================== *)
(** * The order of the responses *)
(* ================================================================== *)

Section Order.

Lemma filter_length_perm {A : Type} (p : A -> bool) (l l' : list A) :
  Permutation l l' -> List.length (filter p l) = List.length (filter p l').
Proof.
  induction 1 as [|x l l' _ IH|x y l|l l' l'' _ IH1 _ IH2]; simpl.
  - reflexivity.
  - destruct (p x); simpl; now rewrite IH.
  - destruct (p x), (p y); reflexivity.
  - now rewrite IH1.
Qed.

Lemma generateInsights_counts (rs : list Response) (insights : Insights) :
  generateInsights rs = Some insights ->
  urgentIssues insights = List.length (filter is_urgent rs)
  /\ actionableItems insights = List.length (filter needs_action rs).
Proof.
  intros H. destruct rs as [|r rs].
  - injection H as <-. split; reflexivity.
  - destruct (generateInsights_tally _ _ H) as [t [F [_ [U Ac]]]];
      [discriminate|].
    apply tally_counts in F. cbn [urgent actionable] in F.
    rewrite U, Ac. exact F.
Qed.

End Order.

(* ================================================================== *)
(** * Words and letters, said without the runtime *)
(* ================================================================== *)

Section Letters.

Lemma all_ascii (p : ascii -> bool) :
  forallb (fun n => p (ascii_of_nat n)) (seq 0 256) = true ->
  forall c, p c = true.
Proof.
  intros H c. rewrite forallb_forall in H.
  rewrite <- (ascii_nat_embedding c). apply H, in_seq.
  pose proof (nat_ascii_bounded c). lia.
Qed.

Lemma is_word_word_character (c : ascii) : is_word c = word_character c.
Proof.
  apply Bool.eqb_prop.
  apply (all_ascii (fun c => Bool.eqb (is_word c) (word_character c))).
  vm_compute. reflexivity.
Qed.

Lemma clean_word_character (c : ascii) :
  word_character c = true ->
  clean_char (lower_char c) = small c /\ is_space (small c) = false.
Proof.
  intros H.
  assert (A := all_ascii
                 (fun c => negb (word_character c)
                           || (Ascii.eqb (clean_char (lower_char c)) (small c)
                               && negb (is_space (small c))))
                 ltac:(vm_compute; reflexivity) c).
  cbv beta in A. rewrite H in A. simpl in A.
  apply andb_true_iff in A. destruct A as [A1 A2].
  apply Ascii.eqb_eq in A1. apply negb_true_iff in A2. now split.
Qed.

Lemma clean_separator (c : ascii) :
  word_character c = false -> is_space (clean_char (lower_char c)) = true.
Proof.
  intros H.
  assert (A := all_ascii
                 (fun c => word_character c
                           || is_space (clean_char (lower_char c)))
                 ltac:(vm_compute; reflexivity) c).
  cbv beta in A. now rewrite H in A.
Qed.

Lemma lower_char_small (c : ascii) :
  (code (lower_char c) <? 128)%N || (code (small c) <? 128)%N = true ->
  lower_char c = small c.
Proof.
  intros H.
  assert (A := all_ascii
                 (fun c => negb ((code (lower_char c) <? 128)%N
                                 || (code (small c) <? 128)%N)
                           || Ascii.eqb (lower_char c) (small c))
                 ltac:(vm_compute; reflexivity) c).
  cbv beta in A. rewrite H in A. now apply Ascii.eqb_eq in A.
Qed.

Lemma toLowerCase_small (word keyword : string) :
  ascii_only keyword = true ->
  (toLowerCase word = keyword <-> in_small_letters word = keyword).
Proof.
  revert keyword. induction word as [|c word IH]; intros [|k keyword] A; simpl;
    try (split; discriminate); [tauto|].
  simpl in A. apply andb_true_iff in A. destruct A as [Ak A].
  split; intros H; injection H as Hc Hw.
  - rewrite <- (lower_char_small c) by (rewrite Hc, Ak; reflexivity).
    rewrite Hc. f_equal. now apply IH.
  - rewrite (lower_char_small c) by (rewrite Hc, Ak; apply orb_true_r).
    rewrite Hc. f_equal. now apply IH.
Qed.

Lemma toLowerCase_split (a b : string) :
  forall s, toLowerCase s = String.append a b ->
  exists s1 s2, s = String.append s1 s2
                /\ toLowerCase s1 = a /\ toLowerCase s2 = b.
Proof.
  induction a as [|x a IH]; intros s H.
  - exists "", s. now repeat split.
  - destruct s as [|c s]; [discriminate|]. simpl in H. injection H as Hc H.
    destruct (IH s H) as [s1 [s2 [E [H1 H2]]]].
    exists (String c s1), s2. simpl. rewrite Hc, H1, H2, <- E. now repeat split.
Qed.

(** Containment in the lower-cased text is containment whatever the case. *)
Lemma contains_any_mentions (text : string) (vocabulary : list string) :
  forallb ascii_only vocabulary = true ->
  (contains_any (toLowerCase text) vocabulary <-> mentions text vocabulary).
Proof.
  intros A. rewrite forallb_forall in A. split.
  - intros [keyword [Hk [pre' [post' E]]]].
    apply toLowerCase_split in E. destruct E as [pre [rest [-> [_ E]]]].
    apply toLowerCase_split in E. destruct E as [word [post [-> [Hw _]]]].
    exists keyword, pre, word, post. repeat split; trivial.
    now apply toLowerCase_small; [apply A|].
  - intros [keyword [pre [word [post [Hk [-> Hw]]]]]].
    exists keyword. split; [exact Hk|].
    exists (toLowerCase pre), (toLowerCase post).
    rewrite !toLowerCase_append. do 2 f_equal.
    now apply toLowerCase_small; [apply A|].
Qed.

Lemma rev_string_app (s acc : string) :
  rev_string acc s = String.append (rev_string "" s) acc.
Proof.
  revert acc. induction s as [|c s IH]; intros acc; [reflexivity|].
  simpl. rewrite (IH (String c acc)), (IH (String c "")).
  clear IH. induction (rev_string "" s) as [|d r IHr]; [reflexivity|].
  simpl. now rewrite IHr.
Qed.

Lemma append_empty (s : string) : String.append s "" = s.
Proof. induction s as [|c s IH]; simpl; [reflexivity|now rewrite IH]. Qed.

(** The pieces the split leaves are the words, but for empty ones. *)
Lemma split_go_words (keep : string -> bool) (text : string) :
  keep "" = false ->
  forall (cur : string) (in_ws : bool),
    (in_ws = true -> cur = "") ->
    filter keep (split_go (replace_non_word (toLowerCase text)) cur in_ws)
    = filter keep (attach (rev_string "" cur) (words_of text)).
Proof.
  intros K. induction text as [|c text IH]; intros cur in_ws I.
  - cbn [toLowerCase replace_non_word split_go words_of attach].
    now rewrite append_empty.
  - cbn [toLowerCase replace_non_word split_go words_of].
    destruct (word_character c) eqn:W.
    + destruct (clean_word_character c W) as [-> S].
      rewrite S, (IH (String (small c) cur) false) by discriminate.
      destruct (words_of text) as [|word words]; cbn [attach rev_string];
        rewrite (rev_string_app cur (String (small c) ""));
        [reflexivity|].
      f_equal. f_equal.
      clear. induction (rev_string "" cur) as [|d r IHr]; [reflexivity|].
      simpl. now rewrite IHr.
    + rewrite (clean_separator c W).
      assert (E : filter keep (split_go (replace_non_word (toLowerCase text)) "" true)
                  = filter keep (words_of text)).
      { rewrite (IH "" true) by reflexivity.
        destruct (words_of text) as [|word words]; cbn [attach rev_string];
          [simpl; now rewrite K|reflexivity]. }
      cbn [attach]. rewrite append_empty.
      destruct in_ws.
      * rewrite (I eq_refl). cbn [rev_string filter]. now rewrite K.
      * cbn [filter]. now rewrite E.
Qed.

Lemma words_longer_than_words (n : nat) (text : string) :
  words_longer_than n text
  = filter (fun word => n <? String.length word) (words_of text).
Proof.
  unfold words_longer_than, split_ws.
  rewrite (split_go_words _ text eq_refl "" false) by discriminate.
  destruct (words_of text); reflexivity.
Qed.

End Letters.

(* ================================================================== *)
(** * The properties of the service *)
(* ================================================================== *)

(** C1.  The tokens are the words of the text longer than two characters: its
    longest runs of letters, digits and underscores, the capitals made small,
    which is what splitting the lower-cased text at white space leaves once
    every character that is neither a word character nor white space is made
    a space.  With [p], [n] and [u] the numbers of tokens found in the
    positive, negative and neutral lexicons, the result is neutral at 0.5
    when the three are zero, positive at
    [min(0.95, 0.5 + p / (p + n + u) * 0.5)] when [p > n], negative at
    [min(0.95, 0.5 + n / (p + n + u) * 0.5)] when [n > p], and neutral at
    0.6 otherwise. *)
Theorem analyzeSentiment_decision :
  forall text : string,
    let tokens :=
      filter (fun word => negb (String.length word <=? 2)) (words_of text) in
    let p := hits POSITIVE_KEYWORDS tokens in
    let n := hits NEGATIVE_KEYWORDS tokens in
    let u := hits NEUTRAL_KEYWORDS tokens in
    (sentiment (analyzeSentiment text), confidence (analyzeSentiment text)) =
    if (p =? 0) && (n =? 0) && (u =? 0) then (Neutral, 0.5%float)
    else if n <? p then
      (Positive, Math_min 0.95 (0.5 + of_nat p / of_nat (p + n + u) * 0.5)%float)
    else if p <? n then
      (Negative, Math_min 0.95 (0.5 + of_nat n / of_nat (p + n + u) * 0.5)%float)
    else (Neutral, 0.6%float).
Proof.
  intros text tokens p n u.
  assert (W : words_longer_than 2 text = tokens).
  { rewrite words_longer_than_words. unfold tokens. apply filter_ext. intros w.
    destruct (Nat.ltb_spec 2 (String.length w));
      destruct (Nat.leb_spec (String.length w) 2); simpl; trivial; lia. }
  unfold analyzeSentiment. rewrite W, score_words. simpl.
  fold p n u.
  destruct (decide _) as [s c] eqn:D. simpl. rewrite <- D.
  unfold decide. simpl.
  destruct p, n, u; reflexivity.
Qed.

(** C2.  The urgency is fixed by the first rule that applies: critical when
    the text holds a word of the urgent vocabulary, in capitals, in small
    letters or in both; else high when the sentiment is negative with a
    confidence above 0.8; else medium when the text holds, in the same way,
    a word of the high-priority vocabulary; else medium when the sentiment
    is negative; else low.  A text that contains "urgent" in any mix of
    capitals and small letters is critical whatever the analysis. *)
Theorem urgency_first_matching_rule :
  forall (text : string) (analysis : SentimentAnalysis),
    let u := urgency (categorizeFeedback text analysis) in
    let urgent :=
      mentions text
        ["urgent"; "critical"; "emergency"; "immediately"; "asap"; "broken";
         "not working"] in
    let strong :=
      sentiment analysis = Negative
      /\ (0.8 <? confidence analysis)%float = true in
    let important :=
      mentions text
        ["important"; "serious"; "major"; "significant"; "problem"; "issue"] in
    (urgent -> u = Critical)
    /\ (~ urgent -> strong -> u = High)
    /\ (~ urgent -> ~ strong -> important -> u = Medium)
    /\ (~ urgent -> ~ strong -> ~ important ->
        sentiment analysis = Negative -> u = Medium)
    /\ (~ urgent -> ~ strong -> ~ important ->
        sentiment analysis <> Negative -> u = Low)
    /\ (forall pre word post : string,
          text = String.append pre (String.append word post) ->
          in_small_letters word = "urgent" -> u = Critical).
Proof.
  intros text analysis u urgent strong important.
  assert (Hu : existsb (fun k => includes (toLowerCase text) k) urgentKeywords = true
               <-> urgent).
  { rewrite includes_any_spec. now apply contains_any_mentions. }
  assert (Hi : existsb (fun k => includes (toLowerCase text) k) highPriorityKeywords = true
               <-> important).
  { rewrite includes_any_spec. now apply contains_any_mentions. }
  assert (Hs : Sentiment_eqb (sentiment analysis) Negative
               && (0.8 <? confidence analysis)%float = true <-> strong).
  { unfold strong. rewrite andb_true_iff.
    destruct (sentiment analysis); simpl; intuition congruence. }
  assert (Hn : Sentiment_eqb (sentiment analysis) Negative = true
               <-> sentiment analysis = Negative).
  { destruct (sentiment analysis); simpl; intuition congruence. }
  assert (Hw : forall pre word post : string,
             text = String.append pre (String.append word post) ->
             in_small_letters word = "urgent" -> urgent).
  { intros pre word post E Hw. exists "urgent", pre, word, post.
    split; [now left|]. now split. }
  assert (Hc : urgent -> u = Critical).
  { intros H. apply Hu in H. subst u. rewrite urgency_categorizeFeedback.
    now rewrite H. }
  split; [exact Hc|].
  split.
  { intros H1 H2. subst u. rewrite urgency_categorizeFeedback.
    destruct (existsb _ urgentKeywords); [exfalso; tauto|].
    apply Hs in H2. now rewrite H2. }
  split.
  { intros H1 H2 H3. subst u. rewrite urgency_categorizeFeedback.
    destruct (existsb _ urgentKeywords); [exfalso; tauto|].
    destruct (_ && _); [exfalso; tauto|].
    apply Hi in H3. now rewrite H3. }
  split.
  { intros H1 H2 H3 H4. subst u. rewrite urgency_categorizeFeedback.
    destruct (existsb _ urgentKeywords); [exfalso; tauto|].
    destruct (_ && _); [exfalso; tauto|].
    destruct (existsb _ highPriorityKeywords); [exfalso; tauto|].
    apply Hn in H4. now rewrite H4. }
  split.
  { intros H1 H2 H3 H4. subst u. rewrite urgency_categorizeFeedback.
    destruct (existsb _ urgentKeywords); [exfalso; tauto|].
    destruct (_ && _); [exfalso; tauto|].
    destruct (existsb _ highPriorityKeywords); [exfalso; tauto|].
    destruct (Sentiment_eqb (sentiment analysis) Negative); [exfalso; tauto|].
    reflexivity. }
  intros pre word post H1 H2. apply Hc. eauto.
Qed.

(** C3.  The sentiment is one of positive, neutral and negative, and the
    confidence lies between 0.5 and 0.95, both included.  A string of the
    language has fewer than [2^53] characters. *)
Theorem analyzeSentiment_sentiment_and_confidence_range :
  forall text : string,
    (Z.of_nat (String.length text) < 2 ^ 53)%Z ->
    (sentiment (analyzeSentiment text) = Positive
     \/ sentiment (analyzeSentiment text) = Neutral
     \/ sentiment (analyzeSentiment text) = Negative)
    /\ (0.5 <=? confidence (analyzeSentiment text))%float = true
    /\ (confidence (analyzeSentiment text) <=? 0.95)%float = true.
Proof.
  intros text Hlen. split.
  - destruct (sentiment (analyzeSentiment text)); tauto.
  - unfold analyzeSentiment.
    rewrite score_words. simpl.
    set (words := words_longer_than 2 text).
    pose proof (words_longer_than_length 2 text) as Hw. fold words in Hw.
    pose proof (hits_length POSITIVE_KEYWORDS words) as Hp.
    pose proof (hits_length NEGATIVE_KEYWORDS words) as Hn.
    pose proof (hits_length NEUTRAL_KEYWORDS words) as Hu.
    match goal with
    | |- context [decide ?sc] =>
        pose proof (decide_range sc) as R; destruct (decide sc) as [s c]
    end.
    simpl in R |- *. apply R.
    change (2 ^ 53)%Z with 9007199254740992%Z in Hlen.
    change (2 ^ 63)%Z with 9223372036854775808%Z. lia.
Qed.

(** The text "good", of four characters. *)
Lemma analyzeSentiment_sentiment_and_confidence_range_witness :
  (sentiment (analyzeSentiment "good") = Positive
   \/ sentiment (analyzeSentiment "good") = Neutral
   \/ sentiment (analyzeSentiment "good") = Negative)
  /\ (0.5 <=? confidence (analyzeSentiment "good"))%float = true
  /\ (confidence (analyzeSentiment "good") <=? 0.95)%float = true.
Proof.
  apply analyzeSentiment_sentiment_and_confidence_range. reflexivity.
Defined.

(** C4.  The categories are the ten of the table, in the order User
    Experience, Performance, Customer Service, Product Quality, Pricing,
    Technical Issues, Delivery/Shipping, Communication, Accessibility,
    Security.  Each is given the number of whole-word occurrences, the case
    of the letters apart, of its keywords in the text; those with a number
    above 0 are ranked by number, the highest first and, at equal numbers,
    the one declared first before the other; the result is the first three
    of the ranking. *)
Theorem categories_top_three_by_whole_word_count :
  forall text : string,
    let declared :=
      ["User Experience"; "Performance"; "Customer Service"; "Product Quality";
       "Pricing"; "Technical Issues"; "Delivery/Shipping"; "Communication";
       "Accessibility"; "Security"] in
    let count (keywords : list string) :=
      list_sum (map (fun keyword => whole_word_occurrences keyword text) keywords) in
    let counted :=
      map (fun entry => (fst entry, count (snd entry))) CATEGORY_KEYWORDS in
    map fst CATEGORY_KEYWORDS = declared
    /\ exists ranked : list (string * nat),
        Permutation ranked (filter (fun c => 0 <? snd c) counted)
        /\ StronglySorted
             (fun a b =>
                snd b < snd a
                \/ (snd a = snd b
                    /\ position_in declared (fst a) < position_in declared (fst b)))
             ranked
        /\ categories (analyzeSentiment text) = firstn 3 (map fst ranked).
Proof.
  intros text declared count counted.
  split; [reflexivity|].
  set (found := filter (fun c : string * nat => 0 <? snd c) counted).
  exists (sort (by_score_desc snd) found).
  split; [apply sort_perm|]. split.
  - apply (sort_stable snd (fun c => position_in declared (fst c))).
    apply StronglySorted_filter.
    apply (StronglySorted_map
             (fun a b : string * nat =>
                position_in declared (fst a) < position_in declared (fst b))).
    simpl.
    repeat (constructor; [|repeat constructor; vm_compute; lia]).
    constructor.
  - unfold analyzeSentiment. destruct (decide _) as [s c]. cbn [categories].
    unfold extractCategories.
    assert (E : entries CATEGORY_KEYWORDS = CATEGORY_KEYWORDS)
      by (vm_compute; reflexivity).
    rewrite E, (slice_prefix _ 3).
    apply (f_equal (firstn 3)), (f_equal (map fst)).
    unfold by_score_desc.
    apply (f_equal (sort (fun a b : string * nat =>
                            (Z.of_nat (snd b) - Z.of_nat (snd a))%Z))).
    rewrite (fold_left_push
               (fun c : string * nat => 0 <? snd c)
               (fun entry =>
                  (fst entry,
                   fold_left (fun acc keyword =>
                                acc + match_count keyword (toLowerCase text))
                             (snd entry) 0))).
    rewrite app_nil_l. unfold found, counted.
    apply (f_equal (filter (fun c : string * nat => 0 <? snd c))).
    apply map_ext_in. intros entry He.
    apply (f_equal (pair (fst entry))). now apply category_score.
Qed.

(** C5.  The trend sets the last ten responses against all the earlier ones:
    when neither window is empty it is improving if the positive share of the
    last ten is above that of the earlier ones plus 0.1, declining if it is
    below that share minus 0.1, and stable otherwise; it is stable when a
    window is empty, which is the case of every collection of ten responses
    or fewer.  Twenty responses with two positive among the first ten and
    eight among the last ten are improving.  So it is on every collection
    but those where a response lists a category named like a member of
    [Object.prototype]: there the call ends in a [TypeError] and there is no
    trend, as for the single neutral response that lists "constructor", which
    should be stable. *)
Theorem sentimentTrend_recent_against_older :
  (forall rs : list Response,
      plain_categories rs ->
      exists insights,
        generateInsights rs = Some insights
        /\ (let older := firstn (List.length rs - 10) rs in
            let recent := skipn (List.length rs - 10) rs in
            let share (window : list Response) :=
              (of_nat (with_sentiment "positive" window)
               / of_nat (List.length window))%float in
            sentimentTrend insights =
            if (0 <? List.length recent) && (0 <? List.length older) then
              if (share older + 0.1 <? share recent)%float then Improving
              else if (share recent <? share older - 0.1)%float then Declining
              else Stable
            else Stable)
        /\ (List.length rs <= 10 -> sentimentTrend insights = Stable))
  /\ (forall rs : list Response,
         plain_categories rs ->
         List.length rs = 20 ->
         with_sentiment "positive" (firstn 10 rs) = 2 ->
         with_sentiment "positive" (skipn 10 rs) = 8 ->
         exists insights,
           generateInsights rs = Some insights
           /\ sentimentTrend insights = Improving)
  /\ (forall (rs : list Response) (r : Response) (c : string),
         In r rs -> In c (response_categories r) ->
         In c Object_prototype_members ->
         generateInsights rs = None)
  /\ generateInsights
       [{| resp_sentiment := Some "neutral";
           resp_metadata :=
             Some {| md_urgency := Some "low"; md_actionRequired := false;
                     md_categories := Some ["constructor"] |} |}]
     = None.
Proof.
  split; [|split; [|split]].
  - intros rs H.
    destruct (generateInsights_plain rs H) as [insights [E [_ Ht]]].
    exists insights. split; [exact E|]. split; [exact Ht|].
    intros Hl. rewrite Ht. unfold trend_of.
    replace (List.length rs - 10) with 0 by lia. simpl firstn.
    now rewrite andb_false_r.
  - intros rs H Hl Ho Hr.
    destruct (generateInsights_plain rs H) as [insights [E [_ Ht]]].
    exists insights. split; [exact E|]. rewrite Ht. unfold trend_of, positive_fraction.
    rewrite Hl. change (20 - 10) with 10. rewrite Ho, Hr.
    rewrite length_skipn, length_firstn, Hl. reflexivity.
  - intros rs r c Hr Hc Hi. apply array_includes_In in Hi.
    unfold generateInsights.
    destruct rs as [|r0 rs]; [destruct Hr|].
    change (List.length (r0 :: rs) =? 0) with false. cbv iota.
    now rewrite (tally_inherited _ r c Hr Hc Hi).
  - reflexivity.
Qed.

(** Two positive responses among the first ten, eight among the last ten. *)
Lemma sentimentTrend_recent_against_older_witness :
  exists insights,
    generateInsights
      (repeat (response_of "negative") 8 ++ repeat (response_of "positive") 2
       ++ repeat (response_of "neutral") 2 ++ repeat (response_of "positive") 8)
    = Some insights
    /\ sentimentTrend insights = Improving.
Proof.
  apply (proj1 (proj2 sentimentTrend_recent_against_older)
           (repeat (response_of "negative") 8 ++ repeat (response_of "positive") 2
            ++ repeat (response_of "neutral") 2 ++ repeat (response_of "positive") 8));
    try reflexivity.
  intros r c Hr Hc.
  assert (R : response_categories r = []).
  { repeat (destruct Hr as [<-|Hr]; [reflexivity|]). destruct Hr. }
  rewrite R in Hc. destruct Hc.
Defined.

(** Seven positive responses among ten, then eight among ten: the sum
    [0.7 + 0.1] is rounded below [0.8] in binary64, and the trend is
    improving. *)
Example sentimentTrend_seven_then_eight :
  option_map sentimentTrend
    (generateInsights
       (repeat (response_of "negative") 3 ++ repeat (response_of "positive") 7
        ++ repeat (response_of "negative") 2 ++ repeat (response_of "positive") 8))
  = Some Improving.
Proof. vm_compute. reflexivity. Qed.

(** C6.  Whatever the text and the analysis, the suggested actions are at
    most five, no action occurs twice, and they are the first five of the
    assembled actions once every repetition after a first occurrence is
    dropped. *)
Theorem suggestedActions_at_most_five_distinct :
  forall (text : string) (analysis : SentimentAnalysis),
    let result := categorizeFeedback text analysis in
    List.length (suggestedActions result) <= 5
    /\ NoDup (suggestedActions result)
    /\ suggestedActions result
       = firstn 5 (first_occurrences
                     (actions_pushed analysis (primaryCategory result)
                                     (urgency result))).
Proof.
  intros text analysis result.
  assert (E : suggestedActions result
              = firstn 5 (first_occurrences
                            (actions_pushed analysis (primaryCategory result)
                                            (urgency result)))).
  { subst result. unfold categorizeFeedback, generateSuggestedActions. simpl.
    rewrite (slice_prefix _ 5). now rewrite set_of_first_occurrences. }
  rewrite E. repeat split.
  - apply firstn_le_length.
  - apply NoDup_firstn, first_occurrences_NoDup.
Qed.

(** C7.  On a collection that is not empty, each field of [overallSentiment]
    is [round(c / n * 100)], with [c] the number of responses of that
    sentiment and [n] the number of all responses; the three fields are
    rounded one by one, and they do not always add up to 100: one response
    of each sentiment gives three times 33.  So it is on every collection
    that is not empty but those where a response lists a category named like
    a member of [Object.prototype]: there the call ends in a [TypeError] and
    there are no percentages, as for a positive response that lists
    "toString" followed by a negative one, which should give 50, 0 and
    50. *)
Theorem overallSentiment_rounded_shares :
  (forall rs : list Response,
      rs <> [] ->
      plain_categories rs ->
      exists insights,
        generateInsights rs = Some insights
        /\ let n := List.length rs in
           let share (s : string) :=
             Math_round (of_nat (with_sentiment s rs) / of_nat n * 100)%float in
           pc_positive (overallSentiment insights) = share "positive"
           /\ pc_neutral (overallSentiment insights) = share "neutral"
           /\ pc_negative (overallSentiment insights) = share "negative")
  /\ (exists insights,
         generateInsights
           [response_of "positive"; response_of "neutral"; response_of "negative"]
         = Some insights
         /\ (pc_positive (overallSentiment insights)
             + pc_neutral (overallSentiment insights)
             + pc_negative (overallSentiment insights) =? 99)%float = true)
  /\ (forall (rs : list Response) (r : Response) (c : string),
         In r rs -> In c (response_categories r) ->
         In c Object_prototype_members ->
         generateInsights rs = None)
  /\ generateInsights
       [{| resp_sentiment := Some "positive";
           resp_metadata :=
             Some {| md_urgency := Some "low"; md_actionRequired := false;
                     md_categories := Some ["toString"] |} |};
        response_of "negative"]
     = None.
Proof.
  split; [|split; [|split]].
  - intros rs Hrs H.
    destruct (generateInsights_plain rs H) as [insights [E [Ho _]]].
    exists insights. split; [exact E|]. rewrite (Ho Hrs). now repeat split.
  - eexists. split; [vm_compute; reflexivity | vm_compute; reflexivity].
  - intros rs r c Hr Hc Hi. apply array_includes_In in Hi.
    unfold generateInsights.
    destruct rs as [|r0 rs]; [destruct Hr|].
    change (List.length (r0 :: rs) =? 0) with false. cbv iota.
    now rewrite (tally_inherited _ r c Hr Hc Hi).
  - reflexivity.
Qed.

(** One response of each sentiment: three times 33. *)
Lemma overallSentiment_rounded_shares_witness :
  exists insights,
    generateInsights
      [response_of "positive"; response_of "neutral"; response_of "negative"]
    = Some insights
    /\ pc_positive (overallSentiment insights) = 33%float
    /\ pc_neutral (overallSentiment insights) = 33%float
    /\ pc_negative (overallSentiment insights) = 33%float.
Proof.
  apply (proj1 overallSentiment_rounded_shares
           [response_of "positive"; response_of "neutral"; response_of "negative"]).
  - discriminate.
  - intros r c [<-|[<-|[<-|[]]]] [].
Defined.

(** Twenty-nine positive responses among two hundred: [29 / 200 * 100] is
    rounded below [14.5] in binary64, and the percentage is 14. *)
Example overallSentiment_29_of_200 :
  option_map (fun insights => pc_positive (overallSentiment insights))
    (generateInsights
       (repeat (response_of "positive") 29 ++ repeat (response_of "neutral") 171))
  = Some 14%float.
Proof. vm_compute. reflexivity. Qed.

(** A category named like a member of [Object.prototype] ends the call in a
    [TypeError]. *)
Example generateInsights_inherited_category :
  generateInsights
    [{| resp_sentiment := Some "neutral";
        resp_metadata :=
          Some {| md_urgency := None; md_actionRequired := false;
                  md_categories := Some ["constructor"] |} |}]
  = None.
Proof. reflexivity. Qed.

(** C8.  On the empty string [analyzeSentiment] returns a result, which is:
    sentiment neutral, confidence 0.5, no category, no keyword, and each of
    the six emotion scores equal to 0. *)
Theorem analyzeSentiment_empty :
  analyzeSentiment "" =
  {| sentiment := Neutral;
     confidence := 0.5%float;
     categories := [];
     keywords := [];
     emotions := {| joy := 0%float; anger := 0%float; fear := 0%float;
                    sadness := 0%float; surprise := 0%float;
                    disgust := 0%float |} |}.
Proof. vm_compute. reflexivity. Qed.

(** C9.  The keywords are at most five and pairwise distinct; each is a piece
    of the lower-cased, cleaned text, hence in lower case, longer than three
    characters and not a stop word.  "good" is a stop word, so it is never a keyword, not even of
    the text "good", which it alone makes positive. *)
Theorem keywords_few_distinct_long_not_stop_words :
  forall text : string,
    let ks := keywords (analyzeSentiment text) in
    List.length ks <= 5
    /\ NoDup ks
    /\ (forall k : string,
          In k ks ->
          In k (split_ws (replace_non_word (toLowerCase text)))
          /\ toLowerCase k = k
          /\ 3 < String.length k
          /\ ~ In k stopWords)
    /\ In "good" stopWords
    /\ ~ In "good" ks
    /\ sentiment (analyzeSentiment "good") = Positive
    /\ keywords (analyzeSentiment "good") = [].
Proof.
  intros text ks.
  set (words := filter (fun word => negb (array_includes stopWords word))
                       (words_longer_than 3 text)).
  set (sorted := sort (fun x y => count_diff (snd y) (snd x))
                      (entries (fold_left count_word words []))).
  assert (E : ks = map fst (firstn 5 sorted)).
  { subst ks. unfold analyzeSentiment.
    destruct (decide _) as [s c]. simpl. unfold extractKeywords.
    now rewrite (slice_prefix _ 5). }
  assert (P : Permutation (map fst sorted) (keys (fold_left count_word words []))).
  { unfold keys. apply Permutation_map. subst sorted.
    rewrite sort_perm. apply entries_perm. }
  assert (M : forall k : string,
             In k ks ->
             In k (split_ws (replace_non_word (toLowerCase text)))
             /\ toLowerCase k = k
             /\ 3 < String.length k /\ ~ In k stopWords).
  { intros k Hk. rewrite E, <- firstn_map in Hk. apply In_firstn in Hk.
    apply (Permutation_in _ P) in Hk.
    apply count_words_keys in Hk. destruct Hk as [[]|Hk].
    subst words. apply filter_In in Hk. destruct Hk as [Hk Hs].
    unfold words_longer_than in Hk. apply filter_In in Hk.
    destruct Hk as [Hk Hl]. apply Nat.ltb_lt in Hl.
    repeat split; trivial; [now apply (split_lower_cased text)|].
    intros Hin. apply array_includes_In in Hin. now rewrite Hin in Hs. }
  assert (G : In "good" stopWords) by (cbv; tauto).
  repeat split.
  - rewrite E, length_map. apply firstn_le_length.
  - rewrite E, <- firstn_map. apply NoDup_firstn.
    apply (Permutation_NoDup (Permutation_sym P)).
    apply count_words_NoDup. constructor.
  - now apply M.
  - now apply M.
  - now apply M.
  - now apply M.
  - exact G.
  - intros H. apply M in H. tauto.
Qed.

(** C10.  When the analysis is neutral and its categories are empty or begin
    with a category that has no actions of its own, no action is suggested,
    whatever the text and hence whatever the urgency. *)
Theorem neutral_without_mapped_category_no_action :
  forall (text : string) (analysis : SentimentAnalysis),
    sentiment analysis = Neutral ->
    (categories analysis = []
     \/ exists c rest,
          categories analysis = c :: rest
          /\ ~ In c ["Technical Issues"; "Customer Service"; "Product Quality";
                     "User Experience"; "Performance"]) ->
    suggestedActions (categorizeFeedback text analysis) = [].
Proof.
  intros text analysis Hs Hc.
  unfold categorizeFeedback, generateSuggestedActions, actions_pushed. simpl.
  rewrite Hs. simpl.
  destruct Hc as [-> | [c [rest [-> Hc]]]]; [reflexivity|].
  destruct (String.eqb_spec c ""); [reflexivity|].
  simpl in Hc.
  repeat match goal with
         | |- context [String.eqb c ?k] =>
             destruct (String.eqb_spec c k); [exfalso; subst; tauto|]
         end.
  reflexivity.
Qed.

(** A neutral text about pricing that is critical and has no action. *)
Lemma neutral_without_mapped_category_no_action_witness :
  urgency (categorizeFeedback "The pricing page is broken" neutral_pricing) = Critical
  /\ suggestedActions (categorizeFeedback "The pricing page is broken" neutral_pricing) = [].
Proof.
  split; [reflexivity|].
  apply neutral_without_mapped_category_no_action; [reflexivity|].
  right. exists "Pricing", []. split; [reflexivity|].
  simpl. intros [H|[H|[H|[H|[H|[]]]]]]; discriminate H.
Defined.

(* ================================================================== *)
(** * Further properties of the analysis *)
(* ================================================================== *)

(** X1.  Each of the six emotion scores of an analysis lies between 0 and 1,
    whatever the text. *)
Theorem emotions_between_zero_and_one :
  forall text : string,
    let e := emotions (analyzeSentiment text) in
    Forall (fun score => (0 <=? score)%float = true /\ (score <=? 1)%float = true)
           [joy e; anger e; fear e; sadness e; surprise e; disgust e].
Proof.
  intros text e.
  assert (E : e = analyzeEmotions text).
  { subst e. unfold analyzeSentiment. now destruct (decide _). }
  rewrite E. unfold analyzeEmotions.
  assert (En : entries EMOTION_KEYWORDS = EMOTION_KEYWORDS)
    by (vm_compute; reflexivity).
  rewrite En.
  rewrite (set_emotions
             (fun keywords =>
                Math_min 1
                  (PrimFloat.mul
                     (of_nat (fold_left
                                (fun acc keyword =>
                                   acc + (if includes (toLowerCase text) keyword
                                          then 1 else 0))
                                keywords 0))
                     0.3%float))).
  cbn [joy anger fear sadness surprise disgust].
  repeat constructor;
    apply emotion_value_range;
    match goal with
    | |- fold_left _ ?kws 0 <= _ =>
        pose proof (includes_count_le (toLowerCase text) kws 0) as L;
        simpl List.length in L; lia
    end.
Qed.

(** X2.  The categories [categorizeFeedback] keeps of the analysis of a text:
    without a category the primary one is General Feedback and there is no
    secondary one; otherwise the primary one followed by the secondary ones
    is the list of the analysis.  In both cases there are at most two
    secondary categories, the names are pairwise distinct, and each is
    General Feedback or a name of the table of categories. *)
Theorem primary_and_secondary_categories :
  forall text : string,
    let analysis := analyzeSentiment text in
    let c := categorizeFeedback text analysis in
    let kept := primaryCategory c :: secondaryCategories c in
    (categories analysis = [] -> kept = ["General Feedback"])
    /\ (categories analysis <> [] -> kept = categories analysis)
    /\ List.length (secondaryCategories c) <= 2
    /\ NoDup kept
    /\ (forall name : string,
          In name kept ->
          name = "General Feedback" \/ In name (keys CATEGORY_KEYWORDS)).
Proof.
  intros text analysis c kept.
  assert (E : categories analysis = extractCategories text).
  { subst analysis. unfold analyzeSentiment. now destruct (decide _). }
  destruct (extractCategories_names text) as [L [N M]].
  rewrite <- E in L, N, M.
  assert (S2 : secondaryCategories c = firstn 2 (skipn 1 (categories analysis))).
  { subst c. unfold categorizeFeedback. cbn [secondaryCategories].
    apply (slice_range (categories analysis) 1 3). lia. }
  assert (K : kept = match categories analysis with
                     | [] => ["General Feedback"]
                     | _ => categories analysis
                     end).
  { subst kept. rewrite S2. subst c. unfold categorizeFeedback.
    cbn [primaryCategory].
    destruct (categories analysis) as [|c0 cs] eqn:Ec; [reflexivity|].
    assert (H0 : In c0 (keys CATEGORY_KEYWORDS)) by (apply M; now left).
    assert (N0 : String.eqb c0 "" = false).
    { apply String.eqb_neq. intros ->. vm_compute in H0. intuition discriminate. }
    rewrite N0. f_equal. simpl skipn.
    apply firstn_all2. simpl in L. lia. }
  split; [|split; [|split; [|split]]].
  - intros H. now rewrite K, H.
  - intros H. rewrite K. now destruct (categories analysis).
  - rewrite S2. rewrite length_firstn. lia.
  - rewrite K. destruct (categories analysis); [|trivial].
    repeat constructor. simpl. tauto.
  - intros name. rewrite K. destruct (categories analysis) eqn:Ec.
    + simpl. intros [<-|[]]. now left.
    + intros H. right. now apply M.
Qed.

(** X3.  Urgency and [actionRequired] agree: a critical or high urgency
    requires an action; a required action means an urgency above low; a high
    urgency is given to negative analyses only; and under a low urgency the
    analysis is not negative and no action is required. *)
Theorem urgency_and_action_agree :
  forall (text : string) (analysis : SentimentAnalysis),
    let c := categorizeFeedback text analysis in
    (urgency c = Critical \/ urgency c = High -> actionRequired c = true)
    /\ (actionRequired c = true -> urgency c <> Low)
    /\ (urgency c = High -> sentiment analysis = Negative)
    /\ (urgency c = Low ->
        sentiment analysis <> Negative /\ actionRequired c = false).
Proof.
  intros text analysis c.
  assert (A : actionRequired c
              = Urgency_eqb (urgency c) Critical || Urgency_eqb (urgency c) High
                || (Sentiment_eqb (sentiment analysis) Negative
                    && (0.7 <? confidence analysis)%float))
    by reflexivity.
  assert (U := urgency_categorizeFeedback text analysis).
  fold c in U. rewrite A. clear A.
  set (urgentWord :=
         existsb (fun keyword => includes (toLowerCase text) keyword)
                 urgentKeywords) in U.
  set (highWord :=
         existsb (fun keyword => includes (toLowerCase text) keyword)
                 highPriorityKeywords) in U.
  rewrite U.
  destruct urgentWord, (sentiment analysis), (0.8 <? confidence analysis)%float,
    highWord, (0.7 <? confidence analysis)%float;
    cbn [Sentiment_eqb Urgency_eqb orb andb];
    repeat split; try discriminate; try (intros [?|?]; discriminate);
    intros; reflexivity.
Qed.

(** X4.  The suggested actions are the actions pushed, in their order, cut
    after the fifth: no two of them are the same, so the set removes none.
    An action is lost only when the analysis is negative, the urgency
    critical and the primary category one of the five that have actions of
    their own; it is then the second action of the category. *)
Theorem suggestedActions_lose_only_the_sixth :
  forall (text : string) (analysis : SentimentAnalysis),
    let c := categorizeFeedback text analysis in
    let pushed := actions_pushed analysis (primaryCategory c) (urgency c) in
    suggestedActions c = firstn 5 pushed
    /\ (suggestedActions c = pushed
        \/ (sentiment analysis = Negative /\ urgency c = Critical
            /\ exists lost : string,
                 pushed = suggestedActions c ++ [lost]
                 /\ In lost ["Create bug report if applicable";
                             "Provide additional training if needed";
                             "Consider for product roadmap";
                             "Consider for next design iteration";
                             "Monitor system performance metrics"])).
Proof.
  intros text analysis c pushed.
  assert (E : suggestedActions c
              = generateSuggestedActions analysis (primaryCategory c) (urgency c))
    by reflexivity.
  rewrite E. subst pushed. clear E.
  generalize (urgency c) as u. generalize (primaryCategory c) as category.
  intros category u. clear c.
  unfold generateSuggestedActions, actions_pushed.
  destruct (sentiment analysis), u;
    repeat match goal with
           | |- context [String.eqb category ?name] =>
               destruct (String.eqb category name); cbv iota
           end;
    (split; [vm_compute; reflexivity|]);
    try (left; vm_compute; reflexivity);
    (right; split; [reflexivity|]; split; [reflexivity|]);
    eexists; (split; [vm_compute; reflexivity|]);
    cbn [In]; repeat (first [left; reflexivity | right]).
Qed.

(** X5.  In a text that has neither the word constructor nor the word
    __proto__, the keywords are the most frequent of the words kept (the
    pieces longer than three characters that are not stop words): they come
    from the most frequent to the least, and a kept word that is not a
    keyword leaves five keywords, each at least as frequent as it. *)
Theorem keywords_most_frequent_words :
  forall text : string,
    let pieces := split_ws (replace_non_word (toLowerCase text)) in
    let kept :=
      filter (fun word => negb (array_includes stopWords word))
             (filter (fun word => 3 <? String.length word) pieces) in
    let frequency (word : string) := count_occ string_dec kept word in
    let ks := keywords (analyzeSentiment text) in
    ~ In "constructor" pieces ->
    ~ In "__proto__" pieces ->
    StronglySorted (fun a b => frequency b <= frequency a) ks
    /\ (forall k : string, In k ks -> 0 < frequency k)
    /\ (forall w : string,
          In w kept -> ~ In w ks ->
          List.length ks = 5
          /\ forall k : string, In k ks -> frequency w <= frequency k).
Proof.
  intros text pieces kept frequency ks Hc Hp.
  set (wordCount := fold_left count_word kept []).
  set (cmp := fun x y : string * count_value => count_diff (snd y) (snd x)).
  set (sorted := sort cmp (entries wordCount)).
  assert (E : ks = map fst (firstn 5 sorted)).
  { subst ks. unfold analyzeSentiment.
    destruct (decide _) as [s c]. cbn [keywords]. unfold extractKeywords.
    now rewrite (slice_prefix _ 5). }
  assert (I : forall w, In w kept -> inherited w = false).
  { intros w Hw. destruct (inherited w) eqn:Hi; [|reflexivity]. exfalso.
    subst kept. apply filter_In in Hw. destruct Hw as [Hw _].
    apply filter_In in Hw. destruct Hw as [Hw _].
    destruct (inherited_lower_cased w Hi (split_lower_cased text w Hw))
      as [->| ->]; contradiction. }
  assert (C : counted wordCount kept).
  { apply (count_words_counted kept I [] []). intros w. reflexivity. }
  assert (N : NoDup (keys wordCount)).
  { apply count_words_NoDup. constructor. }
  assert (V : forall entry, In entry sorted ->
                snd entry = Count (frequency (fst entry))
                /\ 0 < frequency (fst entry)).
  { intros entry H. apply (counted_entries wordCount kept C N).
    apply (Permutation_in _ (entries_perm wordCount)).
    now apply (Permutation_in _ (sort_perm cmp _)). }
  assert (Srt : StronglySorted
                (fun a b => entry_count b <= entry_count a) sorted).
  { subst sorted.
    rewrite (sort_ext_in cmp (by_score_desc entry_count)); [apply sort_desc|].
    intros a b Ha Hb.
    assert (Va : In a (sort cmp (entries wordCount)))
      by now apply (Permutation_in _ (Permutation_sym (sort_perm cmp _))).
    assert (Vb : In b (sort cmp (entries wordCount)))
      by now apply (Permutation_in _ (Permutation_sym (sort_perm cmp _))).
    apply V in Va, Vb. destruct Va as [Va _], Vb as [Vb _].
    unfold cmp, by_score_desc, entry_count. now rewrite Va, Vb. }
  assert (F : forall entry, In entry sorted ->
                entry_count entry = frequency (fst entry)).
  { intros entry H. unfold entry_count. now rewrite (proj1 (V entry H)). }
  split; [|split].
  - rewrite E. apply StronglySorted_map.
    rewrite <- (firstn_skipn 5 sorted) in Srt.
    assert (Fi : forall entry, In entry (firstn 5 sorted) ->
                   entry_count entry = frequency (fst entry))
      by (intros entry H; apply F; now apply (In_firstn 5)).
    clear - Srt Fi. induction (firstn 5 sorted) as [|a l IH]; [constructor|].
    simpl in Srt. inversion Srt as [|? ? Sl Sa]; subst.
    constructor; [apply IH; trivial; intros; apply Fi; now right|].
    rewrite Forall_app in Sa. destruct Sa as [Sa _].
    rewrite Forall_forall in Sa |- *. intros b Hb.
    rewrite <- (Fi a), <- (Fi b); [now apply Sa|now right|now left].
  - intros k Hk. rewrite E in Hk. apply in_map_iff in Hk.
    destruct Hk as [entry [<- Hk]]. apply In_firstn in Hk. now apply V.
  - intros w Hw Hout.
    assert (K : In w (map fst sorted)).
    { apply (Permutation_in (l := keys wordCount)).
      - unfold keys. apply Permutation_map. apply Permutation_sym.
        subst sorted. rewrite sort_perm. apply entries_perm.
      - specialize (C w).
        assert (P : 0 < count_occ string_dec kept w)
          by now apply count_occ_In.
        destruct (count_occ string_dec kept w) as [|n] eqn:En; [lia|].
        apply get_own_Some in C. unfold keys. apply in_map_iff.
        now exists (w, Count (S n)). }
    rewrite <- (firstn_skipn 5 sorted), map_app, in_app_iff in K.
    rewrite E in Hout.
    destruct K as [K|K]; [contradiction|].
    apply in_map_iff in K. destruct K as [y [Ey Hy]]. split.
    + rewrite E, length_map, length_firstn. apply Nat.min_l.
      destruct (Nat.le_gt_cases 5 (List.length sorted)) as [G|G]; [trivial|].
      rewrite skipn_all2 in Hy by lia. destruct Hy.
    + intros k Hk. rewrite E in Hk. apply in_map_iff in Hk.
      destruct Hk as [x [<- Hx]].
      assert (R := sorted_beyond _ 5 sorted Srt x y Hx Hy). simpl in R.
      rewrite (F x), (F y) in R; [|now apply (In_skipn 5)|now apply (In_firstn 5)].
      now rewrite Ey in R.
Qed.

(** A text with shipping twice and delayed once. *)
Lemma keywords_most_frequent_words_witness :
  keywords (analyzeSentiment "Delayed shipping, very slow shipping!")
  = ["shipping"; "delayed"; "slow"]
  /\ StronglySorted
       (fun a b =>
          count_occ string_dec ["delayed"; "shipping"; "slow"; "shipping"] b
          <= count_occ string_dec ["delayed"; "shipping"; "slow"; "shipping"] a)
       (keywords (analyzeSentiment "Delayed shipping, very slow shipping!")).
Proof.
  split; [vm_compute; reflexivity|].
  apply (keywords_most_frequent_words "Delayed shipping, very slow shipping!");
    vm_compute; intuition discriminate.
Defined.

(** X6.  The analysis and the categorization read the text in lower case
    only: two texts that are the same once in lower case have the same
    analysis and, with the same analysis, the same categorization. *)
Theorem analysis_ignores_letter_case :
  forall t1 t2 : string,
    toLowerCase t1 = toLowerCase t2 ->
    analyzeSentiment t1 = analyzeSentiment t2
    /\ forall analysis : SentimentAnalysis,
         categorizeFeedback t1 analysis = categorizeFeedback t2 analysis.
Proof.
  intros t1 t2 H. split.
  - unfold analyzeSentiment, extractCategories, extractKeywords, analyzeEmotions,
      words_longer_than.
    now rewrite H.
  - intros analysis. unfold categorizeFeedback. now rewrite H.
Qed.

(** The same complaint in capitals and in small letters. *)
Lemma analysis_ignores_letter_case_witness :
  analyzeSentiment "TERRIBLE Support, Broken APP"
  = analyzeSentiment "terrible support, broken app".
Proof.
  apply (analysis_ignores_letter_case
           "TERRIBLE Support, Broken APP" "terrible support, broken app").
  reflexivity.
Defined.

(* ================================================================== *)
(** * Further properties of the insights *)
(* ================================================================== *)

(** X7.  [generateInsights] ends in a [TypeError] exactly when some response
    lists a category named like a member of [Object.prototype]; on every
    other collection it returns. *)
Theorem generateInsights_throws_on_inherited_names_only :
  forall rs : list Response,
    generateInsights rs = None
    <-> exists (r : Response) (c : string),
          In r rs /\ In c (response_categories r)
          /\ In c Object_prototype_members.
Proof.
  intros rs. split.
  - intros H.
    destruct (existsb (fun r => existsb inherited (response_categories r)) rs)
      eqn:E.
    + apply existsb_exists in E. destruct E as [r [Hr E]].
      apply existsb_exists in E. destruct E as [c [Hc E]].
      exists r, c. repeat split; trivial. now apply array_includes_In.
    + exfalso.
      destruct (generateInsights_plain rs) as [insights [S _]];
        [|now rewrite S in H].
      intros r c Hr Hc.
      destruct (inherited c) eqn:Hi; [|reflexivity].
      assert (T : existsb (fun r => existsb inherited (response_categories r)) rs
                  = true).
      { apply existsb_exists. exists r. split; [trivial|].
        apply existsb_exists. now exists c. }
      now rewrite T in E.
  - intros [r [c [Hr [Hc Hi]]]]. apply array_includes_In in Hi.
    unfold generateInsights.
    destruct rs as [|r0 rs]; [destruct Hr|].
    change (List.length (r0 :: rs) =? 0) with false. cbv iota.
    now rewrite (tally_inherited _ r c Hr Hc Hi).
Qed.

(** X8.  When [generateInsights] returns, [urgentIssues] is the number of
    responses whose urgency is critical or high and [actionableItems] the
    number of responses that require an action; neither exceeds the number
    of responses. *)
Theorem urgentIssues_and_actionableItems_count :
  forall (rs : list Response) (insights : Insights),
    generateInsights rs = Some insights ->
    urgentIssues insights = List.length (filter is_urgent rs)
    /\ actionableItems insights = List.length (filter needs_action rs)
    /\ urgentIssues insights <= List.length rs
    /\ actionableItems insights <= List.length rs.
Proof.
  intros rs insights H.
  assert (C : urgentIssues insights = List.length (filter is_urgent rs)
              /\ actionableItems insights = List.length (filter needs_action rs)).
  { destruct rs as [|r rs].
    - injection H as <-. split; reflexivity.
    - destruct (generateInsights_tally _ _ H) as [t [F [_ [U Ac]]]];
        [discriminate|].
      apply tally_counts in F. cbn [urgent actionable] in F.
      rewrite U, Ac. exact F. }
  destruct C as [U Ac]. rewrite U, Ac.
  repeat split; apply List.filter_length_le.
Qed.

(** A critical response that requires an action, a low one that requires
    none, and a response without metadata. *)
Lemma urgentIssues_and_actionableItems_count_witness :
  let rs :=
    [ {| resp_sentiment := Some "negative";
         resp_metadata := Some {| md_urgency := Some "critical";
                                  md_actionRequired := true;
                                  md_categories := Some ["Pricing"] |} |};
      {| resp_sentiment := Some "positive";
         resp_metadata := Some {| md_urgency := Some "low";
                                  md_actionRequired := false;
                                  md_categories := None |} |};
      response_of "neutral" ] in
  exists insights,
    generateInsights rs = Some insights
    /\ urgentIssues insights = 1 /\ actionableItems insights = 1.
Proof.
  intros rs.
  destruct (generateInsights rs) as [insights|] eqn:E;
    [|vm_compute in E; discriminate].
  exists insights. split; [reflexivity|].
  destruct (urgentIssues_and_actionableItems_count rs insights E)
    as [U [Ac _]].
  rewrite U, Ac. split; reflexivity.
Defined.

(** X9.  When [generateInsights] returns, [topCategories] holds at most five
    categories, pairwise distinct, from the most listed to the least; the
    count of each is the number of times the responses list it, which is not
    0; and a listed category that is left out is listed no more often than
    any of the five that are kept. *)
Theorem topCategories_most_listed :
  forall (rs : list Response) (insights : Insights),
    generateInsights rs = Some insights ->
    let top := topCategories insights in
    List.length top <= 5
    /\ NoDup (map tc_category top)
    /\ StronglySorted (fun a b => tc_count b <= tc_count a) top
    /\ (forall x : TopCategory,
          In x top ->
          tc_count x = listings (tc_category x) rs /\ 0 < tc_count x)
    /\ (forall c : string,
          0 < listings c rs -> ~ In c (map tc_category top) ->
          List.length top = 5
          /\ forall x : TopCategory, In x top -> listings c rs <= tc_count x).
Proof.
  intros rs insights H top.
  destruct (generateInsights_tracked rs insights H) as [cm [T [N E]]].
  set (sorted := sort (by_score_desc tc_count) (map top_category (entries cm)))
    in E.
  assert (S : StronglySorted (fun a b => tc_count b <= tc_count a) sorted)
    by apply sort_desc.
  assert (L : forall c, listings c rs
                        = List.length (sentiments_of c (events rs))).
  { intros c. unfold listings.
    now rewrite sentiments_of_length, events_categories. }
  assert (M : forall x, In x sorted ->
                tc_count x = listings (tc_category x) rs /\ 0 < tc_count x).
  { intros x Hx. destruct (top_category_In cm (events rs) x T N Hx) as [Hn [Hc _]].
    rewrite L, Hc. split; [reflexivity|].
    destruct (sentiments_of (tc_category x) (events rs));
      [contradiction|simpl; lia]. }
  subst top. rewrite E. split; [apply firstn_le_length|].
  split; [|split; [|split]].
  - rewrite <- firstn_map. apply NoDup_firstn.
    apply (Permutation_NoDup (Permutation_sym (top_category_keys cm)) N).
  - rewrite <- (firstn_skipn 5 sorted) in S.
    clear - S. induction (firstn 5 sorted) as [|a l IH]; [constructor|].
    simpl in S. inversion S as [|? ? Sl Sa]; subst.
    constructor; [now apply IH|].
    rewrite Forall_app in Sa. tauto.
  - intros x Hx. apply M. now apply (In_firstn 5).
  - intros c Hc Hout.
    assert (K : In c (map tc_category sorted)).
    { apply (Permutation_in _ (Permutation_sym (top_category_keys cm))).
      rewrite L in Hc. specialize (T c).
      destruct (sentiments_of c (events rs)) as [|s ss]; [simpl in Hc; lia|].
      apply get_own_Some in T. unfold keys. apply in_map_iff.
      now exists (c, (List.length (s :: ss), s :: ss)). }
    rewrite <- (firstn_skipn 5 sorted), map_app, in_app_iff in K.
    rewrite <- firstn_map in Hout.
    destruct K as [K|K]; [rewrite <- firstn_map in K; contradiction|].
    apply in_map_iff in K. destruct K as [y [Ey Hy]]. split.
    + rewrite length_firstn. apply Nat.min_l.
      destruct (Nat.le_gt_cases 5 (List.length sorted)) as [G|G]; [trivial|].
      rewrite skipn_all2 in Hy by lia. destruct Hy.
    + intros x Hx.
      assert (R := sorted_beyond _ 5 sorted S x y Hx Hy). simpl in R.
      destruct (M y (In_skipn 5 _ _ Hy)) as [Cy _].
      rewrite Ey in Cy. lia.
Qed.

(** Three responses that list Pricing, one of them twice, and one that lists
    Security. *)
Lemma topCategories_most_listed_witness :
  let with_categories cs :=
    {| resp_sentiment := Some "positive";
       resp_metadata := Some {| md_urgency := None; md_actionRequired := false;
                                md_categories := Some cs |} |} in
  let rs := [with_categories ["Pricing"]; with_categories ["Security"; "Pricing"];
             with_categories ["Pricing"; "Pricing"]] in
  exists insights,
    generateInsights rs = Some insights
    /\ map tc_category (topCategories insights) = ["Pricing"; "Security"]
    /\ StronglySorted (fun a b => tc_count b <= tc_count a)
                      (topCategories insights).
Proof.
  intros with_categories rs.
  destruct (generateInsights rs) as [insights|] eqn:E;
    [|vm_compute in E; discriminate].
  exists insights. split; [reflexivity|]. split.
  - vm_compute in E. injection E as <-. reflexivity.
  - now destruct (topCategories_most_listed rs insights E) as [_ [_ [S _]]].
Defined.

(** X10.  When every response has one of the sentiments positive, neutral and
    negative, or none, the sentiment of a top category is the most frequent
    one among the listings of the category, a response without a sentiment
    counting as neutral; of two sentiments that are as frequent, positive
    comes before neutral and neutral before negative. *)
Theorem topCategories_sentiment_most_frequent :
  forall (rs : list Response) (insights : Insights),
    (forall r : Response,
        In r rs ->
        In (sentiment_or_neutral r) ["positive"; "neutral"; "negative"]) ->
    generateInsights rs = Some insights ->
    forall x : TopCategory,
      In x (topCategories insights) ->
      tc_sentiment x
      = most_frequent (listings_with "positive" (tc_category x) rs)
                      (listings_with "neutral" (tc_category x) rs)
                      (listings_with "negative" (tc_category x) rs).
Proof.
  intros rs insights Hs H x Hx.
  destruct (generateInsights_tracked rs insights H) as [cm [T [N E]]].
  rewrite E in Hx. apply In_firstn in Hx.
  destruct (top_category_In cm (events rs) x T N Hx) as [_ [_ D]].
  rewrite D, <- !sentiments_of_count.
  apply dominant_most_frequent.
  apply Forall_forall. intros s Hin.
  apply sentiments_of_events in Hin. destruct Hin as [r [Hr ->]]. now apply Hs.
Qed.

(** Pricing listed by one positive and one negative response: positive. *)
Lemma topCategories_sentiment_most_frequent_witness :
  let listing s :=
    {| resp_sentiment := Some s;
       resp_metadata := Some {| md_urgency := None; md_actionRequired := false;
                                md_categories := Some ["Pricing"] |} |} in
  let rs := [listing "negative"; listing "positive"] in
  exists insights,
    generateInsights rs = Some insights
    /\ map tc_sentiment (topCategories insights) = ["positive"]
    /\ forall x, In x (topCategories insights) ->
         tc_sentiment x
         = most_frequent (listings_with "positive" (tc_category x) rs)
                         (listings_with "neutral" (tc_category x) rs)
                         (listings_with "negative" (tc_category x) rs).
Proof.
  intros listing rs.
  destruct (generateInsights rs) as [insights|] eqn:E;
    [|vm_compute in E; discriminate].
  exists insights. split; [reflexivity|]. split.
  - vm_compute in E. injection E as <-. reflexivity.
  - apply (topCategories_sentiment_most_frequent rs insights); [|exact E].
    intros r [<-|[<-|[]]]; simpl; tauto.
Defined.

(** X11.  The order of the responses matters to the trend and to the ties
    of the top categories only: when [generateInsights] returns for a
    collection, it returns for the same responses in any other order, with
    the same [overallSentiment], [urgentIssues] and [actionableItems]. *)
Theorem generateInsights_in_any_order :
  forall (rs rs' : list Response) (insights : Insights),
    Permutation rs rs' ->
    generateInsights rs = Some insights ->
    exists insights' : Insights,
      generateInsights rs' = Some insights'
      /\ overallSentiment insights' = overallSentiment insights
      /\ urgentIssues insights' = urgentIssues insights
      /\ actionableItems insights' = actionableItems insights.
Proof.
  intros rs rs' insights P H.
  assert (Pl : plain_categories rs) by now apply (generateInsights_Some_plain rs insights).
  assert (Pl' : plain_categories rs').
  { intros r c Hr Hc. apply (Pl r c); [|exact Hc].
    now apply (Permutation_in _ (Permutation_sym P)). }
  destruct (generateInsights_plain rs' Pl') as [insights' [E' [O' _]]].
  destruct (generateInsights_plain rs Pl) as [insights0 [E [O _]]].
  rewrite H in E. injection E as <-.
  exists insights'. split; [exact E'|].
  destruct (generateInsights_counts rs insights H) as [U Ac].
  destruct (generateInsights_counts rs' insights' E') as [U' Ac'].
  rewrite U, U', Ac, Ac'.
  rewrite (filter_length_perm is_urgent rs rs' P),
    (filter_length_perm needs_action rs rs' P).
  split; [|split; reflexivity].
  destruct rs as [|r rs].
  - apply Permutation_nil in P. subst rs'.
    injection H as <-. now injection E' as <-.
  - assert (N' : rs' <> []).
    { intros ->. apply Permutation_sym, Permutation_nil in P. discriminate. }
    rewrite (O' N'), O by discriminate.
    unfold with_sentiment.
    rewrite <- (Permutation_length P).
    now rewrite !(filter_length_perm _ (r :: rs) rs' P).
Qed.

(** Two responses, and the same two the other way round. *)
Lemma generateInsights_in_any_order_witness :
  exists insights' : Insights,
    generateInsights [response_of "positive"; response_of "negative"]
    = Some insights'
    /\ pc_positive (overallSentiment insights') = 50%float.
Proof.
  destruct (generateInsights [response_of "negative"; response_of "positive"])
    as [insights|] eqn:E; [|vm_compute in E; discriminate].
  destruct (generateInsights_in_any_order
              [response_of "negative"; response_of "positive"]
              [response_of "positive"; response_of "negative"]
              insights (perm_swap _ _ []) E)
    as [insights' [E' [O _]]].
  exists insights'. split; [exact E'|]. rewrite O.
  vm_compute in E. injection E as <-. reflexivity.
Defined.

(* ================================================================== *)
(** * Properties of FormService *)
(* ================================================================== *)

(** X12.  [isValidUUID] accepts exactly the strings of 36 characters that
    hold a hyphen at the places 8, 13, 18 and 23, one of 1 to 5 at the place
    14, one of 8, 9, a, b, A, B at the place 19 and a hexadecimal digit, in
    either case, at every other place; no other character is accepted, and
    nothing may follow the last digit. *)
Theorem isValidUUID_shape :
  forall uuid : string,
    isValidUUID uuid = true
    <-> String.length uuid = 36
        /\ forall (i : nat) (c : ascii),
             String.get i uuid = Some c -> uuid_character i c = true.
Proof.
  intros uuid. unfold isValidUUID.
  rewrite test_sequence_expand, match_classes_spec.
  change (List.length (expand uuidRegex)) with 36.
  split; intros [L H]; (split; [exact L|]).
  - intros i c Hc.
    destruct (nth_error (expand uuidRegex) i) as [cls|] eqn:E.
    + rewrite <- (uuid_classes i cls c E). now apply (H i).
    + apply nth_error_None in E. change (List.length (expand uuidRegex)) with 36 in E.
      assert (G : i < String.length uuid).
      { clear - Hc. revert i Hc. induction uuid as [|a uuid IH]; intros i Hc;
          [discriminate|]. destruct i as [|i]; simpl; [lia|].
        simpl in Hc. apply IH in Hc. lia. }
      lia.
  - intros i c cls Hc E. rewrite (uuid_classes i cls c E). now apply H.
Qed.

(** X13.  [isValidUUID] does not look at the case of the letters: an
    identifier and its lower-case form are accepted or refused together. *)
Theorem isValidUUID_ignores_case :
  forall uuid : string,
    isValidUUID (toLowerCase uuid) = isValidUUID uuid.
Proof.
  intros uuid. unfold isValidUUID.
  rewrite !test_sequence_expand. apply match_classes_lower.
Qed.

(** X14.  A theme comes back from its row as it was exactly when none of its
    texts is empty: the thirteen texts it always has, and the image and the
    logo when present.  An empty text comes back as the default, an empty
    image or logo as none. *)
Theorem theme_round_trip :
  forall theme : FeedbackTheme,
    databaseToTheme (themeToDatabase theme) = theme <-> filled theme = true.
Proof.
  intros theme. destruct theme as
    [pc bc tc br bi bt gd gc lg lp ls [fe ft fl] ly ff sp an].
  unfold filled, databaseToTheme, themeToDatabase.
  cbn [primaryColor backgroundColor textColor borderRadius backgroundImage
       backgroundType gradientDirection gradientColors logo logoPosition logoSize
       footer layout fontFamily spacing animation enabled text links
       Db.primary_color Db.background_color Db.text_color Db.border_radius
       Db.font_family Db.background_type Db.background_image
       Db.gradient_direction Db.gradient_colors Db.logo_url Db.logo_position
       Db.logo_size Db.footer_enabled Db.footer_text Db.footer_links
       Db.layout_style Db.spacing Db.animation forallb or_array].
  assert (B : or_bool (Some fe) (enabled (footer DEFAULT_THEME)) = fe)
    by now destruct fe.
  rewrite B, !or_nothing_idem. clear B.
  rewrite !andb_true_iff, !negb_true_iff.
  rewrite <- !or_nothing_fixed.
  rewrite <- (or_string_fixed pc (primaryColor DEFAULT_THEME)),
    <- (or_string_fixed bc (backgroundColor DEFAULT_THEME)),
    <- (or_string_fixed tc (textColor DEFAULT_THEME)),
    <- (or_string_fixed br (borderRadius DEFAULT_THEME)),
    <- (or_string_fixed ff (fontFamily DEFAULT_THEME)),
    <- (or_string_fixed bt (backgroundType DEFAULT_THEME)),
    <- (or_string_fixed gd (gradientDirection DEFAULT_THEME)),
    <- (or_string_fixed lp (logoPosition DEFAULT_THEME)),
    <- (or_string_fixed ls (logoSize DEFAULT_THEME)),
    <- (or_string_fixed ft (text (footer DEFAULT_THEME))),
    <- (or_string_fixed ly (layout DEFAULT_THEME)),
    <- (or_string_fixed sp (spacing DEFAULT_THEME)),
    <- (or_string_fixed an (animation DEFAULT_THEME)) by reflexivity.
  split.
  - intros H. injection H. intros. repeat split; assumption.
  - intros [[[H1 [H2 [H3 [H4 [H5 [H6 [H7 [H8 [H9 [H10 [H11 [H12 [H13 _]]]]]]]]]]]]] Hi] Hl].
    now rewrite H1, H2, H3, H4, H5, H6, H7, H8, H9, H10, H11, H12, H13, Hi, Hl.
Qed.

(** X15.  Whatever the row, the theme read from it has no empty text: what
    the row leaves null or empty is the default, and an image or a logo is
    a text that is not empty or is absent. *)
Theorem databaseToTheme_filled :
  forall dbTheme : Db.Theme, filled (databaseToTheme dbTheme) = true.
Proof.
  intros dbTheme. unfold filled, databaseToTheme.
  cbn [primaryColor backgroundColor textColor borderRadius backgroundImage
       backgroundType gradientDirection logo logoPosition logoSize footer
       layout fontFamily spacing animation text forallb].
  rewrite !or_nothing_filled, !or_string_filled; reflexivity.
Qed.

(** X16.  [submitResponse] analyses the answers exactly when one of them is
    a string longer than ten characters; the text analysed is then made of
    those answers, joined by spaces, and the row takes its sentiment from
    [analyzeSentiment].  When no answer is that long, however long the
    answers are together, the row has no sentiment, no category, the urgency
    low and no action required. *)
Theorem submitResponse_analyses_long_answers :
  forall responseData : object value,
    let long :=
      exists (k s : string),
        In (k, VString s) responseData /\ 10 < String.length s in
    (long ->
     resp_sentiment (inserted_row responseData)
     = Some (Sentiment_string
               (sentiment (analyzeSentiment (textResponses responseData)))))
    /\ (~ long ->
        inserted_row responseData
        = {| resp_sentiment := None;
             resp_metadata := Some {| md_urgency := Some "low";
                                      md_actionRequired := false;
                                      md_categories := Some [] |} |}).
Proof.
  intros responseData long. split.
  - intros H. apply analysis_of_long_answer in H.
    unfold inserted_row. rewrite H. cbn [resp_sentiment].
    now destruct (sentiment _).
  - intros H. unfold inserted_row.
    destruct (analysis_of responseData) as [[a c]|] eqn:E; [|reflexivity].
    exfalso. apply H. apply analysis_of_long_answer.
    unfold analysis_of in E |- *.
    now destruct (10 <? String.length (textResponses responseData)).
Qed.

(** X17.  On rows that [submitResponse] wrote, whatever the answers were,
    [generateInsights] returns; the urgent issues are then no more than the
    actionable items, and every top category is General Feedback or a name
    of the table of categories. *)
Theorem generateInsights_on_inserted_rows :
  forall submissions : list (object value),
    exists insights : Insights,
      generateInsights (map inserted_row submissions) = Some insights
      /\ urgentIssues insights <= actionableItems insights
      /\ forall x : TopCategory,
           In x (topCategories insights) ->
           tc_category x = "General Feedback"
           \/ In (tc_category x) (keys CATEGORY_KEYWORDS).
Proof.
  intros submissions.
  set (rows := map inserted_row submissions).
  destruct (generateInsights_plain rows (inserted_rows_plain submissions))
    as [insights [E _]].
  exists insights. split; [exact E|]. split.
  - assert (C : urgentIssues insights = List.length (filter is_urgent rows)
                /\ actionableItems insights
                   = List.length (filter needs_action rows)).
    { destruct rows as [|r rs] eqn:Er.
      - injection E as <-. split; reflexivity.
      - destruct (generateInsights_tally _ _ E) as [t [F [_ [U Ac]]]];
          [discriminate|].
        apply tally_counts in F. cbn [urgent actionable] in F.
        rewrite U, Ac. exact F. }
    destruct C as [-> ->]. apply filter_length_le.
    intros r Hr. apply in_map_iff in Hr. destruct Hr as [data [<- _]].
    apply inserted_row_urgent.
  - intros x Hx.
    destruct (generateInsights_tracked rows insights E) as [cm [T [N Et]]].
    rewrite Et in Hx. apply In_firstn in Hx.
    destruct (top_category_In cm (events rows) x T N Hx) as [Hn _].
    destruct (sentiments_of (tc_category x) (events rows)) as [|s ss] eqn:Es;
      [contradiction|].
    assert (Hin : In s (sentiments_of (tc_category x) (events rows)))
      by (rewrite Es; now left).
    unfold sentiments_of in Hin. apply in_map_iff in Hin.
    destruct Hin as [[c s'] [_ Hin]]. apply filter_In in Hin.
    destruct Hin as [Hin Hc]. simpl in Hc. apply String.eqb_eq in Hc. subst c.
    unfold events in Hin. apply in_flat_map in Hin.
    destruct Hin as [r [Hr Hin]]. apply in_map_iff in Hin.
    destruct Hin as [c [Ec Hc]]. injection Ec as -> _.
    apply in_map_iff in Hr. destruct Hr as [data [<- _]].
    now apply (inserted_row_categories data).
Qed.

(** X18.  The dashboard and the analytics agree: when [generateInsights]
    returns, its [overallSentiment] is the [sentimentBreakdown] that
    [getDashboardStats] computes from the same responses, a sentiment that is
    none of the three being counted by neither. *)
Theorem sentimentBreakdown_is_overallSentiment :
  forall (rs : list Response) (insights : Insights),
    generateInsights rs = Some insights ->
    sentimentBreakdown rs = overallSentiment insights.
Proof.
  intros rs insights H.
  destruct rs as [|r rs]; [now injection H as <-|].
  destruct (generateInsights_plain _ (generateInsights_Some_plain _ _ H))
    as [insights' [E [O _]]].
  rewrite H in E. injection E as <-. rewrite O by discriminate.
  unfold sentimentBreakdown.
  change (0 <? List.length (r :: rs)) with true. cbv iota.
  unfold count_of.
  rewrite (count_own_sentiments "positive" (r :: rs) ltac:(discriminate) no_counts 0 eq_refl),
    (count_own_sentiments "neutral" (r :: rs) ltac:(discriminate) no_counts 0 eq_refl),
    (count_own_sentiments "negative" (r :: rs) ltac:(discriminate) no_counts 0 eq_refl).
  reflexivity.
Qed.

(** One response of each sentiment and one of a sentiment that is none of
    the three: three times 25. *)
Lemma sentimentBreakdown_is_overallSentiment_witness :
  sentimentBreakdown
    [response_of "positive"; response_of "neutral"; response_of "negative";
     response_of "mixed"]
  = {| pc_positive := 25%float; pc_neutral := 25%float; pc_negative := 25%float |}.
Proof.
  rewrite (sentimentBreakdown_is_overallSentiment
             [response_of "positive"; response_of "neutral";
              response_of "negative"; response_of "mixed"]
             {| overallSentiment :=
                  {| pc_positive := 25%float; pc_neutral := 25%float;
                     pc_negative := 25%float |};
                topCategories := [];
                urgentIssues := 0;
                actionableItems := 0;
                sentimentTrend := Stable;
                categoryTrends := [] |});
    reflexivity.
Defined.

(* ================================================================== *)
(** * Properties of FeedbackUpdateService *)
(* ================================================================== *)

(** X19.  Under the default rules, an update of a feedback with a valid
    identifier that gives nothing but categories is accepted exactly when
    the categories are pairwise distinct, at most ten and all among the
    twelve allowed ones.  The allowed categories are not the names of
    members of [Object.prototype], so accepted categories cannot make
    [generateInsights] throw. *)
Theorem validateFeedbackData_categories :
  forall (id : string) (categories : list string),
    isValidUUID id = true ->
    (fst (validateFeedbackData (categories_update id categories)
                               DEFAULT_VALIDATION_RULES) = true
     <-> NoDup categories
         /\ List.length categories <= 10
         /\ forall c : string, In c categories -> In c default_categories)
    /\ forall c : string, In c default_categories -> inherited c = false.
Proof.
  intros id categories H. split.
  - rewrite (validate_categories_update id categories H). cbn [fst].
    rewrite Nat.eqb_eq, length_zero_iff_nil. apply default_category_checks.
  - intros c Hc. vm_compute in Hc.
    repeat (destruct Hc as [<-|Hc]; [reflexivity|]). destruct Hc.
Qed.

(** Two of the allowed categories. *)
Lemma validateFeedbackData_categories_witness :
  fst (validateFeedbackData
         (categories_update "123e4567-e89b-42d3-a456-426614174000"
                            ["Pricing"; "Bug Report"])
         DEFAULT_VALIDATION_RULES) = true.
Proof.
  apply (validateFeedbackData_categories
           "123e4567-e89b-42d3-a456-426614174000" ["Pricing"; "Bug Report"]);
    [reflexivity|].
  split; [|split].
  - repeat constructor; simpl; intuition discriminate.
  - simpl. lia.
  - intros c [<-|[<-|[]]]; vm_compute; tauto.
Defined.

(** X20.  The categories [submitResponse] stores are accepted by the default
    rules of an update when they come from the table of categories, and
    refused when the analysis found none: General Feedback, which
    [categorizeFeedback] then gives, is not among the allowed ones. *)
Theorem stored_categories_and_default_rules :
  forall (id : string) (responseData : object value),
    isValidUUID id = true ->
    let stored := response_categories (inserted_row responseData) in
    fst (validateFeedbackData (categories_update id stored)
                              DEFAULT_VALIDATION_RULES)
    = negb (array_includes stored "General Feedback").
Proof.
  intros id responseData H stored.
  rewrite (validate_categories_update id stored H). cbn [fst].
  destruct (inserted_row_kept responseData) as [E|[E|[N [L M]]]];
    fold stored in E || fold stored in N, L, M.
  - rewrite E. reflexivity.
  - rewrite E. reflexivity.
  - assert (G : array_includes stored "General Feedback" = false).
    { destruct (array_includes stored "General Feedback") eqn:A; [|reflexivity].
      apply array_includes_In, M in A. vm_compute in A. intuition discriminate. }
    rewrite G. simpl negb. apply Nat.eqb_eq, length_zero_iff_nil.
    apply default_category_checks. split; [exact N|]. split; [lia|].
    intros c Hc. apply M in Hc. vm_compute in Hc |- *. tauto.
Qed.

(** An answer about nothing the table of categories knows: General Feedback
    is stored, and refused when sent back. *)
Lemma stored_categories_and_default_rules_witness :
  response_categories
    (inserted_row [("q1", VString "Nothing much to say today")])
  = ["General Feedback"]
  /\ fst (validateFeedbackData
            (categories_update "123e4567-e89b-42d3-a456-426614174000"
               (response_categories
                  (inserted_row [("q1", VString "Nothing much to say today")])))
            DEFAULT_VALIDATION_RULES) = false.
Proof.
  split; [vm_compute; reflexivity|].
  rewrite (stored_categories_and_default_rules
             "123e4567-e89b-42d3-a456-426614174000"
             [("q1", VString "Nothing much to say today")]); reflexivity.
Defined.
